(** * go-openai image endpoints: multipart form builder and MIME sniffing

    A shallow embedding of [image.go] and of the form builder it relies on
    ([DefaultFormBuilder], [detectMimeType], [escapeQuotes]), with the
    properties of the specification stated and proved over it.

    Conventions.
    - A Go [string] is a Rocq [string]: a sequence of 8-bit characters.
    - A Go [[]byte] holding file content is a [list byte].
    - A Go [error] result is an [option error] ([None] is [nil]).
    - Objects that Go mutates in place (readers, the multipart writer) are
      passed and returned explicitly.
    - The [fmt.Printf] debug lines of [CreateEditImage] write to standard
      output only and are left out. *)

From Stdlib Require Import List String Ascii Bool Arith ZArith NArith Lia.
From Stdlib.Strings Require Import Byte.
From Stdlib Require Import DecimalString.
Import ListNotations.
Local Open Scope string_scope.

(** ** Strings *)

Module GoString.

(** The double quote, the backslash and the slash. *)
Definition dquote : ascii := "034"%char.
Definition backslash : ascii := "\"%char.
Definition slash : ascii := "/"%char.

Definition quote : string := String dquote EmptyString.

Definition chars (s : string) : list ascii := list_ascii_of_string s.
Definition unchars (l : list ascii) : string := string_of_list_ascii l.

End GoString.
Import GoString.

(** ** [escapeQuotes]

    [quoteEscaper] is [strings.NewReplacer] over two one-byte patterns, so
    [Replace] walks the string once and rewrites each byte on its own:
    a backslash becomes two backslashes, a double quote becomes a backslash
    followed by the double quote. *)

Fixpoint escapeQuotes (s : string) : string :=
  match s with
  | EmptyString => EmptyString
  | String c r =>
      if Ascii.eqb c backslash then String backslash (String backslash (escapeQuotes r))
      else if Ascii.eqb c dquote then String backslash (String dquote (escapeQuotes r))
      else String c (escapeQuotes r)
  end.

(** ** [filepath.Base] (Unix: the separator is the slash, no volume name) *)

Module filepath.

Definition IsPathSeparator (c : ascii) : bool := Ascii.eqb c slash.

(** Drop elements from the front while [f] holds. *)
Fixpoint dropWhile {A} (f : A -> bool) (l : list A) : list A :=
  match l with
  | [] => []
  | x :: r => if f x then dropWhile f r else l
  end.

Fixpoint takeWhile {A} (f : A -> bool) (l : list A) : list A :=
  match l with
  | [] => []
  | x :: r => if f x then x :: takeWhile f r else []
  end.

(** "Strip trailing slashes": the loop shortens [path] from its end. *)
Definition stripTrailing (path : list ascii) : list ascii :=
  rev (dropWhile IsPathSeparator (rev path)).

(** "Find the last element": [i] walks back from the end to the last
    separator, and [path[i+1:]] is kept (all of [path] when there is
    none). *)
Definition lastElement (path : list ascii) : list ascii :=
  rev (takeWhile (fun c => negb (IsPathSeparator c)) (rev path)).

Definition Base (path : string) : string :=
  match path with
  | EmptyString => "."
  | _ =>
      let p := lastElement (stripTrailing (chars path)) in
      match p with
      | [] => String slash EmptyString
      | _ => unchars p
      end
  end.

End filepath.

(** ** The Content-Disposition value of a file part

    [fmt.Sprintf] with the format
    [form-data; name=%s; filename=%s], both verbs between double quotes. *)

Definition fileDisposition (fieldname filename : string) : string :=
  "form-data; name=" ++ quote ++ fieldname ++ quote
    ++ "; filename=" ++ quote ++ filename ++ quote.

Definition fieldDisposition (fieldname : string) : string :=
  "form-data; name=" ++ quote ++ fieldname ++ quote.

(** ** Reading a header value back

    The decoder of a quoted string: after the opening quote, a backslash
    makes the next character literal, and the first quote that is not
    escaped closes the value.  It returns the value and what follows the
    closing quote. *)

Module HeaderParse.

Fixpoint quotedBody (s : string) : option (string * string) :=
  match s with
  | EmptyString => None
  | String c r =>
      if Ascii.eqb c dquote then Some (EmptyString, r)
      else if Ascii.eqb c backslash then
        match r with
        | EmptyString => None
        | String d r' =>
            match quotedBody r' with
            | Some (v, rest) => Some (String d v, rest)
            | None => None
            end
        end
      else
        match quotedBody r with
        | Some (v, rest) => Some (String c v, rest)
        | None => None
        end
  end.

Definition quotedString (s : string) : option (string * string) :=
  match s with
  | String c r => if Ascii.eqb c dquote then quotedBody r else None
  | EmptyString => None
  end.

(** [expect lit s] drops the literal [lit] from the front of [s]. *)
Fixpoint expect (lit s : string) {struct lit} : option string :=
  match lit, s with
  | EmptyString, _ => Some s
  | String _ _, EmptyString => None
  | String a lit', String b s' =>
      if Ascii.eqb a b then expect lit' s' else None
  end.

(** The two parameters of a file part's Content-Disposition value. *)
Definition parseFileDisposition (v : string) : option (string * string) :=
  match expect "form-data; name=" v with
  | None => None
  | Some v1 =>
      match quotedString v1 with
      | None => None
      | Some (name, v2) =>
          match expect "; filename=" v2 with
          | None => None
          | Some v3 =>
              match quotedString v3 with
              | Some (filename, EmptyString) => Some (name, filename)
              | _ => None
              end
          end
      end
  end.

End HeaderParse.

(** ** Errors

    [io.EOF] is a single value compared by identity; every other error is
    a message.  [fmt.Errorf] with the verb [%w] wraps a cause, which
    [errors.Unwrap] gives back. *)

Local Open Scope list_scope.

Inductive error : Type :=
| EOF
| Err (msg : string)
| Wrap (prefix : string) (cause : error).

Definition isEOF (e : error) : bool :=
  match e with EOF => true | _ => false end.

Definition Unwrap (e : error) : option error :=
  match e with Wrap _ c => Some c | _ => None end.

Inductive result (A : Type) : Type :=
| Ok (a : A)
| Error (e : error).
Arguments Ok {A} a.
Arguments Error {A} e.

(** ** Readers

    The values an [io.Reader] argument can hold here:
    - [OsFile]: an [*os.File] on a regular file, with its name, its bytes and
      the current offset; it has [Name] and [Seek];
    - [Stream]: a forward-only source (pipe, network body, test double) that
      hands out [chunks] one [Read] at a time, cut to the buffer, then
      returns [final] for ever; with [eager] set the last chunk comes
      together with [final], which [io.Reader] allows; [name] is [Some]
      when the dynamic type has a [Name() string] method;
    - [StringsReader]: [strings.NewReader], the unread rest of its string;
    - [MultiReader]: [io.MultiReader], the readers not yet exhausted. *)

#[local] Set Warnings "-register-all".
Inductive Reader : Type :=
| OsFile (name : string) (data : list byte) (pos : nat)
| Stream (name : option string) (chunks : list (list byte)) (final : error) (eager : bool)
| StringsReader (s : list byte)
| MultiReader (rs : list Reader).

Definition ReadResult : Type := (list byte * option error) * Reader.

Definition isNil {A} (l : list A) : bool :=
  match l with [] => true | _ => false end.

(** [r.Read(p)] with [len(p) = p]: the bytes stored in [p[:n]], the error,
    and the reader afterwards. *)
Fixpoint Read (r : Reader) (p : nat) {struct r} : ReadResult :=
  match r with
  | OsFile name data pos =>
      let rest := skipn pos data in
      if (p =? 0)%nat then (([], None), r)
      else if isNil rest then (([], Some EOF), r)
      else
        let got := firstn p rest in
        ((got, None), OsFile name data (pos + List.length got))
  | Stream name chunks final eager =>
      match chunks with
      | [] => (([], Some final), r)
      | c :: cs =>
          if (List.length c <=? p)%nat then
            if isNil cs && eager then ((c, Some final), Stream name [] final eager)
            else ((c, None), Stream name cs final eager)
          else ((firstn p c, None), Stream name (skipn p c :: cs) final eager)
      end
  | StringsReader s =>
      if isNil s then (([], Some EOF), r)
      else ((firstn p s, None), StringsReader (skipn p s))
  | MultiReader rs =>
      (fix loop (rs : list Reader) : ReadResult :=
         match rs with
         | [] => (([], Some EOF), MultiReader [])
         | r0 :: rest =>
             match r0, rest with
             | MultiReader _, [] =>
                 (* a lone nested multiReader is flattened *)
                 Read r0 p
             | _, _ =>
                 let '((bs, e), r0') := Read r0 p in
                 match e with
                 | Some EOF =>
                     if isNil bs then loop rest
                     else ((bs, if isNil rest then Some EOF else None),
                           MultiReader rest)
                 | _ => ((bs, e), MultiReader (r0' :: rest))
                 end
             end
         end) rs
  end.

(** The dynamic type test [r.(interface{ Name() string })]. *)
Definition Name (r : Reader) : option string :=
  match r with
  | OsFile name _ _ => Some name
  | Stream name _ _ _ => name
  | StringsReader _ => None
  | MultiReader _ => None
  end.

(** The dynamic type test [r.( *os.File)]. *)
Definition isOsFile (r : Reader) : bool :=
  match r with OsFile _ _ _ => true | _ => false end.

(** [file.Seek(0, 0)] on a regular file. *)
Definition SeekStart (r : Reader) : Reader :=
  match r with
  | OsFile name data _ => OsFile name data 0
  | _ => r
  end.

(** What a reader still holds: the error that ends it ([EOF] for a clean
    end) and the bytes it delivers before that error. *)
Fixpoint ending (r : Reader) : error :=
  match r with
  | OsFile _ _ _ => EOF
  | Stream _ _ final _ => final
  | StringsReader _ => EOF
  | MultiReader rs =>
      (fix go (rs : list Reader) : error :=
         match rs with
         | [] => EOF
         | r0 :: rest => if isEOF (ending r0) then go rest else ending r0
         end) rs
  end.

Fixpoint contents (r : Reader) : list byte :=
  match r with
  | OsFile _ data pos => skipn pos data
  | Stream _ chunks _ _ => List.concat chunks
  | StringsReader s => s
  | MultiReader rs =>
      (fix go (rs : list Reader) : list byte :=
         match rs with
         | [] => []
         | r0 :: rest =>
             contents r0 ++ (if isEOF (ending r0) then go rest else [])
         end) rs
  end.

(** An upper bound on the number of [Read] calls, with a buffer that is
    not empty, before a reader returns an error. *)
Fixpoint weight (r : Reader) : nat :=
  match r with
  | OsFile _ data pos => List.length (skipn pos data)
  | Stream _ chunks _ _ =>
      (fix go (cs : list (list byte)) : nat :=
         match cs with
         | [] => 0
         | c :: cs' => S (List.length c + go cs')
         end) chunks
  | StringsReader s => List.length s
  | MultiReader rs =>
      (fix go (rs : list Reader) : nat :=
         match rs with
         | [] => 0
         | r0 :: rest => S (weight r0 + go rest)
         end) rs
  end.

(** Reading to the end with a buffer of [p] bytes, as [io.ReadAll] and
    [io.Copy] do: the bytes gathered and the error that stopped the loop. *)
Fixpoint drain (fuel : nat) (p : nat) (r : Reader) : option (list byte * error) :=
  match fuel with
  | O => None
  | S fuel' =>
      let '((bs, e), r') := Read r p in
      match e with
      | Some err => Some (bs, err)
      | None =>
          match drain fuel' p r' with
          | Some (bs', err) => Some (bs ++ bs', err)
          | None => None
          end
      end
  end.

(** ** [http.DetectContentType]

    The content sniffing of Go's [net/http] (file [sniff.go]), which
    [detectMimeType] calls on the bytes of its first read: at most
    [sniffLen] bytes are looked at, the signatures are tried in the order
    of the table, and the fallback is [application/octet-stream]. *)

Module sniff.

Definition sniffLen : nat := 512.

Definition bytes (s : string) : list byte := list_byte_of_string s.
Definition val (b : byte) : N := Byte.to_N b.

(** [bytes.Equal] and [bytes.HasPrefix] *)
Fixpoint Equal (a b : list byte) : bool :=
  match a, b with
  | [], [] => true
  | x :: a', y :: b' => Byte.eqb x y && Equal a' b'
  | _, _ => false
  end.

Fixpoint HasPrefix (data sig : list byte) : bool :=
  match sig, data with
  | [], _ => true
  | y :: sig', x :: data' => Byte.eqb x y && HasPrefix data' sig'
  | _ :: _, [] => false
  end.

(** [data[i:j]] *)
Definition slice (data : list byte) (i j : nat) : list byte :=
  firstn (j - i) (skipn i data).

Definition isWS (b : byte) : bool :=
  match b with
  | x09 | x0a | x0c | x0d | x20 => true
  | _ => false
  end.

Definition isTT (b : byte) : bool :=
  match b with
  | x20 | x3e => true
  | _ => false
  end.

Inductive sniffSig : Type :=
| htmlSig (h : list byte)
| maskedSig (mask pat : list byte) (skipWS : bool) (ct : string)
| exactSig (sig : list byte) (ct : string)
| mp4Sig
| textSig.

(** The loop of [htmlSig.match] over the bytes of the tag, then the test
    of the byte after it. *)
Fixpoint htmlLoop (h data : list byte) : bool :=
  match h with
  | [] => match data with d :: _ => isTT d | [] => false end
  | b :: h' =>
      match data with
      | [] => false
      | d :: data' =>
          let db := if ((65 <=? val b) && (val b <=? 90))%N
                    then N.land (val d) 223 else val d in
          if (val b =? db)%N then htmlLoop h' data' else false
      end
  end.

Fixpoint maskedLoop (pat mask data : list byte) : bool :=
  match pat, mask, data with
  | [], _, _ => true
  | pb :: pat', m :: mask', d :: data' =>
      if (N.land (val d) (val m) =? val pb)%N
      then maskedLoop pat' mask' data' else false
  | _, _, _ => false
  end.

(** [binary.BigEndian.Uint32(data[:4])] *)
Definition Uint32 (data : list byte) : N :=
  match data with
  | a :: b :: c :: d :: _ =>
      (((val a * 256 + val b) * 256 + val c) * 256 + val d)%N
  | _ => 0%N
  end.

(** The loop [for st := 8; st < boxSize; st += 4]; [fuel] bounds the
    number of rounds. *)
Fixpoint mp4Loop (fuel st boxSize : nat) (data : list byte) : bool :=
  match fuel with
  | O => false
  | S fuel' =>
      if (st <? boxSize)%nat then
        if (st =? 12)%nat then mp4Loop fuel' (st + 4) boxSize data
        else if Equal (slice data st (st + 3)) (bytes "mp4") then true
        else mp4Loop fuel' (st + 4) boxSize data
      else false
  end.

Definition mp4Match (data : list byte) : string :=
  if (List.length data <? 12)%nat then ""
  else
    let boxSize := Uint32 data in
    if ((N.of_nat (List.length data) <? boxSize) || negb (boxSize mod 4 =? 0))%N
    then ""
    else if negb (Equal (slice data 4 8) (bytes "ftyp")) then ""
    else if mp4Loop (N.to_nat boxSize) 8 (N.to_nat boxSize) data
         then "video/mp4" else "".

Definition textBinary (b : byte) : bool :=
  let v := val b in
  ((v <=? 8) || (v =? 11) || ((14 <=? v) && (v <=? 26))
   || ((28 <=? v) && (v <=? 31)))%N.

Definition sigMatch (s : sniffSig) (data : list byte) (firstNonWS : nat) : string :=
  match s with
  | htmlSig h =>
      let data := skipn firstNonWS data in
      if (List.length data <? List.length h + 1)%nat then ""
      else if htmlLoop h data then "text/html; charset=utf-8" else ""
  | maskedSig mask pat skipWS ct =>
      let data := if skipWS then skipn firstNonWS data else data in
      if negb (List.length pat =? List.length mask)%nat then ""
      else if (List.length data <? List.length pat)%nat then ""
      else if maskedLoop pat mask data then ct else ""
  | exactSig sig ct => if HasPrefix data sig then ct else ""
  | mp4Sig => mp4Match data
  | textSig =>
      if existsb textBinary (skipn firstNonWS data) then ""
      else "text/plain; charset=utf-8"
  end.

Definition FF (n : nat) : list byte := repeat xff n.
Definition ZZ (n : nat) : list byte := repeat x00 n.

Definition sniffSignatures : list sniffSig :=
  [ htmlSig (bytes "<!DOCTYPE HTML");
    htmlSig (bytes "<HTML");
    htmlSig (bytes "<HEAD");
    htmlSig (bytes "<SCRIPT");
    htmlSig (bytes "<IFRAME");
    htmlSig (bytes "<H1");
    htmlSig (bytes "<DIV");
    htmlSig (bytes "<FONT");
    htmlSig (bytes "<TABLE");
    htmlSig (bytes "<A");
    htmlSig (bytes "<STYLE");
    htmlSig (bytes "<TITLE");
    htmlSig (bytes "<B");
    htmlSig (bytes "<BODY");
    htmlSig (bytes "<BR");
    htmlSig (bytes "<P");
    htmlSig (bytes "<!--");
    maskedSig (FF 5) (bytes "<?xml") true "text/xml; charset=utf-8";
    exactSig (bytes "%PDF-") "application/pdf";
    exactSig (bytes "%!PS-Adobe-") "application/postscript";
    (* UTF BOMs *)
    maskedSig (FF 2 ++ ZZ 2) [xfe; xff; x00; x00] false "text/plain; charset=utf-16be";
    maskedSig (FF 2 ++ ZZ 2) [xff; xfe; x00; x00] false "text/plain; charset=utf-16le";
    maskedSig (FF 3 ++ ZZ 1) [xef; xbb; xbf; x00] false "text/plain; charset=utf-8";
    (* Image types *)
    exactSig [x00; x00; x01; x00] "image/x-icon";
    exactSig [x00; x00; x02; x00] "image/x-icon";
    exactSig (bytes "BM") "image/bmp";
    exactSig (bytes "GIF87a") "image/gif";
    exactSig (bytes "GIF89a") "image/gif";
    maskedSig (FF 4 ++ ZZ 4 ++ FF 6) (bytes "RIFF" ++ ZZ 4 ++ bytes "WEBPVP")
              false "image/webp";
    exactSig ([x89] ++ bytes "PNG" ++ [x0d; x0a; x1a; x0a]) "image/png";
    exactSig [xff; xd8; xff] "image/jpeg";
    (* Audio and video types *)
    maskedSig (FF 4 ++ ZZ 4 ++ FF 4) (bytes "FORM" ++ ZZ 4 ++ bytes "AIFF")
              false "audio/aiff";
    maskedSig (FF 3) (bytes "ID3") false "audio/mpeg";
    maskedSig (FF 5) (bytes "OggS" ++ ZZ 1) false "application/ogg";
    maskedSig (FF 8) (bytes "MThd" ++ [x00; x00; x00; x06]) false "audio/midi";
    maskedSig (FF 4 ++ ZZ 4 ++ FF 4) (bytes "RIFF" ++ ZZ 4 ++ bytes "AVI ")
              false "video/avi";
    maskedSig (FF 4 ++ ZZ 4 ++ FF 4) (bytes "RIFF" ++ ZZ 4 ++ bytes "WAVE")
              false "audio/wave";
    mp4Sig;
    exactSig [x1a; x45; xdf; xa3] "video/webm";
    (* Font types *)
    maskedSig (ZZ 34 ++ FF 2) (ZZ 34 ++ bytes "LP") false
              "application/vnd.ms-fontobject";
    exactSig [x00; x01; x00; x00] "font/ttf";
    exactSig (bytes "OTTO") "font/otf";
    exactSig (bytes "ttcf") "font/collection";
    exactSig (bytes "wOFF") "font/woff";
    exactSig (bytes "wOF2") "font/woff2";
    (* Archive types *)
    exactSig [x1f; x8b; x08] "application/x-gzip";
    exactSig (bytes "PK" ++ [x03; x04]) "application/zip";
    exactSig (bytes "Rar!" ++ [x1a; x07; x00]) "application/x-rar-compressed";
    exactSig (bytes "Rar!" ++ [x1a; x07; x01; x00]) "application/x-rar-compressed";
    exactSig ([x00] ++ bytes "asm") "application/wasm";
    textSig (* should be last *)
  ].

(** The first signature of [sigs] with an answer, and the fallback. *)
Fixpoint firstMatch (sigs : list sniffSig) (data : list byte) (firstNonWS : nat) : string :=
  match sigs with
  | [] => "application/octet-stream"
  | s :: sigs' =>
      match sigMatch s data firstNonWS with
      | EmptyString => firstMatch sigs' data firstNonWS
      | ct => ct
      end
  end.

Definition DetectContentType (data : list byte) : string :=
  let data := firstn sniffLen data in
  let firstNonWS := List.length (filepath.takeWhile isWS data) in
  firstMatch sniffSignatures data firstNonWS.

End sniff.

(** ** [detectMimeType] *)

Definition detectMimeType (r : Reader) : result (string * Reader) :=
  let '((buffer, err), r') := Read r 512 in
  match err with
  | Some e =>
      if isEOF e then
        Ok (sniff.DetectContentType buffer,
            MultiReader [StringsReader buffer; r'])
      else Error e
  | None =>
      Ok (sniff.DetectContentType buffer,
          MultiReader [StringsReader buffer; r'])
  end.

(** ** Auxiliary definitions on readers *)

(** The loops over the members of a multi-reader, by name. *)
Fixpoint endings (rs : list Reader) : error :=
  match rs with
  | [] => EOF
  | r0 :: rest => if isEOF (ending r0) then endings rest else ending r0
  end.

Fixpoint contentsAll (rs : list Reader) : list byte :=
  match rs with
  | [] => []
  | r0 :: rest => contents r0 ++ (if isEOF (ending r0) then contentsAll rest else [])
  end.

Fixpoint weights (rs : list Reader) : nat :=
  match rs with
  | [] => 0
  | r0 :: rest => S (weight r0 + weights rest)
  end.

(** One round of the loop of [multiReader.Read] on a first member that is
    not a lone nested multi-reader. *)
Definition multiStep (p : nat) (r0 : Reader) (rest : list Reader) : ReadResult :=
  let '((bs, e), r0') := Read r0 p in
  match e with
  | Some EOF =>
      if isNil bs then Read (MultiReader rest) p
      else ((bs, if isNil rest then Some EOF else None), MultiReader rest)
  | _ => ((bs, e), MultiReader (r0' :: rest))
  end.

(** What one [Read] does to the denotation of a reader. *)
Definition ReadSpec (p : nat) (r : Reader) : Prop :=
  let '((bs, e), r') := Read r p in
  List.length bs <= p /\
  match e with
  | None =>
      contents r = bs ++ contents r' /\ ending r' = ending r /\
      (0 < p -> weight r' < weight r)
  | Some err =>
      contents r = bs /\ ending r = err /\
      contents r' = [] /\ ending r' = err
  end.

(** [io.ReadAll]: draining with enough fuel for the reader at hand. *)
Definition ReadAll (p : nat) (r : Reader) : option (list byte * error) :=
  drain (S (weight r)) p r.

(** ** [mime/multipart.Writer] over a [bytes.Buffer]

    The writer keeps its boundary, the buffer it writes to ([buf], which
    never refuses a write) and whether a part is open ([lastpart]).
    [parts] records, next to the raw bytes, every part created so far with
    its header lines (in the sorted order in which [CreatePart] writes
    them) and the bytes written to it. *)

Module multipart.

Import sniff.

Record Part : Type := mkPart {
  header : list (string * string);
  content : list byte
}.

Record Writer : Type := mkWriter {
  boundary : string;
  buf : list byte;
  lastpart : bool;
  parts : list Part
}.

Definition NewWriter (boundary : string) : Writer :=
  mkWriter boundary [] false [].

Definition CRLF : list byte := [x0d; x0a].

Definition headerLines (h : list (string * string)) : list byte :=
  flat_map (fun kv => bytes (fst kv) ++ bytes ": " ++ bytes (snd kv) ++ CRLF) h.

Definition CreatePart (h : list (string * string)) (w : Writer) : Writer :=
  mkWriter (boundary w)
           (buf w ++ (if lastpart w then CRLF else [])
                  ++ bytes "--" ++ bytes (boundary w) ++ CRLF
                  ++ headerLines h ++ CRLF)
           true
           (parts w ++ [mkPart h []]).

(** Appending to the content of the last part. *)
Fixpoint extendLast (d : list byte) (ps : list Part) : list Part :=
  match ps with
  | [] => []
  | [p] => [mkPart (header p) (content p ++ d)]
  | p :: ps' => p :: extendLast d ps'
  end.

(** [part.Write] on the part that is open. *)
Definition partWrite (d : list byte) (w : Writer) : Writer :=
  mkWriter (boundary w) (buf w ++ d) (lastpart w) (extendLast d (parts w)).

(** The library escapes the names the way [escapeQuotes] does; versions
    of it that also rewrite CR and LF write the same bytes for names that
    hold neither. *)
Definition CreateFormField (fieldname : string) (w : Writer) : Writer :=
  CreatePart [("Content-Disposition", fieldDisposition (escapeQuotes fieldname))] w.

Definition WriteField (fieldname value : string) (w : Writer) : Writer :=
  partWrite (bytes value) (CreateFormField fieldname w).

Definition CreateFormFile (fieldname filename : string) (w : Writer) : Writer :=
  CreatePart
    [("Content-Disposition",
      fileDisposition (escapeQuotes fieldname) (escapeQuotes filename));
     ("Content-Type", "application/octet-stream")] w.

Definition Close (w : Writer) : Writer :=
  mkWriter (boundary w)
           (buf w ++ CRLF ++ bytes "--" ++ bytes (boundary w) ++ bytes "--" ++ CRLF)
           false
           (parts w).

(** [strings.ContainsAny] *)
Fixpoint ContainsAny (s : string) (cs : list ascii) : bool :=
  match s with
  | EmptyString => false
  | String c r => existsb (Ascii.eqb c) cs || ContainsAny r cs
  end.

Definition tspecials : list ascii :=
  chars "()<>@,;:\" ++ [dquote] ++ chars "/[]?= ".

Definition FormDataContentType (w : Writer) : string :=
  let b := boundary w in
  let b := if ContainsAny b tspecials then (quote ++ b ++ quote)%string else b in
  ("multipart/form-data; boundary=" ++ b)%string.

(** The bytes of a body holding the parts [ps]; [first] tells whether
    no boundary line has been written before them. *)
Fixpoint encodeParts (b : string) (first : bool) (ps : list Part) : list byte :=
  match ps with
  | [] => []
  | p :: ps' =>
      (if first then [] else CRLF) ++ bytes "--" ++ bytes b ++ CRLF
        ++ headerLines (header p) ++ CRLF ++ content p
        ++ encodeParts b false ps'
  end.

End multipart.

(** ** [io.Copy] into the open part

    The loop of [io.Copy]: read with a 32 KiB buffer and write what was
    read, until the reader returns an error; [EOF] ends the copy without
    error.  The writes cannot fail here. *)

Definition Copy (w : multipart.Writer) (r : Reader) : option error * multipart.Writer :=
  match ReadAll (32 * 1024) r with
  | Some (bs, e) =>
      (if isEOF e then None else Some e, multipart.partWrite bs w)
  | None => (Some (Err "io.Copy: reader never ends"), w)
  end.

(** ** [DefaultFormBuilder] *)

Definition isEmpty (s : string) : bool :=
  match s with EmptyString => true | _ => false end.

Module DefaultFormBuilder.

Record t : Type := mk { writer : multipart.Writer }.

(** [NewFormBuilder(body)] on an empty buffer; [boundary] stands for the
    random token that [multipart.NewWriter] draws. *)
Definition NewFormBuilder (boundary : string) : t :=
  mk (multipart.NewWriter boundary).

Definition createFormFile (fieldname : string) (r : Reader) (filename : string)
           (fb : t) : option error * t :=
  if isEmpty filename then (Some (Err "filename cannot be empty"), fb)
  else
    let fieldWriter := multipart.CreateFormFile fieldname filename (writer fb) in
    let '(err, w) := Copy fieldWriter r in
    (err, mk w).

(** [file] is an [*os.File] on a regular file: its name, bytes and
    offset; reading such a file does not fail. *)
Definition CreateFormFile (fieldname : string)
           (name : string) (data : list byte) (pos : nat) (fb : t)
  : option error * t :=
  createFormFile fieldname (OsFile name data pos) name fb.

(** The [switch] on the MIME type that names a file without a name. *)
Definition defaultFilename (mimeType : string) : string :=
  if String.eqb mimeType "image/png" then "image.png"
  else if String.eqb mimeType "image/jpeg" || String.eqb mimeType "image/jpg"
       then "image.jpg"
  else if String.eqb mimeType "image/gif" then "image.gif"
  else if String.eqb mimeType "image/webp" then "image.webp"
  else if String.eqb mimeType "image/bmp" then "image.bmp"
  else if String.eqb mimeType "image/tiff" then "image.tiff"
  else "file.bin".

(** The filename after the two [if] statements at the head of
    [CreateFormFileReaderWithMimeType]. *)
Definition resolveFilename (r : Reader) (filename mimeType : string) : string :=
  let filename :=
    match Name r with
    | Some n => if isEmpty filename then n else filename
    | None => filename
    end in
  if isEmpty filename then defaultFilename mimeType else filename.

Definition partHeader (fieldname filename mimeType : string) : list (string * string) :=
  ("Content-Disposition",
   fileDisposition (escapeQuotes fieldname) (escapeQuotes (filepath.Base filename)))
    :: (if isEmpty mimeType then [] else [("Content-Type", mimeType)]).

Definition CreateFormFileReaderWithMimeType
           (fieldname : string) (r : Reader) (filename mimeType : string) (fb : t)
  : option error * t :=
  let filename := resolveFilename r filename mimeType in
  let h := partHeader fieldname filename mimeType in
  let fieldWriter := multipart.CreatePart h (writer fb) in
  let '(err, w) := Copy fieldWriter r in
  (err, mk w).

Definition CreateFormFileReader
           (fieldname : string) (r : Reader) (filename : string) (fb : t)
  : option error * t :=
  match detectMimeType r with
  | Error err => (Some (Wrap "failed to detect MIME type: " err), fb)
  | Ok (mimeType, newReader) =>
      CreateFormFileReaderWithMimeType fieldname newReader filename mimeType fb
  end.

Definition WriteField (fieldname value : string) (fb : t) : option error * t :=
  (None, mk (multipart.WriteField fieldname value (writer fb))).

Definition Close (fb : t) : option error * t :=
  (None, mk (multipart.Close (writer fb))).

Definition FormDataContentType (fb : t) : string :=
  multipart.FormDataContentType (writer fb).

End DefaultFormBuilder.

(** ** The [FormBuilder] interface *)

Class FormBuilder (B : Type) : Type := {
  CreateFormFile : string -> string -> list byte -> nat -> B -> option error * B;
  CreateFormFileReader : string -> Reader -> string -> B -> option error * B;
  CreateFormFileReaderWithMimeType :
    string -> Reader -> string -> string -> B -> option error * B;
  WriteField : string -> string -> B -> option error * B;
  Close : B -> option error * B;
  FormDataContentType : B -> string
}.

#[export] Instance DefaultFormBuilder_FormBuilder : FormBuilder DefaultFormBuilder.t := {
  CreateFormFile := DefaultFormBuilder.CreateFormFile;
  CreateFormFileReader := DefaultFormBuilder.CreateFormFileReader;
  CreateFormFileReaderWithMimeType := DefaultFormBuilder.CreateFormFileReaderWithMimeType;
  WriteField := DefaultFormBuilder.WriteField;
  Close := DefaultFormBuilder.Close;
  FormDataContentType := DefaultFormBuilder.FormDataContentType
}.

(** ** [image.go]: requests and responses *)

Definition CreateImageModelDallE2 : string := "dall-e-2".
Definition CreateImageModelDallE3 : string := "dall-e-3".
Definition CreateImageModelGptImage1 : string := "gpt-image-1".

Record ImageResponseInputTokensDetails : Type := {
  TextTokens : Z;
  ImageTokens : Z
}.

Record ImageResponseUsage : Type := {
  TotalTokens : Z;
  InputTokens : Z;
  OutputTokens : Z;
  InputTokensDetails : ImageResponseInputTokensDetails
}.

Record ImageResponseDataInner : Type := {
  URL : string;
  B64JSON : string;
  RevisedPrompt : string
}.

Record ImageResponse : Type := {
  Created : Z;
  Data : list ImageResponseDataInner;
  Usage : ImageResponseUsage;
  httpHeader : list (string * string)
}.

(** The zero value of the named result [response]. *)
Definition zeroResponse : ImageResponse :=
  {| Created := 0; Data := [];
     Usage := {| TotalTokens := 0; InputTokens := 0; OutputTokens := 0;
                 InputTokensDetails := {| TextTokens := 0; ImageTokens := 0 |} |};
     httpHeader := [] |}.

Module ImageVariRequest.
Record t : Type := {
  Image : Reader;
  Model : string;
  N : Z;
  Size : string;
  ResponseFormat : string;
  User : string
}.
End ImageVariRequest.

Module ImageEditRequest.
(** [Mask] is [None] for a nil reader. *)
Record t : Type := {
  Image : Reader;
  Mask : option Reader;
  Prompt : string;
  Model : string;
  N : Z;
  Size : string;
  ResponseFormat : string;
  Quality : string;
  User : string
}.
End ImageEditRequest.

(** [strconv.Itoa] *)
Definition Itoa (n : Z) : string := NilZero.string_of_int (Z.to_int n).

(** ** The client and the trace of a call

    The parts of [Client] that live outside [image.go]: the builder over a
    fresh [body] buffer, the content of that buffer, and the HTTP layer.
    [withModel] is the optional second argument of [fullURL]. *)

Record Client (B Request : Type) : Type := {
  createFormBuilder : B;
  body : B -> list byte;
  fullURL : string -> option string -> string;
  newRequest : string -> string -> list byte -> string -> result Request;
  sendRequest : Request -> ImageResponse * option error
}.
Arguments createFormBuilder {B Request} c.
Arguments body {B Request} c b.
Arguments fullURL {B Request} c suffix model.
Arguments newRequest {B Request} c method url body contentType.
Arguments sendRequest {B Request} c req.

(** The calls [image.go] makes on its builder. *)
Inductive Call : Type :=
| CallCreateFormFileReader (fieldname : string) (r : Reader) (filename : string)
| CallWriteField (fieldname value : string)
| CallClose.

(** What a call of [CreateVariImage] or [CreateEditImage] does, in order:
    each builder call and each use of the HTTP layer, with the error it
    returned. *)
Inductive Event (Request : Type) : Type :=
| BuilderCall (c : Call) (err : option error)
| NewRequest (method url : string) (body : list byte) (contentType : string)
             (err : option error)
| SendRequest (req : Request) (err : option error).
Arguments BuilderCall {Request} c err.
Arguments NewRequest {Request} method url body contentType err.
Arguments SendRequest {Request} req err.

Definition eventErr {Request} (ev : Event Request) : option error :=
  match ev with
  | BuilderCall _ e => e
  | NewRequest _ _ _ _ e => e
  | SendRequest _ e => e
  end.

Definition isBuilderCall {Request} (ev : Event Request) : bool :=
  match ev with BuilderCall _ _ => true | _ => false end.

Definition okEvent {Request} (call : Call) : Event Request := BuilderCall call None.

(** A builder call that returned no error. *)
Definition clean {Request} (ev : Event Request) : Prop :=
  isBuilderCall ev = true /\ eventErr ev = None.

Section ImageAPI.

Context {B : Type} {FB : FormBuilder B} {Request : Type}.
Variable c : Client B Request.

Record State : Type := mkState {
  builder : B;
  trace : list (Event Request)
}.

(** Statements that may return early with an error. *)
Definition M (A : Type) : Type := State -> result A * State.

Definition ret {A} (a : A) : M A := fun s => (Ok a, s).

Definition bind {A C} (m : M A) (k : A -> M C) : M C :=
  fun s =>
    match m s with
    | (Ok a, s') => k a s'
    | (Error e, s') => (Error e, s')
    end.

Notation "x <- m ;; k" := (bind m (fun x => k))
  (at level 61, m at next level, right associativity).
Notation "m ;; k" := (bind m (fun _ => k))
  (at level 61, right associativity).

(** One call on the builder. *)
Definition applyCall (call : Call) (b : B) : option error * B :=
  match call with
  | CallCreateFormFileReader fieldname r filename =>
      CreateFormFileReader fieldname r filename b
  | CallWriteField fieldname value => WriteField fieldname value b
  | CallClose => Close b
  end.

(** [err = builder.X(...); if err != nil { return }] *)
Definition perform (call : Call) : M unit :=
  fun s =>
    let '(err, b) := applyCall call (builder s) in
    let s' := mkState b (trace s ++ [BuilderCall call err]) in
    match err with
    | None => (Ok tt, s')
    | Some e => (Error e, s')
    end.

Definition when (b : bool) (m : M unit) : M unit :=
  if b then m else ret tt.

(** [req, err := c.newRequest(...)] with the body buffer and the content
    type of the builder. *)
Definition doNewRequest (method url : string) : M Request :=
  fun s =>
    let bd := body c (builder s) in
    let ct := FormDataContentType (builder s) in
    match newRequest c method url bd ct with
    | Ok req =>
        (Ok req, mkState (builder s) (trace s ++ [NewRequest method url bd ct None]))
    | Error e =>
        (Error e, mkState (builder s) (trace s ++ [NewRequest method url bd ct (Some e)]))
    end.

(** [err = c.sendRequest(req, &response); return] *)
Definition doSendRequest (req : Request) : M (ImageResponse * option error) :=
  fun s =>
    let '(resp, err) := sendRequest c req in
    (Ok (resp, err), mkState (builder s) (trace s ++ [SendRequest req err])).

(** The named results at the [return] that ends the call. *)
Definition finish (m : M (ImageResponse * option error))
  : (ImageResponse * option error) * State :=
  match m (mkState (createFormBuilder c) []) with
  | (Ok out, s) => (out, s)
  | (Error e, s) => ((zeroResponse, Some e), s)
  end.

Definition CreateVariImage (request : ImageVariRequest.t)
  : (ImageResponse * option error) * State :=
  finish (
    (* image, filename is not required *)
    perform (CallCreateFormFileReader "image" (ImageVariRequest.Image request) "") ;;
    perform (CallWriteField "n" (Itoa (ImageVariRequest.N request))) ;;
    perform (CallWriteField "size" (ImageVariRequest.Size request)) ;;
    perform (CallWriteField "response_format" (ImageVariRequest.ResponseFormat request)) ;;
    perform CallClose ;;
    req <- doNewRequest "POST"
             (fullURL c "/images/variations" (Some (ImageVariRequest.Model request))) ;;
    doSendRequest req).

(** The block run on an image that is an [*os.File]: seek to the start,
    read 16 bytes for the debug line, seek back.  The files of this model
    are regular files, on which both seeks succeed; a pipe, whose seeks
    fail and which does not give the 16 bytes back, is not among them. *)
Definition probeImage (r : Reader) : Reader :=
  if isOsFile r then
    let file := SeekStart r in
    let '(_, file) := Read file 16 in
    SeekStart file
  else r.

(** The block run on a mask that is an [*os.File]: seek to the start. *)
Definition probeMask (r : Reader) : Reader :=
  if isOsFile r then SeekStart r else r.

Definition CreateEditImage (request : ImageEditRequest.t)
  : (ImageResponse * option error) * State :=
  let Model := ImageEditRequest.Model request in
  let ResponseFormat := ImageEditRequest.ResponseFormat request in
  let Quality := ImageEditRequest.Quality request in
  let isGptImage1 := String.eqb Model CreateImageModelGptImage1 in
  finish (
    perform (CallCreateFormFileReader "image"
               (probeImage (ImageEditRequest.Image request)) "") ;;
    (* mask, it is optional *)
    match ImageEditRequest.Mask request with
    | Some mask => perform (CallCreateFormFileReader "mask" (probeMask mask) "")
    | None => ret tt
    end ;;
    perform (CallWriteField "prompt" (ImageEditRequest.Prompt request)) ;;
    when (negb (isEmpty Model)) (perform (CallWriteField "model" Model)) ;;
    perform (CallWriteField "n" (Itoa (ImageEditRequest.N request))) ;;
    perform (CallWriteField "size" (ImageEditRequest.Size request)) ;;
    when (negb (isEmpty ResponseFormat) && negb isGptImage1)
         (perform (CallWriteField "response_format" ResponseFormat)) ;;
    when (negb (isEmpty Quality) && negb isGptImage1)
         (perform (CallWriteField "quality" Quality)) ;;
    when (negb (isEmpty (ImageEditRequest.User request)))
         (perform (CallWriteField "user" (ImageEditRequest.User request))) ;;
    perform CallClose ;;
    req <- doNewRequest "POST" (fullURL c "/images/edits" None) ;;
    doSendRequest req).

(** *** The calls of a request, as a list

    The builder calls that [CreateVariImage] and [CreateEditImage] make
    when none fails, in order; [foldPlan] runs such a list the way the
    functions do, stopping at the first error, and [runCalls] is the same
    run as a function of the builder alone. *)

Definition variPlan (request : ImageVariRequest.t) : list Call :=
  [ CallCreateFormFileReader "image" (ImageVariRequest.Image request) "";
    CallWriteField "n" (Itoa (ImageVariRequest.N request));
    CallWriteField "size" (ImageVariRequest.Size request);
    CallWriteField "response_format" (ImageVariRequest.ResponseFormat request);
    CallClose ].

Definition editPlan (request : ImageEditRequest.t) : list Call :=
  let Model := ImageEditRequest.Model request in
  let ResponseFormat := ImageEditRequest.ResponseFormat request in
  let Quality := ImageEditRequest.Quality request in
  let isGptImage1 := String.eqb Model CreateImageModelGptImage1 in
  [CallCreateFormFileReader "image" (probeImage (ImageEditRequest.Image request)) ""]
    ++ match ImageEditRequest.Mask request with
       | Some mask => [CallCreateFormFileReader "mask" (probeMask mask) ""]
       | None => []
       end
    ++ [CallWriteField "prompt" (ImageEditRequest.Prompt request)]
    ++ (if negb (isEmpty Model) then [CallWriteField "model" Model] else [])
    ++ [CallWriteField "n" (Itoa (ImageEditRequest.N request));
        CallWriteField "size" (ImageEditRequest.Size request)]
    ++ (if negb (isEmpty ResponseFormat) && negb isGptImage1
        then [CallWriteField "response_format" ResponseFormat] else [])
    ++ (if negb (isEmpty Quality) && negb isGptImage1
        then [CallWriteField "quality" Quality] else [])
    ++ (if negb (isEmpty (ImageEditRequest.User request))
        then [CallWriteField "user" (ImageEditRequest.User request)] else [])
    ++ [CallClose].

Fixpoint foldPlan {A} (plan : list Call) (k : M A) : M A :=
  match plan with
  | [] => k
  | call :: rest => bind (perform call) (fun _ => foldPlan rest k)
  end.

Fixpoint runCalls (plan : list Call) (b : B)
  : (list (Event Request) * option error) * B :=
  match plan with
  | [] => (([], None), b)
  | call :: rest =>
      let '(err, b') := applyCall call b in
      match err with
      | Some e => (([BuilderCall call (Some e)], Some e), b')
      | None =>
          let '((evs, r), b'') := runCalls rest b' in
          ((BuilderCall call None :: evs, r), b'')
      end
  end.

(** The HTTP half of both functions. *)
Definition sendForm (method url : string) : M (ImageResponse * option error) :=
  bind (doNewRequest method url) (fun req => doSendRequest req).

End ImageAPI.

(** The default client: [createFormBuilder] is [NewFormBuilder] over the
    [body] buffer, which then holds what the multipart writer wrote. *)
Definition defaultClient {Request : Type} (boundary : string)
           (fullURL : string -> option string -> string)
           (newRequest : string -> string -> list byte -> string -> result Request)
           (sendRequest : Request -> ImageResponse * option error)
  : Client DefaultFormBuilder.t Request :=
  {| createFormBuilder := DefaultFormBuilder.NewFormBuilder boundary;
     body := fun fb => multipart.buf (DefaultFormBuilder.writer fb);
     fullURL := fullURL;
     newRequest := newRequest;
     sendRequest := sendRequest |}.

(** ** Observing the parts of a form

    The name and the filename that a part's Content-Disposition value
    carries, read back with the decoder above. *)

Definition parseName (v : string) : option string :=
  match HeaderParse.expect "form-data; name=" v with
  | None => None
  | Some v1 =>
      match HeaderParse.quotedString v1 with
      | Some (name, _) => Some name
      | None => None
      end
  end.

Definition disposition (p : multipart.Part) : option string :=
  match multipart.header p with
  | (k, v) :: _ => if String.eqb k "Content-Disposition" then Some v else None
  | [] => None
  end.

Definition partName (p : multipart.Part) : option string :=
  match disposition p with
  | Some v => parseName v
  | None => None
  end.

Definition partFilename (p : multipart.Part) : option string :=
  match disposition p with
  | Some v =>
      match HeaderParse.parseFileDisposition v with
      | Some (_, filename) => Some filename
      | None => None
      end
  | None => None
  end.

(** The parts a builder holds, and the one added last. *)
Definition partsOf (fb : DefaultFormBuilder.t) : list multipart.Part :=
  multipart.parts (DefaultFormBuilder.writer fb).

Definition lastPart (fb : DefaultFormBuilder.t) : option multipart.Part :=
  last (map Some (partsOf fb)) None.

(** The part that [WriteField] adds. *)
Definition fieldPart (fieldname value : string) : multipart.Part :=
  multipart.mkPart
    [("Content-Disposition", fieldDisposition (escapeQuotes fieldname))]
    (sniff.bytes value).

(** The replacement of [quoteEscaper] for one byte, in the words of the
    specification: a backslash becomes two, a quote gets a backslash. *)
Definition escapeChar (c : ascii) : list ascii :=
  if Ascii.eqb c backslash then [backslash; backslash]
  else if Ascii.eqb c dquote then [backslash; dquote]
  else [c].

(** No signature of the table answers for [data]. *)
Definition noSignature (data : list byte) : bool :=
  let data := firstn sniff.sniffLen data in
  let firstNonWS := List.length (filepath.takeWhile sniff.isWS data) in
  forallb (fun s => isEmpty (sniff.sigMatch s data firstNonWS)) sniff.sniffSignatures.

(** The field a builder call names, if it adds a part. *)
Definition callField (call : Call) : option string :=
  match call with
  | CallCreateFormFileReader fieldname _ _ => Some fieldname
  | CallWriteField fieldname _ => Some fieldname
  | CallClose => None
  end.

(** The parts of the form a call has built with the default builder. *)
Definition formOf {Request : Type}
           (out : (ImageResponse * option error) * @State DefaultFormBuilder.t Request)
  : list multipart.Part :=
  partsOf (builder (snd out)).

(** ** Sample values *)

Definition sampleClient : Client DefaultFormBuilder.t (list byte * string) :=
  defaultClient "0123456789abcdef"
    (fun suffix _ => ("https://api.openai.com/v1" ++ suffix)%string)
    (fun _ _ body contentType => Ok (body, contentType))
    (fun _ => (zeroResponse, None)).

Definition gifBytes : list byte := sniff.bytes "GIF89a...".

(** A source that delivers its bytes together with a network error. *)
Definition failingReader : Reader :=
  Stream None [gifBytes] (Err "connection reset") true.

Definition sampleEdit (image : Reader) (model responseFormat quality : string)
  : ImageEditRequest.t :=
  {| ImageEditRequest.Image := image;
     ImageEditRequest.Mask := None;
     ImageEditRequest.Prompt := "a cat";
     ImageEditRequest.Model := model;
     ImageEditRequest.N := 0;
     ImageEditRequest.Size := "";
     ImageEditRequest.ResponseFormat := responseFormat;
     ImageEditRequest.Quality := quality;
     ImageEditRequest.User := "" |}.

Definition sampleVari (image : Reader) : ImageVariRequest.t :=
  {| ImageVariRequest.Image := image;
     ImageVariRequest.Model := "dall-e-2";
     ImageVariRequest.N := 0;
     ImageVariRequest.Size := "";
     ImageVariRequest.ResponseFormat := "";
     ImageVariRequest.User := "" |}.

(** ** The raw body and the parts

    The closing line that [Close] writes, and the state of a writer that
    has not been closed: its buffer is the encoding of its parts and a
    part is open as soon as there is one. *)

Definition terminator (b : string) : list byte :=
  multipart.CRLF ++ sniff.bytes "--" ++ sniff.bytes b ++ sniff.bytes "--"
    ++ multipart.CRLF.

Definition Open (w : multipart.Writer) : Prop :=
  multipart.buf w
  = multipart.encodeParts (multipart.boundary w) true (multipart.parts w) /\
  multipart.lastpart w = negb (isNil (multipart.parts w)).

(** ** Induction on readers *)

Section ReaderInduction.

Variable P : Reader -> Prop.
Hypothesis HFile : forall name data pos, P (OsFile name data pos).
Hypothesis HStream : forall name chunks final eager, P (Stream name chunks final eager).
Hypothesis HStrings : forall s, P (StringsReader s).
Hypothesis HMulti : forall rs, Forall P rs -> P (MultiReader rs).

(** Induction on readers, with the hypothesis on every member of a
    multi-reader. *)
Fixpoint Reader_nested_ind (r : Reader) : P r :=
  match r with
  | OsFile name data pos => HFile name data pos
  | Stream name chunks final eager => HStream name chunks final eager
  | StringsReader s => HStrings s
  | MultiReader rs =>
      HMulti rs ((fix all (rs : list Reader) : Forall P rs :=
                 match rs with
                 | [] => Forall_nil P
                 | r0 :: rest => Forall_cons r0 (Reader_nested_ind r0) (all rest)
                 end) rs)
  end.

End ReaderInduction.

(** ** More observations on parts *)

(** The first value stored under [key] in a header. *)
Fixpoint headerValue (key : string) (h : list (string * string)) : option string :=
  match h with
  | [] => None
  | (k, v) :: h' => if String.eqb k key then Some v else headerValue key h'
  end.

Definition partContentType (p : multipart.Part) : option string :=
  headerValue "Content-Type" (multipart.header p).

(** The filename [CreateFormFileReader] gives a part: the sniffer's
    multi-reader has no name, so only the argument and the table count. *)
Definition sniffedFilename (filename mimeType : string) : string :=
  if isEmpty filename then DefaultFormBuilder.defaultFilename mimeType else filename.

(** [s] holds a backslash or a double quote. *)
Definition needsEscape (s : string) : Prop :=
  In backslash (chars s) \/ In dquote (chars s).

(** ** The three ways a call can end

    With [plan] the builder calls of the request: a builder call failed
    and was the last thing done; or every builder call succeeded and
    [newRequest] failed; or the request was built and handed to
    [sendRequest], whose result is the result of the call. *)

Definition Outcome {B Request : Type} {FB : FormBuilder B}
           (c : Client B Request) (plan : list Call) (method url : string)
           (out : (ImageResponse * option error) * @State B Request) : Prop :=
  let bd := body c (builder (snd out)) in
  let ct := FormDataContentType (builder (snd out)) in
  (exists done call rest e,
      plan = done ++ call :: rest /\
      trace (snd out) = map okEvent done ++ [BuilderCall call (Some e)] /\
      fst out = (zeroResponse, Some e)) \/
  (exists e,
      newRequest c method url bd ct = Error e /\
      trace (snd out) = map okEvent plan ++ [NewRequest method url bd ct (Some e)] /\
      fst out = (zeroResponse, Some e)) \/
  (exists req,
      newRequest c method url bd ct = Ok req /\
      trace (snd out)
      = map okEvent plan
          ++ [NewRequest method url bd ct None;
              SendRequest req (snd (sendRequest c req))] /\
      fst out = sendRequest c req).

(** The names of the parts a list of calls adds when none fails. *)
Definition planFields (plan : list Call) : list string :=
  flat_map (fun call => match callField call with
                        | Some f => [f]
                        | None => []
                        end) plan.

(** ** What the sniffer can answer *)

(** The content type a signature stands for. *)
Definition sigType (s : sniff.sniffSig) : string :=
  match s with
  | sniff.htmlSig _ => "text/html; charset=utf-8"
  | sniff.maskedSig _ _ _ ct => ct
  | sniff.exactSig _ ct => ct
  | sniff.mp4Sig => "video/mp4"
  | sniff.textSig => "text/plain; charset=utf-8"
  end.

Definition possibleTypes : list string :=
  "application/octet-stream" :: map sigType sniff.sniffSignatures.

(** The first bytes of the image formats that the sniffer knows and the
    filename table names, with the type sniffed and the filename given. *)
Inductive knownImage : list byte -> string -> string -> Prop :=
| knownPNG rest :
    knownImage ([x89] ++ sniff.bytes "PNG" ++ [x0d; x0a; x1a; x0a] ++ rest)
               "image/png" "image.png"
| knownJPEG rest :
    knownImage ([xff; xd8; xff] ++ rest) "image/jpeg" "image.jpg"
| knownGIF87 rest :
    knownImage (sniff.bytes "GIF87a" ++ rest) "image/gif" "image.gif"
| knownGIF89 rest :
    knownImage (sniff.bytes "GIF89a" ++ rest) "image/gif" "image.gif"
| knownBMP rest :
    knownImage (sniff.bytes "BM" ++ rest) "image/bmp" "image.bmp"
| knownWEBP a b c d rest :
    knownImage (sniff.bytes "RIFF" ++ [a; b; c; d] ++ sniff.bytes "WEBPVP" ++ rest)
               "image/webp" "image.webp".

(** ** Reading a header back from the bytes written

    [CreatePart] writes the header of a part as lines ended by CR LF.
    [writtenHeader] is those bytes for a part; [readDisposition] reads
    them the way a receiver does: the first line runs up to the first LF,
    the CR before it is dropped, the line must start with the key
    [Content-Disposition] and its value is decoded as above. *)

Definition CR : ascii := "013"%char.
Definition LF : ascii := "010"%char.

(** [s] holds no CR and no LF. *)
Definition noCRLF (s : string) : Prop :=
  ~ In CR (chars s) /\ ~ In LF (chars s).

Fixpoint firstLine (s : string) : option string :=
  match s with
  | EmptyString => None
  | String c r =>
      if Ascii.eqb c LF then Some EmptyString
      else match firstLine r with
           | Some l => Some (String c l)
           | None => None
           end
  end.

Fixpoint trimCR (s : string) : string :=
  match s with
  | EmptyString => EmptyString
  | String c r =>
      match r with
      | EmptyString => if Ascii.eqb c CR then EmptyString else s
      | String _ _ => String c (trimCR r)
      end
  end.

Definition writtenHeader (p : multipart.Part) : list byte :=
  multipart.headerLines (multipart.header p).

Definition readDisposition (written : list byte) : option (string * string) :=
  match firstLine (string_of_list_byte written) with
  | None => None
  | Some line =>
      match HeaderParse.expect "Content-Disposition: " (trimCR line) with
      | None => None
      | Some v => HeaderParse.parseFileDisposition v
      end
  end.


(** * Properties *)

(** ** Strings *)

Lemma append_nil_r (s : string) : (s ++ "")%string = s.
Proof. induction s; simpl; congruence. Qed.

(** ** Facts about readers *)

Lemma ending_Multi rs : ending (MultiReader rs) = endings rs.
Proof. reflexivity. Qed.

Lemma contents_Multi rs : contents (MultiReader rs) = contentsAll rs.
Proof. reflexivity. Qed.

Lemma weight_Multi rs : weight (MultiReader rs) = weights rs.
Proof. reflexivity. Qed.

Lemma Read_Multi_nil p : Read (MultiReader []) p = (([], Some EOF), MultiReader []).
Proof. reflexivity. Qed.

Lemma Read_Multi_flatten p rs :
  Read (MultiReader [MultiReader rs]) p = Read (MultiReader rs) p.
Proof. reflexivity. Qed.

Lemma Read_Multi_cons p r0 rest :
  (forall rs, r0 = MultiReader rs -> rest <> []) ->
  Read (MultiReader (r0 :: rest)) p = multiStep p r0 rest.
Proof.
  intros H. unfold multiStep.
  destruct r0; try reflexivity.
  destruct rest as [|r1 rest]; [now elim (H rs eq_refl)|reflexivity].
Qed.

Lemma firstn_skipn_length {A} (p : nat) (l : list A) :
  skipn (List.length (firstn p l)) l = skipn p l.
Proof.
  rewrite length_firstn.
  destruct (Nat.le_ge_cases p (List.length l)) as [H|H].
  - now rewrite Nat.min_l.
  - rewrite Nat.min_r by assumption.
    rewrite !skipn_all2; auto.
Qed.

Lemma isNil_true {A} (l : list A) : isNil l = true -> l = [].
Proof. destruct l; [reflexivity|discriminate]. Qed.

Lemma isNil_false {A} (l : list A) : isNil l = false -> l <> [].
Proof. destruct l; [discriminate|congruence]. Qed.

Lemma ReadSpec_OsFile p name data pos : ReadSpec p (OsFile name data pos).
Proof.
  unfold ReadSpec; simpl.
  destruct (Nat.eqb_spec p 0) as [->|Hp].
  - simpl. repeat split; auto. intros H; inversion H.
  - destruct (skipn pos data) as [|b rest] eqn:E; simpl.
    + rewrite E. repeat split; auto. lia.
    + split; [destruct p; simpl; [lia|]; rewrite length_firstn; lia|].
      split; [|split; [reflexivity|]].
      * rewrite <- E at 2.
        replace (skipn (pos + List.length (firstn p (b :: rest))) data)
          with (skipn (List.length (firstn p (b :: rest))) (skipn pos data))
          by (rewrite skipn_skipn; f_equal; lia).
        rewrite E, firstn_skipn_length. symmetry; apply firstn_skipn.
      * intros _.
        replace (skipn (pos + List.length (firstn p (b :: rest))) data)
          with (skipn (List.length (firstn p (b :: rest))) (skipn pos data))
          by (rewrite skipn_skipn; f_equal; lia).
        rewrite E, firstn_skipn_length, length_skipn; simpl.
        destruct p; [congruence|lia].
Qed.

Lemma ReadSpec_Stream p name chunks final eager :
  ReadSpec p (Stream name chunks final eager).
Proof.
  unfold ReadSpec; simpl.
  destruct chunks as [|c cs]; simpl; [repeat split; auto; lia|].
  destruct (Nat.leb_spec (List.length c) p) as [Hc|Hc].
  - destruct (isNil cs && eager) eqn:E; simpl.
    + apply andb_prop in E as [E _]. apply isNil_true in E; subst cs; simpl.
      rewrite app_nil_r. repeat split; auto.
    + repeat split; auto. intros _.
      change (weight (Stream name cs final eager)
              < S (List.length c + weight (Stream name cs final eager))).
      lia.
  - split; [rewrite length_firstn; lia|].
    split; [|split; [reflexivity|]].
    + change (contents (Stream name (skipn p c :: cs) final eager))
        with (skipn p c ++ List.concat cs).
      rewrite app_assoc, firstn_skipn. reflexivity.
    + intros Hp.
      change (S (List.length (skipn p c) + weight (Stream name cs final eager))
              < S (List.length c + weight (Stream name cs final eager))).
      rewrite length_skipn. lia.
Qed.

Lemma ReadSpec_Strings p s : ReadSpec p (StringsReader s).
Proof.
  unfold ReadSpec; simpl.
  destruct s as [|b s]; simpl; [repeat split; auto; lia|].
  split; [destruct p; simpl; [lia|rewrite length_firstn; lia]|].
  split; [symmetry; apply (firstn_skipn p (b :: s))|].
  split; [reflexivity|].
  intros Hp. rewrite length_skipn. cbn [List.length]. lia.
Qed.

Lemma ReadSpec_elim p r bs e r' :
  ReadSpec p r -> Read r p = ((bs, e), r') ->
  List.length bs <= p /\
  match e with
  | None =>
      contents r = bs ++ contents r' /\ ending r' = ending r /\
      (0 < p -> weight r' < weight r)
  | Some err =>
      contents r = bs /\ ending r = err /\
      contents r' = [] /\ ending r' = err
  end.
Proof. unfold ReadSpec. intros H E. now rewrite E in H. Qed.

Lemma ReadSpec_single p r0 :
  ReadSpec p r0 -> Read (MultiReader [r0]) p = Read r0 p ->
  ReadSpec p (MultiReader [r0]).
Proof.
  intros H0 E. unfold ReadSpec. rewrite E.
  destruct (Read r0 p) as [[bs e] r'] eqn:R.
  destruct (ReadSpec_elim _ _ _ _ _ H0 R) as [Hlen H].
  split; [assumption|].
  rewrite contents_Multi, ending_Multi, weight_Multi; simpl.
  destruct e as [err|].
  - destruct H as (Hc & He & Hc' & He').
    rewrite Hc, He.
    destruct err; cbn [isEOF]; rewrite app_nil_r; repeat split; auto.
  - destruct H as (Hc & He & Hw).
    repeat split.
    + rewrite Hc. destruct (isEOF (ending r0)); now rewrite app_nil_r.
    + rewrite He. destruct (isEOF (ending r0)) eqn:X; [|reflexivity].
      destruct (ending r0); try discriminate; reflexivity.
    + intros Hp. specialize (Hw Hp). lia.
Qed.

Lemma ReadSpec_step p r0 rest :
  ReadSpec p r0 -> ReadSpec p (MultiReader rest) ->
  Read (MultiReader (r0 :: rest)) p = multiStep p r0 rest ->
  ReadSpec p (MultiReader (r0 :: rest)).
Proof.
  intros H0 IH E. unfold ReadSpec. rewrite E. unfold multiStep.
  destruct (Read r0 p) as [[bs e] r0'] eqn:R.
  destruct (ReadSpec_elim _ _ _ _ _ H0 R) as [Hlen H].
  rewrite contents_Multi, ending_Multi, weight_Multi.
  cbn [contentsAll endings weights].
  destruct e as [err|].
  - destruct H as (Hc & He & Hc' & He').
    destruct err as [|msg|pre cause].
    + (* the member is exhausted *)
      rewrite He; cbn [isEOF].
      destruct (isNil bs) eqn:Hbs.
      * apply isNil_true in Hbs. rewrite Hbs in Hc. clear Hbs Hlen R.
        destruct (Read (MultiReader rest) p) as [[bs1 e1] r1] eqn:R1.
        destruct (ReadSpec_elim _ _ _ _ _ IH R1) as [Hlen1 H1].
        rewrite contents_Multi, ending_Multi, weight_Multi in H1.
        split; [assumption|]. rewrite Hc; cbn [app].
        destruct e1 as [err1|]; [exact H1|].
        destruct H1 as (A & B & C). repeat split; auto.
        intros Hp; specialize (C Hp); lia.
      * split; [assumption|].
        destruct rest as [|r1 rest]; cbn [isNil].
        -- rewrite Hc; cbn [contentsAll endings]. rewrite app_nil_r.
           repeat split; auto.
        -- rewrite Hc, contents_Multi, ending_Multi, weight_Multi.
           repeat split; auto. intros _. lia.
    + split; [assumption|].
      rewrite contents_Multi, ending_Multi. cbn [contentsAll endings].
      rewrite He, He', Hc, Hc'; cbn [isEOF app]. rewrite app_nil_r.
      repeat split; auto.
    + split; [assumption|].
      rewrite contents_Multi, ending_Multi. cbn [contentsAll endings].
      rewrite He, He', Hc, Hc'; cbn [isEOF app]. rewrite app_nil_r.
      repeat split; auto.
  - destruct H as (Hc & He & Hw).
    split; [assumption|].
    rewrite contents_Multi, ending_Multi, weight_Multi.
    cbn [contentsAll endings weights].
    rewrite He, Hc, <- app_assoc.
    repeat split; auto. intros Hp; specialize (Hw Hp); lia.
Qed.

Lemma ReadSpec_Multi p rs :
  Forall (ReadSpec p) rs -> ReadSpec p (MultiReader rs).
Proof.
  induction 1 as [|r0 rest H0 _ IH].
  - unfold ReadSpec; simpl. repeat split; auto with arith.
  - destruct r0 as [n d q|n cs f eg|s|rs'];
      try (apply ReadSpec_step; auto; apply Read_Multi_cons; discriminate).
    destruct rest as [|r1 rest].
    + apply ReadSpec_single; auto.
    + apply ReadSpec_step; auto.
Qed.

(** Every [Read] of every reader obeys [ReadSpec]. *)
Lemma Read_spec p r : ReadSpec p r.
Proof.
  induction r using Reader_nested_ind.
  - apply ReadSpec_OsFile.
  - apply ReadSpec_Stream.
  - apply ReadSpec_Strings.
  - now apply ReadSpec_Multi.
Qed.

Lemma Read_length p r bs e r' :
  Read r p = ((bs, e), r') -> List.length bs <= p.
Proof. intros R. exact (proj1 (ReadSpec_elim _ _ _ _ _ (Read_spec p r) R)). Qed.

Lemma Read_ok p r bs r' :
  Read r p = ((bs, None), r') ->
  contents r = bs ++ contents r' /\ ending r' = ending r /\
  (0 < p -> weight r' < weight r).
Proof. intros R. exact (proj2 (ReadSpec_elim _ _ _ _ _ (Read_spec p r) R)). Qed.

Lemma Read_err p r bs err r' :
  Read r p = ((bs, Some err), r') ->
  contents r = bs /\ ending r = err /\ contents r' = [] /\ ending r' = err.
Proof. intros R. exact (proj2 (ReadSpec_elim _ _ _ _ _ (Read_spec p r) R)). Qed.

(** With a buffer that is not empty and fuel above the weight, draining
    returns the contents and the ending. *)
Lemma drain_enough p (Hp : 0 < p) fuel :
  forall r, weight r < fuel -> drain fuel p r = Some (contents r, ending r).
Proof.
  induction fuel as [|fuel IH]; intros r Hw; [lia|].
  cbn [drain].
  destruct (Read r p) as [[bs e] r'] eqn:R.
  destruct e as [err|].
  - destruct (Read_err _ _ _ _ _ R) as (Hc & He & _). now rewrite Hc, He.
  - destruct (Read_ok _ _ _ _ R) as (Hc & He & Hlt).
    rewrite IH by (specialize (Hlt Hp); lia).
    now rewrite Hc, He.
Qed.

Lemma ReadAll_contents p r :
  0 < p -> ReadAll p r = Some (contents r, ending r).
Proof. intros Hp. apply drain_enough; auto. Qed.

(** ** Escaping and the decoder *)

Lemma escapeQuotes_chars s :
  chars (escapeQuotes s) = flat_map escapeChar (chars s).
Proof.
  unfold chars.
  induction s as [|c s IH]; [reflexivity|].
  cbn [escapeQuotes list_ascii_of_string flat_map]. unfold escapeChar.
  destruct (Ascii.eqb c backslash); [|destruct (Ascii.eqb c dquote)];
    cbn [list_ascii_of_string app]; now rewrite IH.
Qed.

Lemma quotedBody_escape s rest :
  HeaderParse.quotedBody (escapeQuotes s ++ quote ++ rest)%string = Some (s, rest).
Proof.
  induction s as [|c s IH].
  - reflexivity.
  - cbn [escapeQuotes].
    destruct (Ascii.eqb c backslash) eqn:Hb.
    + apply Ascii.eqb_eq in Hb; subst c.
      cbn [append HeaderParse.quotedBody].
      change (Ascii.eqb backslash dquote) with false.
      change (Ascii.eqb backslash backslash) with true.
      cbn iota. now rewrite IH.
    + destruct (Ascii.eqb c dquote) eqn:Hq.
      * apply Ascii.eqb_eq in Hq; subst c.
        cbn [append HeaderParse.quotedBody].
        change (Ascii.eqb backslash dquote) with false.
        change (Ascii.eqb backslash backslash) with true.
        cbn iota. now rewrite IH.
      * cbn [append HeaderParse.quotedBody].
        rewrite Hq, Hb. now rewrite IH.
Qed.

Lemma quotedString_escape s rest :
  HeaderParse.quotedString (quote ++ escapeQuotes s ++ quote ++ rest)%string
  = Some (s, rest).
Proof. apply quotedBody_escape. Qed.

Lemma parseFileDisposition_escape fieldname filename :
  HeaderParse.parseFileDisposition
    (fileDisposition (escapeQuotes fieldname) (escapeQuotes filename))
  = Some (fieldname, filename).
Proof.
  unfold HeaderParse.parseFileDisposition, fileDisposition.
  cbn [append HeaderParse.expect Ascii.eqb Bool.eqb].
  rewrite (quotedString_escape fieldname).
  cbn [append HeaderParse.expect Ascii.eqb Bool.eqb].
  replace (quote ++ escapeQuotes filename ++ quote)%string
    with (quote ++ escapeQuotes filename ++ quote ++ "")%string
    by (now rewrite (append_nil_r quote)).
  now rewrite (quotedString_escape filename).
Qed.

Lemma parseName_file fieldname filename :
  parseName (fileDisposition (escapeQuotes fieldname) filename) = Some fieldname.
Proof.
  unfold parseName, fileDisposition.
  cbn [append HeaderParse.expect Ascii.eqb Bool.eqb].
  now rewrite (quotedString_escape fieldname).
Qed.

Lemma parseName_field fieldname :
  parseName (fieldDisposition (escapeQuotes fieldname)) = Some fieldname.
Proof.
  unfold parseName, fieldDisposition.
  cbn [append HeaderParse.expect Ascii.eqb Bool.eqb].
  replace (quote ++ escapeQuotes fieldname ++ quote)%string
    with (quote ++ escapeQuotes fieldname ++ quote ++ "")%string
    by (now rewrite (append_nil_r quote)).
  now rewrite (quotedString_escape fieldname).
Qed.

(** ** Parts written by the default builder *)

Lemma extendLast_app d ps h c :
  multipart.extendLast d (ps ++ [multipart.mkPart h c])
  = ps ++ [multipart.mkPart h (c ++ d)].
Proof.
  induction ps as [|p ps IH]; [reflexivity|].
  cbn [app multipart.extendLast].
  destruct (ps ++ [multipart.mkPart h c]) eqn:E.
  - now destruct ps.
  - now rewrite <- IH.
Qed.

Lemma Copy_spec w r :
  Copy w r = (if isEOF (ending r) then None else Some (ending r),
              multipart.partWrite (contents r) w).
Proof.
  unfold Copy.
  rewrite ReadAll_contents by (apply Nat.mul_pos_pos; apply Nat.lt_0_succ).
  reflexivity.
Qed.

Lemma CreateFormFileReaderWithMimeType_spec fieldname r filename mimeType fb :
  DefaultFormBuilder.CreateFormFileReaderWithMimeType fieldname r filename mimeType fb
  = (if isEOF (ending r) then None else Some (ending r),
     DefaultFormBuilder.mk
       (multipart.partWrite (contents r)
          (multipart.CreatePart
             (DefaultFormBuilder.partHeader fieldname
                (DefaultFormBuilder.resolveFilename r filename mimeType) mimeType)
             (DefaultFormBuilder.writer fb)))).
Proof.
  unfold DefaultFormBuilder.CreateFormFileReaderWithMimeType.
  now rewrite Copy_spec.
Qed.

Lemma CreateFormFileReaderWithMimeType_parts fieldname r filename mimeType fb :
  partsOf (snd (DefaultFormBuilder.CreateFormFileReaderWithMimeType
                  fieldname r filename mimeType fb))
  = partsOf fb ++
    [multipart.mkPart
       (DefaultFormBuilder.partHeader fieldname
          (DefaultFormBuilder.resolveFilename r filename mimeType) mimeType)
       (contents r)].
Proof.
  rewrite CreateFormFileReaderWithMimeType_spec. unfold partsOf.
  cbn [snd DefaultFormBuilder.writer multipart.partWrite multipart.parts
       multipart.CreatePart].
  now rewrite extendLast_app.
Qed.

Lemma lastPart_app fb ps p :
  partsOf fb = ps ++ [p] -> lastPart fb = Some p.
Proof.
  unfold lastPart. intros ->. rewrite map_app. cbn [map].
  apply last_last.
Qed.

Lemma partFilename_partHeader fieldname filename mimeType c :
  partFilename (multipart.mkPart
                  (DefaultFormBuilder.partHeader fieldname filename mimeType) c)
  = Some (filepath.Base filename).
Proof.
  unfold partFilename, disposition, DefaultFormBuilder.partHeader.
  cbn [multipart.header]. cbn [String.eqb Ascii.eqb Bool.eqb andb].
  now rewrite parseFileDisposition_escape.
Qed.

Lemma partName_partHeader fieldname filename mimeType c :
  partName (multipart.mkPart
              (DefaultFormBuilder.partHeader fieldname filename mimeType) c)
  = Some fieldname.
Proof.
  unfold partName, disposition, DefaultFormBuilder.partHeader.
  cbn [multipart.header]. cbn [String.eqb Ascii.eqb Bool.eqb andb].
  now rewrite parseName_file.
Qed.

Lemma partName_fieldPart fieldname value :
  partName (fieldPart fieldname value) = Some fieldname.
Proof.
  unfold partName, disposition, fieldPart.
  cbn [multipart.header]. cbn [String.eqb Ascii.eqb Bool.eqb andb].
  now rewrite parseName_field.
Qed.

Lemma emitted_part fieldname r filename mimeType fb :
  lastPart (snd (DefaultFormBuilder.CreateFormFileReaderWithMimeType
                   fieldname r filename mimeType fb))
  = Some (multipart.mkPart
            (DefaultFormBuilder.partHeader fieldname
               (DefaultFormBuilder.resolveFilename r filename mimeType) mimeType)
            (contents r)).
Proof.
  eapply lastPart_app. apply CreateFormFileReaderWithMimeType_parts.
Qed.

(** ** Filenames in the Content-Disposition header *)

Example Base_strips_directories : filepath.Base "a/b/c.png" = "c.png".
Proof. reflexivity. Qed.

(** A file part written by [CreateFormFileReaderWithMimeType] carries the
    base name of its filename. *)
Lemma reader_part_base_name fieldname r filename mimeType fb :
  exists p,
    lastPart (snd (DefaultFormBuilder.CreateFormFileReaderWithMimeType
                     fieldname r filename mimeType fb)) = Some p /\
    partFilename p
    = Some (filepath.Base (DefaultFormBuilder.resolveFilename r filename mimeType)).
Proof.
  eexists; split; [apply emitted_part|apply partFilename_partHeader].
Qed.

Lemma createFormFile_parts fieldname r filename fb :
  filename <> "" ->
  partsOf (snd (DefaultFormBuilder.createFormFile fieldname r filename fb))
  = partsOf fb ++
    [multipart.mkPart
       [("Content-Disposition",
         fileDisposition (escapeQuotes fieldname) (escapeQuotes filename));
        ("Content-Type", "application/octet-stream")]
       (contents r)].
Proof.
  intros Hne. unfold DefaultFormBuilder.createFormFile.
  destruct filename as [|a filename]; [congruence|]. cbn [isEmpty].
  rewrite Copy_spec. unfold partsOf.
  cbn [snd DefaultFormBuilder.writer multipart.partWrite multipart.parts
       multipart.CreateFormFile multipart.CreatePart].
  now rewrite extendLast_app.
Qed.

(** C4 (as the code behaves): a file part written by [CreateFormFile]
    carries the name of the file as it was opened, directories included;
    [createFormFile] hands the name to [multipart.Writer.CreateFormFile]
    without taking its base name. *)
Theorem CreateFormFile_keeps_directories fieldname name data pos fb :
  name <> "" ->
  exists p,
    lastPart (snd (DefaultFormBuilder.CreateFormFile fieldname name data pos fb))
    = Some p /\
    partName p = Some fieldname /\
    partFilename p = Some name.
Proof.
  intros Hne. unfold DefaultFormBuilder.CreateFormFile.
  eexists; split; [eapply lastPart_app; now apply createFormFile_parts|].
  unfold partName, partFilename, disposition. cbn [multipart.header].
  cbn [String.eqb Ascii.eqb Bool.eqb andb].
  now rewrite parseName_file, parseFileDisposition_escape.
Qed.

Lemma CreateFormFile_keeps_directories_witness :
  exists p,
    lastPart (snd (DefaultFormBuilder.CreateFormFile
                     "image" "a/b/c.png" [] 0
                     (DefaultFormBuilder.NewFormBuilder "xyz"))) = Some p /\
    partName p = Some "image" /\
    partFilename p = Some "a/b/c.png".
Proof.
  apply (CreateFormFile_keeps_directories
           "image" "a/b/c.png" [] 0 (DefaultFormBuilder.NewFormBuilder "xyz")).
  discriminate.
Defined.

(** *** The header as written *)

Lemma string_of_list_byte_app (a b : list byte) :
  string_of_list_byte (a ++ b)
  = (string_of_list_byte a ++ string_of_list_byte b)%string.
Proof.
  induction a as [|x a IH]; [reflexivity|].
  cbn [app]. change (string_of_list_byte (x :: a ++ b))
    with (String (ascii_of_byte x) (string_of_list_byte (a ++ b))).
  rewrite IH. reflexivity.
Qed.

Lemma string_of_bytes (s : string) : string_of_list_byte (sniff.bytes s) = s.
Proof. apply string_of_list_byte_of_string. Qed.

Lemma chars_app (a b : string) : chars (a ++ b)%string = chars a ++ chars b.
Proof. unfold chars. induction a; cbn; congruence. Qed.

Lemma string_app_assoc (a b c : string) :
  ((a ++ b) ++ c = a ++ (b ++ c))%string.
Proof. induction a; cbn; congruence. Qed.

Lemma firstLine_app (a t : string) :
  ~ In LF (chars a) -> firstLine (a ++ String LF t)%string = Some a.
Proof.
  unfold chars. induction a as [|c a IH]; cbn [append firstLine list_ascii_of_string In].
  - intros _. reflexivity.
  - intros H. destruct (Ascii.eqb_spec c LF) as [->|Hc]; [exfalso; apply H; now left|].
    rewrite IH; [reflexivity|]. intros Hin. apply H. now right.
Qed.

Lemma trimCR_snoc (a : string) : trimCR (a ++ String CR EmptyString)%string = a.
Proof.
  induction a as [|c a IH]; [reflexivity|].
  cbn [append trimCR].
  destruct (a ++ String CR EmptyString)%string eqn:E.
  - destruct a; discriminate E.
  - now rewrite IH.
Qed.

Lemma escapeQuotes_keeps_out c s :
  c <> backslash -> c <> dquote ->
  ~ In c (chars s) -> ~ In c (chars (escapeQuotes s)).
Proof.
  intros Hb Hq Hs. rewrite escapeQuotes_chars. intros Hin.
  apply in_flat_map in Hin as (x & Hx & Hc).
  unfold escapeChar in Hc.
  destruct (Ascii.eqb x backslash); [|destruct (Ascii.eqb x dquote)];
    cbn [In] in Hc; intuition (subst; auto).
Qed.

Lemma fileDisposition_no_LF fieldname filename :
  ~ In LF (chars fieldname) -> ~ In LF (chars filename) ->
  ~ In LF (chars (fileDisposition (escapeQuotes fieldname) (escapeQuotes filename))).
Proof.
  intros H1 H2. unfold fileDisposition. rewrite !chars_app. intros Hin.
  assert (Hb : LF <> backslash) by discriminate.
  assert (Hq : LF <> dquote) by discriminate.
  pose proof (escapeQuotes_keeps_out LF fieldname Hb Hq H1) as E1.
  pose proof (escapeQuotes_keeps_out LF filename Hb Hq H2) as E2.
  repeat (apply in_app_or in Hin as [Hin|Hin];
          [first [ now apply E1 | now apply E2
                 | cbn in Hin; intuition discriminate ]|]).
  cbn in Hin; intuition discriminate.
Qed.





Lemma Base_defaultFilename mimeType :
  filepath.Base (DefaultFormBuilder.defaultFilename mimeType)
  = DefaultFormBuilder.defaultFilename mimeType.
Proof.
  unfold DefaultFormBuilder.defaultFilename.
  repeat match goal with
         | |- context [if ?b then _ else _] => destruct b
         end; reflexivity.
Qed.

Lemma resolveFilename_unnamed r mimeType :
  Name r = None ->
  DefaultFormBuilder.resolveFilename r "" mimeType
  = DefaultFormBuilder.defaultFilename mimeType.
Proof. unfold DefaultFormBuilder.resolveFilename. now intros ->. Qed.

(** C6: a file part created with an empty filename from a reader without
    a [Name] method gets its filename from the content type by the fixed
    table, and [file.bin] for every other type. *)
Theorem default_filename_derivation fieldname r mimeType fb :
  Name r = None ->
  exists p,
    lastPart (snd (DefaultFormBuilder.CreateFormFileReaderWithMimeType
                     fieldname r "" mimeType fb)) = Some p /\
    (mimeType = "image/png" -> partFilename p = Some "image.png") /\
    (mimeType = "image/jpeg" \/ mimeType = "image/jpg" ->
     partFilename p = Some "image.jpg") /\
    (mimeType = "image/gif" -> partFilename p = Some "image.gif") /\
    (mimeType = "image/webp" -> partFilename p = Some "image.webp") /\
    (mimeType = "image/bmp" -> partFilename p = Some "image.bmp") /\
    (mimeType = "image/tiff" -> partFilename p = Some "image.tiff") /\
    (~ In mimeType ["image/png"; "image/jpeg"; "image/jpg"; "image/gif";
                    "image/webp"; "image/bmp"; "image/tiff"] ->
     partFilename p = Some "file.bin").
Proof.
  intros Hn.
  eexists; split; [apply emitted_part|].
  rewrite partFilename_partHeader, (resolveFilename_unnamed _ _ Hn),
    Base_defaultFilename.
  repeat split; try (intros ->; reflexivity).
  - intros [-> | ->]; reflexivity.
  - intros Hnot. unfold DefaultFormBuilder.defaultFilename.
    repeat match goal with
           | |- context [String.eqb mimeType ?s] =>
               destruct (String.eqb_spec mimeType s) as [->|_];
               [exfalso; apply Hnot; simpl; tauto|]
           end.
    reflexivity.
Qed.

Lemma default_filename_derivation_witness :
  exists p,
    lastPart (snd (DefaultFormBuilder.CreateFormFileReaderWithMimeType
                     "image" (StringsReader []) "" "image/webp"
                     (DefaultFormBuilder.NewFormBuilder "xyz"))) = Some p /\
    partFilename p = Some "image.webp".
Proof.
  destruct (default_filename_derivation
              "image" (StringsReader []) "image/webp"
              (DefaultFormBuilder.NewFormBuilder "xyz") eq_refl)
    as (p & Hp & _ & _ & _ & Hwebp & _).
  exists p. split; [exact Hp|]. apply Hwebp. reflexivity.
Defined.

(** C9 as stated fails when [Name] returns the empty string: the filename
    is then still empty at the second test and the table names the part,
    where the claim has the base name of the reader's name. *)
Lemma named_reader_empty_name_counterexample :
  ~ (forall fieldname r n mimeType fb p,
        Name r = Some n ->
        lastPart (snd (DefaultFormBuilder.CreateFormFileReaderWithMimeType
                         fieldname r "" mimeType fb)) = Some p ->
        partFilename p = Some (filepath.Base n)).
Proof.
  intros H.
  specialize (H "image" (Stream (Some "") [] EOF false) "" "image/png"
                (DefaultFormBuilder.NewFormBuilder "xyz") _
                eq_refl (emitted_part _ _ _ _ _)).
  rewrite partFilename_partHeader in H.
  discriminate H.
Qed.

(** C9 (amended): with an empty filename and a reader whose [Name] method
    returns a name that is not empty, that name is the filename (base-named
    and escaped) whatever the content type; a filename that is not empty
    is never replaced; a reader whose [Name] returns the empty string is
    named by the table. *)
Theorem named_reader_filename fieldname r n mimeType fb :
  Name r = Some n ->
  n <> "" ->
  (exists p,
      lastPart (snd (DefaultFormBuilder.CreateFormFileReaderWithMimeType
                       fieldname r "" mimeType fb)) = Some p /\
      partFilename p = Some (filepath.Base n)) /\
  (forall filename, filename <> "" ->
     exists p,
       lastPart (snd (DefaultFormBuilder.CreateFormFileReaderWithMimeType
                        fieldname r filename mimeType fb)) = Some p /\
       partFilename p = Some (filepath.Base filename)) /\
  (forall r0, Name r0 = Some "" ->
     exists p,
       lastPart (snd (DefaultFormBuilder.CreateFormFileReaderWithMimeType
                        fieldname r0 "" mimeType fb)) = Some p /\
       partFilename p = Some (DefaultFormBuilder.defaultFilename mimeType)).
Proof.
  intros Hn Hne. split; [|split].
  - eexists; split; [apply emitted_part|].
    rewrite partFilename_partHeader.
    unfold DefaultFormBuilder.resolveFilename. rewrite Hn. cbn [isEmpty].
    destruct n; [congruence|reflexivity].
  - intros filename Hf.
    eexists; split; [apply emitted_part|].
    rewrite partFilename_partHeader.
    unfold DefaultFormBuilder.resolveFilename. rewrite Hn.
    destruct filename; [congruence|reflexivity].
  - intros r0 H0.
    eexists; split; [apply emitted_part|].
    rewrite partFilename_partHeader.
    unfold DefaultFormBuilder.resolveFilename. rewrite H0. cbn [isEmpty].
    apply f_equal, Base_defaultFilename.
Qed.

Lemma named_reader_filename_witness :
  exists p,
    lastPart (snd (DefaultFormBuilder.CreateFormFileReaderWithMimeType
                     "image" (OsFile "dir/cat.png" [] 0) "" "image/jpeg"
                     (DefaultFormBuilder.NewFormBuilder "xyz"))) = Some p /\
    partFilename p = Some "cat.png".
Proof.
  refine (proj1 (named_reader_filename
                   "image" (OsFile "dir/cat.png" [] 0) "dir/cat.png" "image/jpeg"
                   (DefaultFormBuilder.NewFormBuilder "xyz") eq_refl _)).
  discriminate.
Defined.

(** ** Sniffing *)

Lemma detectMimeType_ok r prefix e r' :
  Read r 512 = ((prefix, e), r') ->
  e = None \/ e = Some EOF ->
  detectMimeType r
  = Ok (sniff.DetectContentType prefix, MultiReader [StringsReader prefix; r']).
Proof.
  intros R He. unfold detectMimeType. rewrite R.
  destruct He as [-> | ->]; reflexivity.
Qed.

Lemma detectMimeType_inv r mimeType newReader :
  detectMimeType r = Ok (mimeType, newReader) ->
  exists prefix e r',
    Read r 512 = ((prefix, e), r') /\ (e = None \/ e = Some EOF) /\
    mimeType = sniff.DetectContentType prefix /\
    newReader = MultiReader [StringsReader prefix; r'].
Proof.
  unfold detectMimeType.
  destruct (Read r 512) as [[prefix e] r'].
  destruct e as [[|msg|pre cause]|]; cbn [isEOF]; intros H; inversion H; subst;
    exists prefix; eexists; exists r'; repeat split; auto.
Qed.

Lemma ending_isEOF_id e : (if isEOF e then EOF else e) = e.
Proof. now destruct e. Qed.

Lemma rebuilt_reader prefix e r r' :
  Read r 512 = ((prefix, e), r') ->
  e = None \/ e = Some EOF ->
  contents (MultiReader [StringsReader prefix; r']) = contents r /\
  ending (MultiReader [StringsReader prefix; r']) = ending r /\
  contents r = prefix ++ contents r'.
Proof.
  intros R He.
  rewrite contents_Multi, ending_Multi.
  cbn [contentsAll endings contents ending isEOF].
  rewrite ending_isEOF_id.
  destruct He as [-> | ->].
  - destruct (Read_ok _ _ _ _ R) as (Hc & He & _).
    rewrite Hc, He. repeat split; auto.
    destruct (isEOF (ending r)); now rewrite app_nil_r.
  - destruct (Read_err _ _ _ _ _ R) as (Hc & He & Hc' & He').
    rewrite Hc', He', He, Hc. cbn [isEOF app]. rewrite !app_nil_r. auto.
Qed.



(** The empty stream: sniffing succeeds and the reader returned is empty
    too. *)
Example detectMimeType_empty_stream :
  exists mimeType newReader,
    detectMimeType (StringsReader []) = Ok (mimeType, newReader) /\
    ReadAll 1 newReader = Some ([], EOF).
Proof. eexists; eexists; split; reflexivity. Qed.

Lemma firstMatch_none sigs data n :
  forallb (fun s => isEmpty (sniff.sigMatch s data n)) sigs = true ->
  sniff.firstMatch sigs data n = "application/octet-stream".
Proof.
  induction sigs as [|s sigs IH]; [reflexivity|].
  cbn [forallb sniff.firstMatch]. intros H.
  apply andb_prop in H as [Hs Hrest].
  destruct (sniff.sigMatch s data n); [auto|discriminate].
Qed.

Lemma DetectContentType_fallback data :
  noSignature data = true ->
  sniff.DetectContentType data = "application/octet-stream".
Proof. apply firstMatch_none. Qed.

Lemma empty_first_read r prefix e r' :
  contents r = [] -> ending r = EOF ->
  Read r 512 = ((prefix, e), r') ->
  prefix = [] /\ (e = None \/ e = Some EOF).
Proof.
  intros Hc He R. destruct e as [err|].
  - destruct (Read_err _ _ _ _ _ R) as (Hc1 & He1 & _).
    split; [congruence|right; congruence].
  - destruct (Read_ok _ _ _ _ R) as (Hc1 & _).
    rewrite Hc in Hc1. symmetry in Hc1. apply app_eq_nil in Hc1 as [-> _].
    auto.
Qed.

(** C7 as stated fails on the empty stream: the table's last signature,
    the one for text, accepts an empty prefix, so the type is not the
    generic binary one. *)
Lemma sniff_empty_stream_counterexample :
  ~ (forall r, contents r = [] -> ending r = EOF ->
       exists newReader,
         detectMimeType r = Ok ("application/octet-stream", newReader)).
Proof.
  intros H. destruct (H (StringsReader []) eq_refl eq_refl) as [newReader E].
  vm_compute in E. discriminate E.
Qed.

(** C7 (amended): sniffing an empty stream succeeds and gives the type
    [text/plain; charset=utf-8]; a prefix that no signature of the table
    answers for gives [application/octet-stream]. *)
Theorem sniff_empty_and_unmatched :
  (forall r, contents r = [] -> ending r = EOF ->
     exists newReader,
       detectMimeType r = Ok ("text/plain; charset=utf-8", newReader)) /\
  (forall r prefix e r',
     Read r 512 = ((prefix, e), r') ->
     e = None \/ e = Some EOF ->
     noSignature prefix = true ->
     detectMimeType r
     = Ok ("application/octet-stream", MultiReader [StringsReader prefix; r'])).
Proof.
  split.
  - intros r Hc He.
    destruct (Read r 512) as [[prefix e] r'] eqn:R.
    destruct (empty_first_read _ _ _ _ Hc He R) as [-> He'].
    eexists. rewrite (detectMimeType_ok _ _ _ _ R He'). reflexivity.
  - intros r prefix e r' R He Hno.
    rewrite (detectMimeType_ok _ _ _ _ R He).
    now rewrite (DetectContentType_fallback _ Hno).
Qed.

Lemma sniff_empty_and_unmatched_witness :
  (exists newReader,
      detectMimeType (Stream None [] EOF false)
      = Ok ("text/plain; charset=utf-8", newReader)) /\
  detectMimeType (StringsReader [x00; x01; x02])
  = Ok ("application/octet-stream",
        MultiReader [StringsReader [x00; x01; x02]; StringsReader []]).
Proof.
  split.
  - apply (proj1 sniff_empty_and_unmatched (Stream None [] EOF false));
      reflexivity.
  - apply (proj2 sniff_empty_and_unmatched
                 (StringsReader [x00; x01; x02]) [x00; x01; x02] None
                 (StringsReader [])).
    + reflexivity.
    + left; reflexivity.
    + vm_compute; reflexivity.
Defined.

(** C10: [detectMimeType] reads once, with a buffer of 512 bytes, and the
    type it returns is computed from the bytes of that read alone: two
    readers whose first read gives the same bytes get the same type,
    whatever follows; the reader returned holds those bytes and the input
    as that one read left it.  Two streams with the same bytes can so get
    different types when their first reads differ. *)
Theorem detectMimeType_first_read_only r1 r2 bs e1 e2 r1' r2' :
  Read r1 512 = ((bs, e1), r1') ->
  Read r2 512 = ((bs, e2), r2') ->
  e1 = None \/ e1 = Some EOF ->
  e2 = None \/ e2 = Some EOF ->
  List.length bs <= 512 /\
  detectMimeType r1
  = Ok (sniff.DetectContentType bs, MultiReader [StringsReader bs; r1']) /\
  detectMimeType r2
  = Ok (sniff.DetectContentType bs, MultiReader [StringsReader bs; r2']) /\
  (exists ra rb ma mb na nb,
      contents ra = contents rb /\
      detectMimeType ra = Ok (ma, na) /\
      detectMimeType rb = Ok (mb, nb) /\
      ma <> mb).
Proof.
  intros R1 R2 H1 H2.
  split; [exact (Read_length _ _ _ _ _ R1)|].
  split; [exact (detectMimeType_ok _ _ _ _ R1 H1)|].
  split; [exact (detectMimeType_ok _ _ _ _ R2 H2)|].
  exists (Stream None [sniff.bytes "GIF89a"] EOF false),
         (Stream None [sniff.bytes "GIF"; sniff.bytes "89a"] EOF false).
  do 4 eexists.
  split; [reflexivity|].
  split; [reflexivity|].
  split; [reflexivity|].
  vm_compute. discriminate.
Qed.

Lemma detectMimeType_first_read_only_witness :
  detectMimeType (Stream None [sniff.bytes "GIF89a"; sniff.bytes "one"] EOF false)
  = Ok (sniff.DetectContentType (sniff.bytes "GIF89a"),
        MultiReader [StringsReader (sniff.bytes "GIF89a");
                     Stream None [sniff.bytes "one"] EOF false]) /\
  detectMimeType (Stream None [sniff.bytes "GIF89a"] (Err "reset") false)
  = Ok (sniff.DetectContentType (sniff.bytes "GIF89a"),
        MultiReader [StringsReader (sniff.bytes "GIF89a");
                     Stream None [] (Err "reset") false]).
Proof.
  destruct (detectMimeType_first_read_only
              (Stream None [sniff.bytes "GIF89a"; sniff.bytes "one"] EOF false)
              (Stream None [sniff.bytes "GIF89a"] (Err "reset") false)
              (sniff.bytes "GIF89a") None None
              (Stream None [sniff.bytes "one"] EOF false)
              (Stream None [] (Err "reset") false)
              eq_refl eq_refl (or_introl eq_refl) (or_introl eq_refl))
    as (_ & Ha & Hb & _).
  split; assumption.
Defined.

(** ** The calls of [CreateVariImage] and [CreateEditImage] *)

Section TraceFacts.

Context {B : Type} {FB : FormBuilder B} {Request : Type}.
Variable c : Client B Request.

Lemma CreateVariImage_plan request :
  CreateVariImage c request
  = finish c (foldPlan (variPlan request)
                (sendForm c "POST"
                   (fullURL c "/images/variations"
                      (Some (ImageVariRequest.Model request))))).
Proof. reflexivity. Qed.

Lemma CreateEditImage_plan request :
  CreateEditImage c request
  = finish c (foldPlan (editPlan request)
                (sendForm c "POST" (fullURL c "/images/edits" None))).
Proof.
  unfold CreateEditImage, editPlan.
  destruct (ImageEditRequest.Mask request);
    destruct (negb (isEmpty (ImageEditRequest.Model request)));
    destruct (negb (isEmpty (ImageEditRequest.ResponseFormat request))
              && negb (String.eqb (ImageEditRequest.Model request)
                                  CreateImageModelGptImage1));
    destruct (negb (isEmpty (ImageEditRequest.Quality request))
              && negb (String.eqb (ImageEditRequest.Model request)
                                  CreateImageModelGptImage1));
    destruct (negb (isEmpty (ImageEditRequest.User request)));
    reflexivity.
Qed.

Lemma foldPlan_runCalls {A} plan (k : M A) s :
  foldPlan plan k s
  = let '((evs, r), b) := runCalls (Request := Request) plan (builder s) in
    let s' := mkState b (trace s ++ evs) in
    match r with
    | Some e => (Error e, s')
    | None => k s'
    end.
Proof.
  revert s; induction plan as [|call rest IH]; intros s.
  - cbn [foldPlan runCalls]. rewrite app_nil_r. now destruct s.
  - cbn [foldPlan runCalls]. unfold bind, perform.
    destruct (applyCall call (builder s)) as [[e|] b'].
    + reflexivity.
    + rewrite IH. cbn [builder trace].
      destruct (runCalls rest b') as [[evs r] b''].
      now rewrite <- app_assoc.
Qed.

Lemma runCalls_ok plan b (evs : list (Event Request)) b' :
  runCalls plan b = ((evs, None), b') -> evs = map okEvent plan.
Proof.
  revert b evs b'; induction plan as [|call rest IH]; intros b evs b'.
  - cbn [runCalls]. intros H; inversion H; reflexivity.
  - cbn [runCalls].
    destruct (applyCall call b) as [[e|] b1]; [discriminate|].
    destruct (runCalls rest b1) as [[evs1 r1] b2] eqn:E.
    intros H; inversion H; subst. cbn [map]. f_equal. eapply IH; eauto.
Qed.

Lemma runCalls_err plan b (evs : list (Event Request)) e b' :
  runCalls plan b = ((evs, Some e), b') ->
  exists done call rest,
    plan = done ++ call :: rest /\
    evs = map okEvent done ++ [BuilderCall call (Some e)].
Proof.
  revert b evs b'; induction plan as [|call rest IH]; intros b evs b'.
  - cbn [runCalls]. discriminate.
  - cbn [runCalls].
    destruct (applyCall call b) as [[e1|] b1].
    + intros H; inversion H; subst. now exists [], call, rest.
    + destruct (runCalls rest b1) as [[evs1 r1] b2] eqn:E.
      intros H; inversion H; subst.
      destruct (IH _ _ _ E) as (done & call1 & rest1 & -> & ->).
      now exists (call :: done), call1, rest1.
Qed.

Lemma clean_okEvents plan : Forall (@clean Request) (map okEvent plan).
Proof. apply Forall_forall. intros ev H. apply in_map_iff in H as (x & <- & _). now split. Qed.

Lemma split_at_error (l pre post : list (Event Request)) x y :
  Forall clean l ->
  l ++ [y] = pre ++ x :: post ->
  ~ clean x ->
  post = [] /\ pre = l /\ x = y.
Proof.
  intros Hl E Hx.
  destruct (exists_last (l := x :: post)) as (front & z & Hz); [discriminate|].
  destruct post as [|p post].
  - apply (app_inj_tail l pre y x) in E as [-> ->]. auto.
  - exfalso.
    assert (E1 : l ++ [y] = (pre ++ front) ++ [z])
      by (rewrite <- app_assoc, <- Hz; exact E).
    apply app_inj_tail in E1 as [-> _].
    destruct front as [|f front]; [destruct post; discriminate Hz|].
    cbn [app] in Hz. inversion Hz; subst f.
    rewrite Forall_forall in Hl. apply Hx, Hl.
    apply in_or_app; right; now left.
Qed.

(** What a whole call does, from the run of its builder calls. *)
Lemma finish_foldPlan plan method url :
  finish c (foldPlan plan (sendForm c method url))
  = let '((evs, r), b) := runCalls plan (createFormBuilder c) in
    match r with
    | Some e => ((zeroResponse, Some e), mkState b evs)
    | None =>
        let bd := body c b in
        let ct := FormDataContentType b in
        match newRequest c method url bd ct with
        | Error e =>
            ((zeroResponse, Some e),
             mkState b (evs ++ [NewRequest method url bd ct (Some e)]))
        | Ok req =>
            (sendRequest c req,
             mkState b ((evs ++ [NewRequest method url bd ct None])
                          ++ [SendRequest req (snd (sendRequest c req))]))
        end
    end.
Proof.
  unfold finish. rewrite foldPlan_runCalls. cbn [builder trace app].
  destruct (runCalls plan (createFormBuilder c)) as [[evs [e|]] b]; [reflexivity|].
  unfold sendForm, bind, doNewRequest, doSendRequest. cbn [builder trace].
  destruct (newRequest c method url (body c b) (FormDataContentType b)) as [req|e];
    [|reflexivity].
  cbn [builder trace]. now destruct (sendRequest c req).
Qed.

(** A builder call that fails is the last event of the call: the
    function returns its error with the zero response, every event before
    it is a builder call that succeeded, and nothing follows, no builder
    call and no use of the HTTP layer. *)
Lemma plan_aborts plan method url out pre call e post :
  finish c (foldPlan plan (sendForm c method url)) = out ->
  trace (snd out) = pre ++ BuilderCall call (Some e) :: post ->
  post = [] /\ fst out = (zeroResponse, Some e) /\ Forall clean pre.
Proof.
  intros <-. rewrite finish_foldPlan.
  assert (Hx : ~ clean (BuilderCall (Request := Request) call (Some e)))
    by (intros [_ H]; discriminate H).
  destruct (runCalls plan (createFormBuilder c)) as [[evs [e0|]] b] eqn:E.
  - cbn [snd fst trace]. intros Ht.
    destruct (runCalls_err _ _ _ _ _ E) as (done & call0 & rest & _ & ->).
    destruct (split_at_error _ _ _ _ _ (clean_okEvents done) Ht Hx)
      as (-> & -> & Hxy).
    inversion Hxy; subst. repeat split; auto using clean_okEvents.
  - apply runCalls_ok in E. subst evs.
    assert (Hin : forall evs' : list (Event Request),
               Forall (fun ev => isBuilderCall ev = false) evs' ->
               map okEvent plan ++ evs' = pre ++ BuilderCall call (Some e) :: post ->
               False).
    { intros evs' Hevs Ht.
      assert (In (BuilderCall call (Some e)) (map okEvent plan ++ evs'))
        by (rewrite Ht; apply in_or_app; right; now left).
      apply in_app_or in H as [H|H].
      - pose proof (clean_okEvents plan) as Hc. rewrite Forall_forall in Hc.
        exact (Hx (Hc _ H)).
      - rewrite Forall_forall in Hevs. specialize (Hevs _ H). discriminate Hevs. }
    cbv zeta.
    destruct (newRequest c method url (body c b) (FormDataContentType b)) as [req|e1];
      cbn [snd fst trace]; intros Ht; exfalso.
    + rewrite <- app_assoc in Ht. eapply Hin; [|exact Ht].
      repeat constructor.
    + eapply Hin; [|exact Ht]. repeat constructor.
Qed.

Lemma CreateEditImage_aborts request pre call e post :
  trace (snd (CreateEditImage c request)) = pre ++ BuilderCall call (Some e) :: post ->
  post = [] /\ fst (CreateEditImage c request) = (zeroResponse, Some e) /\
  Forall clean pre.
Proof. apply plan_aborts with (1 := eq_sym (CreateEditImage_plan request)). Qed.

Lemma CreateVariImage_aborts request pre call e post :
  trace (snd (CreateVariImage c request)) = pre ++ BuilderCall call (Some e) :: post ->
  post = [] /\ fst (CreateVariImage c request) = (zeroResponse, Some e) /\
  Forall clean pre.
Proof. apply plan_aborts with (1 := eq_sym (CreateVariImage_plan request)). Qed.

End TraceFacts.

(** ** Errors *)

Lemma detectMimeType_error r bs e r' :
  Read r 512 = ((bs, Some e), r') -> e <> EOF -> detectMimeType r = Error e.
Proof.
  intros R Hne. unfold detectMimeType. rewrite R.
  destruct e; [congruence|reflexivity|reflexivity].
Qed.

(** C8: a first read that fails with an error other than [EOF] makes
    [detectMimeType] fail with that error, which [CreateFormFileReader]
    returns wrapped (the cause can be unwrapped) without touching the
    form; and in [CreateEditImage] and [CreateVariImage] a builder call
    that returns an error is the last thing the function does: it returns
    that error, no builder call follows and the HTTP layer is never
    used (every earlier event is a builder call that succeeded). *)
Theorem errors_abort_the_call :
  (forall r bs e r',
      Read r 512 = ((bs, Some e), r') -> e <> EOF ->
      detectMimeType r = Error e /\
      forall fieldname filename fb,
        DefaultFormBuilder.CreateFormFileReader fieldname r filename fb
        = (Some (Wrap "failed to detect MIME type: " e), fb) /\
        Unwrap (Wrap "failed to detect MIME type: " e) = Some e) /\
  (forall (B : Type) (FB : FormBuilder B) (Request : Type) (c : Client B Request)
          request pre call e post,
      trace (snd (CreateEditImage c request))
      = pre ++ BuilderCall call (Some e) :: post ->
      post = [] /\
      fst (CreateEditImage c request) = (zeroResponse, Some e) /\
      Forall clean pre) /\
  (forall (B : Type) (FB : FormBuilder B) (Request : Type) (c : Client B Request)
          request pre call e post,
      trace (snd (CreateVariImage c request))
      = pre ++ BuilderCall call (Some e) :: post ->
      post = [] /\
      fst (CreateVariImage c request) = (zeroResponse, Some e) /\
      Forall clean pre).
Proof.
  split; [|split].
  - intros r bs e r' R Hne.
    pose proof (detectMimeType_error _ _ _ _ R Hne) as H.
    split; [exact H|].
    intros fieldname filename fb.
    unfold DefaultFormBuilder.CreateFormFileReader. rewrite H. auto.
  - intros B FB Request c. apply CreateEditImage_aborts.
  - intros B FB Request c. apply CreateVariImage_aborts.
Qed.

Lemma errors_abort_the_call_witness :
  detectMimeType failingReader = Error (Err "connection reset") /\
  fst (CreateEditImage sampleClient (sampleEdit failingReader "dall-e-2" "url" "hd"))
  = (zeroResponse,
     Some (Wrap "failed to detect MIME type: " (Err "connection reset"))).
Proof.
  destruct errors_abort_the_call as (Hsniff & Hedit & _).
  split.
  - apply (Hsniff failingReader gifBytes (Err "connection reset")
                  (Stream None [] (Err "connection reset") true)).
    + reflexivity.
    + discriminate.
  - apply (Hedit _ _ _ sampleClient
                 (sampleEdit failingReader "dall-e-2" "url" "hd")
                 [] (CallCreateFormFileReader "image" failingReader "")
                 (Wrap "failed to detect MIME type: " (Err "connection reset"))
                 []).
    vm_compute. reflexivity.
Defined.

(** ** The form built with the default builder *)

Lemma final_builder {B : Type} {FB : FormBuilder B} {Request : Type}
      (c : Client B Request) plan method url :
  builder (snd (finish c (foldPlan plan (sendForm c method url))))
  = snd (runCalls (Request := Request) plan (createFormBuilder c)).
Proof.
  rewrite finish_foldPlan.
  destruct (runCalls plan (createFormBuilder c)) as [[evs [e|]] b]; [reflexivity|].
  cbv zeta.
  now destruct (newRequest c method url (body c b) (FormDataContentType b)).
Qed.

Lemma CreateFormFileReader_ok fieldname r filename fb :
  ending r = EOF ->
  fst (DefaultFormBuilder.CreateFormFileReader fieldname r filename fb) = None.
Proof.
  intros He. unfold DefaultFormBuilder.CreateFormFileReader.
  destruct (Read r 512) as [[prefix e] r'] eqn:R.
  assert (Hok : e = None \/ e = Some EOF).
  { destruct e as [err|]; [right|now left].
    destruct (Read_err _ _ _ _ _ R) as (_ & He1 & _). congruence. }
  rewrite (detectMimeType_ok _ _ _ _ R Hok).
  rewrite CreateFormFileReaderWithMimeType_spec. cbn [fst].
  destruct (rebuilt_reader _ _ _ _ R Hok) as (_ & -> & _).
  now rewrite He.
Qed.

Lemma default_applyCall call fb :
  exists new,
    partsOf (snd (applyCall call fb)) = partsOf fb ++ new /\
    Forall (fun p => partName p = callField call) new /\
    (forall f v, call = CallWriteField f v ->
                 new = [fieldPart f v] /\ fst (applyCall call fb) = None).
Proof.
  destruct call as [fieldname r filename|fieldname value|]; cbn [applyCall callField].
  - cbn [CreateFormFileReader DefaultFormBuilder_FormBuilder].
    unfold DefaultFormBuilder.CreateFormFileReader.
    destruct (detectMimeType r) as [[mimeType newReader]|e].
    + rewrite CreateFormFileReaderWithMimeType_parts.
      eexists; split; [reflexivity|]. split; [|discriminate].
      constructor; [apply partName_partHeader|constructor].
    + exists []. cbn [snd]. rewrite app_nil_r.
      split; [reflexivity|]. split; [constructor|discriminate].
  - exists [fieldPart fieldname value].
    split; [|split].
    + cbn [WriteField DefaultFormBuilder_FormBuilder].
      unfold DefaultFormBuilder.WriteField, partsOf, multipart.WriteField,
        multipart.CreateFormField.
      cbn [snd DefaultFormBuilder.writer multipart.partWrite multipart.parts
           multipart.CreatePart].
      now rewrite extendLast_app.
    + constructor; [apply partName_fieldPart|constructor].
    + intros f v H; inversion H; subst. split; reflexivity.
  - exists []. cbn [Close DefaultFormBuilder_FormBuilder].
    unfold DefaultFormBuilder.Close, partsOf.
    cbn [snd DefaultFormBuilder.writer multipart.Close multipart.parts].
    rewrite app_nil_r. split; [reflexivity|]. split; [constructor|discriminate].
Qed.

Lemma default_runCalls (Request : Type) plan fb :
  exists new,
    partsOf (snd (runCalls (Request := Request) plan fb)) = partsOf fb ++ new /\
    Forall (fun p => exists call, In call plan /\ partName p = callField call) new /\
    (snd (fst (runCalls (Request := Request) plan fb)) = None ->
     forall f v, In (CallWriteField f v) plan -> In (fieldPart f v) new).
Proof.
  revert fb; induction plan as [|call rest IH]; intros fb.
  - exists []. cbn [runCalls snd]. rewrite app_nil_r.
    split; [reflexivity|]. split; [constructor|]. intros _ f v [].
  - cbn [runCalls].
    destruct (default_applyCall call fb) as (new1 & Hp1 & Hn1 & Hw1).
    destruct (applyCall call fb) as [[e|] fb1] eqn:E; cbn [snd fst] in *.
    + exists new1. split; [exact Hp1|]. split; [|discriminate].
      eapply Forall_impl; [|exact Hn1].
      intros p Hp. exists call. split; [now left|exact Hp].
    + destruct (IH fb1) as (new2 & Hp2 & Hn2 & Hw2).
      destruct (runCalls rest fb1) as [[evs r] fb2]; cbn [snd fst] in *.
      exists (new1 ++ new2).
      split; [now rewrite Hp2, Hp1, app_assoc|].
      split.
      * apply Forall_app; split.
        -- eapply Forall_impl; [|exact Hn1].
           intros p Hp. exists call. split; [now left|exact Hp].
        -- eapply Forall_impl; [|exact Hn2].
           intros p (call' & Hin & Hp). exists call'. split; [now right|exact Hp].
      * intros Hr f v [Hcall|Hin]; apply in_or_app.
        -- left. destruct (Hw1 f v Hcall) as [-> _]. now left.
        -- right. now apply Hw2.
Qed.

Lemma runCalls_default_ok (Request : Type) plan fb :
  (forall f r fn, In (CallCreateFormFileReader f r fn) plan -> ending r = EOF) ->
  snd (fst (runCalls (Request := Request) plan fb)) = None.
Proof.
  revert fb; induction plan as [|call rest IH]; intros fb Hok; [reflexivity|].
  cbn [runCalls].
  assert (Hcall : fst (applyCall call fb) = None).
  { destruct call as [f r fn|f v|]; cbn [applyCall]; try reflexivity.
    apply CreateFormFileReader_ok. eapply Hok. now left. }
  destruct (applyCall call fb) as [[e|] fb1]; cbn [fst] in Hcall; [discriminate|].
  specialize (IH fb1 (fun f r fn H => Hok f r fn (or_intror H))).
  destruct (runCalls rest fb1) as [[evs r] fb2]. exact IH.
Qed.

(** The names of the parts of a form come from the calls of its plan, and
    when no call failed every planned field is there. *)
Lemma formOf_plan (Request : Type) (c : Client DefaultFormBuilder.t Request)
      plan method url :
  partsOf (createFormBuilder c) = [] ->
  let out := finish c (foldPlan plan (sendForm c method url)) in
  (forall p, In p (formOf out) ->
             exists call, In call plan /\ partName p = callField call) /\
  ((forall f r fn, In (CallCreateFormFileReader f r fn) plan -> ending r = EOF) ->
   forall f v, In (CallWriteField f v) plan -> In (fieldPart f v) (formOf out)).
Proof.
  intros Hnew out. unfold formOf, out. rewrite final_builder.
  destruct (default_runCalls Request plan (createFormBuilder c))
    as (new & Hp & Hn & Hw).
  rewrite Hp, Hnew. cbn [app]. split.
  - intros p Hin. rewrite Forall_forall in Hn. now apply Hn.
  - intros Hok. apply Hw. now apply runCalls_default_ok.
Qed.

Lemma ending_probeImage r : ending (probeImage r) = ending r.
Proof.
  destruct r as [name data pos| | |]; try reflexivity.
  unfold probeImage. cbn [isOsFile SeekStart].
  destruct (Read (OsFile name data 0) 16) as [res file] eqn:R.
  cbn [Read] in R.
  destruct (16 =? 0)%nat; [inversion R; reflexivity|].
  destruct (isNil (skipn 0 data)); inversion R; reflexivity.
Qed.

Lemma ending_probeMask r : ending (probeMask r) = ending r.
Proof. now destruct r. Qed.

Lemma isEmpty_false s : isEmpty s = false -> s <> "".
Proof. destruct s; [discriminate|congruence]. Qed.

Lemma isEmpty_true s : isEmpty s = true -> s = "".
Proof. destruct s; [reflexivity|discriminate]. Qed.

(** The optional fields of [CreateEditImage] are planned only under
    their guards. *)
Lemma editPlan_guards request call f :
  In call (editPlan request) ->
  callField call = Some f ->
  (f = "model" -> ImageEditRequest.Model request <> "") /\
  (f = "response_format" ->
   ImageEditRequest.ResponseFormat request <> "" /\
   ImageEditRequest.Model request <> CreateImageModelGptImage1) /\
  (f = "quality" ->
   ImageEditRequest.Quality request <> "" /\
   ImageEditRequest.Model request <> CreateImageModelGptImage1) /\
  (f = "user" -> ImageEditRequest.User request <> "").
Proof.
  intros Hin Hf. unfold editPlan in Hin.
  destruct (ImageEditRequest.Mask request);
    destruct (isEmpty (ImageEditRequest.Model request)) eqn:EM;
    destruct (isEmpty (ImageEditRequest.ResponseFormat request)) eqn:ER;
    destruct (isEmpty (ImageEditRequest.Quality request)) eqn:EQ;
    destruct (isEmpty (ImageEditRequest.User request)) eqn:EU;
    destruct (String.eqb_spec (ImageEditRequest.Model request)
                              CreateImageModelGptImage1) as [EG|EG];
    cbn [app In negb andb] in Hin;
    repeat match goal with
           | H : _ \/ _ |- _ => destruct H
           | H : False |- _ => destruct H
           end;
    subst call; cbn [callField] in Hf; inversion Hf; subst f;
    repeat split; try discriminate; auto using isEmpty_false.
Qed.

Lemma editPlan_always request :
  In (CallWriteField "prompt" (ImageEditRequest.Prompt request)) (editPlan request) /\
  In (CallWriteField "n" (Itoa (ImageEditRequest.N request))) (editPlan request) /\
  In (CallWriteField "size" (ImageEditRequest.Size request)) (editPlan request).
Proof.
  unfold editPlan.
  repeat split; repeat (apply in_or_app; cbn [In]; auto; right); auto.
Qed.

Lemma editPlan_response_format request :
  ImageEditRequest.ResponseFormat request <> "" ->
  ImageEditRequest.Model request <> CreateImageModelGptImage1 ->
  In (CallWriteField "response_format" (ImageEditRequest.ResponseFormat request))
     (editPlan request).
Proof.
  intros Hr Hm. unfold editPlan.
  destruct (ImageEditRequest.ResponseFormat request) eqn:ER; [congruence|].
  apply String.eqb_neq in Hm. rewrite Hm. cbn [isEmpty negb andb].
  do 5 (apply in_or_app; right). apply in_or_app; left. now left.
Qed.

Lemma editPlan_quality request :
  ImageEditRequest.Quality request <> "" ->
  ImageEditRequest.Model request <> CreateImageModelGptImage1 ->
  In (CallWriteField "quality" (ImageEditRequest.Quality request))
     (editPlan request).
Proof.
  intros Hq Hm. unfold editPlan.
  destruct (ImageEditRequest.Quality request) eqn:EQ; [congruence|].
  apply String.eqb_neq in Hm. rewrite Hm. cbn [isEmpty negb andb].
  do 6 (apply in_or_app; right). apply in_or_app; left. now left.
Qed.

Lemma editPlan_readers request f r fn :
  ending (ImageEditRequest.Image request) = EOF ->
  (forall m, ImageEditRequest.Mask request = Some m -> ending m = EOF) ->
  In (CallCreateFormFileReader f r fn) (editPlan request) ->
  ending r = EOF.
Proof.
  intros Hi Hm Hin. unfold editPlan in Hin.
  destruct (ImageEditRequest.Mask request) as [m|] eqn:EMask;
    destruct (negb (isEmpty (ImageEditRequest.Model request)));
    destruct (negb (isEmpty (ImageEditRequest.ResponseFormat request))
              && negb (String.eqb (ImageEditRequest.Model request)
                                  CreateImageModelGptImage1));
    destruct (negb (isEmpty (ImageEditRequest.Quality request))
              && negb (String.eqb (ImageEditRequest.Model request)
                                  CreateImageModelGptImage1));
    destruct (negb (isEmpty (ImageEditRequest.User request)));
    cbn [app In] in Hin;
    repeat match goal with
           | H : _ \/ _ |- _ => destruct H
           | H : False |- _ => destruct H
           end;
    try discriminate;
    match goal with
    | H : CallCreateFormFileReader _ _ _ = CallCreateFormFileReader _ _ _ |- _ =>
        inversion H; subst
    end;
    rewrite ?ending_probeImage, ?ending_probeMask; auto.
Qed.

Lemma defaultClient_fresh (Request : Type) boundary mkURL mkRequest send :
  partsOf (createFormBuilder
             (defaultClient (Request := Request) boundary mkURL mkRequest send))
  = [].
Proof. reflexivity. Qed.

(** ** Which fields reach the form *)

(** C2: with the model [gpt-image-1], the form that [CreateEditImage]
    builds has no part named [response_format] and none named [quality],
    whatever the request holds in these fields; with any other model, and
    image and mask streams that read to their end, a response format or a
    quality that is not empty is written as the field of that name. *)
Theorem CreateEditImage_model_aware
        (Request : Type) boundary mkURL mkRequest send request :
  let c := defaultClient (Request := Request) boundary mkURL mkRequest send in
  let form := formOf (CreateEditImage c request) in
  (ImageEditRequest.Model request = "gpt-image-1" ->
   forall p, In p form ->
             partName p <> Some "response_format" /\ partName p <> Some "quality") /\
  (ImageEditRequest.Model request <> "gpt-image-1" ->
   ending (ImageEditRequest.Image request) = EOF ->
   (forall m, ImageEditRequest.Mask request = Some m -> ending m = EOF) ->
   (ImageEditRequest.ResponseFormat request <> "" ->
    In (fieldPart "response_format" (ImageEditRequest.ResponseFormat request)) form) /\
   (ImageEditRequest.Quality request <> "" ->
    In (fieldPart "quality" (ImageEditRequest.Quality request)) form)).
Proof.
  intros c form. unfold form. rewrite CreateEditImage_plan.
  destruct (formOf_plan Request c (editPlan request) "POST"
              (fullURL c "/images/edits" None)
              (defaultClient_fresh Request boundary mkURL mkRequest send))
    as [Hnames Hfields].
  split.
  - intros Hm p Hin.
    destruct (Hnames p Hin) as (call & Hcall & Hp). rewrite Hp.
    split; intros Hf;
      destruct (editPlan_guards request call _ Hcall Hf) as (_ & Hrf & Hq & _).
    + now destruct (Hrf eq_refl).
    + now destruct (Hq eq_refl).
  - intros Hm Hi Hmask.
    specialize (Hfields (fun f r fn => editPlan_readers request f r fn Hi Hmask)).
    split; intros Hne; apply Hfields.
    + now apply editPlan_response_format.
    + now apply editPlan_quality.
Qed.

Lemma CreateEditImage_model_aware_witness :
  (forall p,
      In p (formOf (CreateEditImage sampleClient
                      (sampleEdit (StringsReader gifBytes) "gpt-image-1" "url" "hd"))) ->
      partName p <> Some "response_format" /\ partName p <> Some "quality") /\
  In (fieldPart "response_format" "url")
     (formOf (CreateEditImage sampleClient
                (sampleEdit (StringsReader gifBytes) "dall-e-2" "url" "hd"))) /\
  In (fieldPart "quality" "hd")
     (formOf (CreateEditImage sampleClient
                (sampleEdit (StringsReader gifBytes) "dall-e-2" "url" "hd"))).
Proof.
  split; [|split].
  - apply (proj1 (CreateEditImage_model_aware
                    _ _ _ _ _
                    (sampleEdit (StringsReader gifBytes) "gpt-image-1" "url" "hd"))).
    reflexivity.
  - apply (proj2 (CreateEditImage_model_aware
                    _ _ _ _ _
                    (sampleEdit (StringsReader gifBytes) "dall-e-2" "url" "hd")));
      try reflexivity; discriminate.
  - apply (proj2 (CreateEditImage_model_aware
                    _ _ _ _ _
                    (sampleEdit (StringsReader gifBytes) "dall-e-2" "url" "hd")));
      try reflexivity; discriminate.
Defined.

(** C3 as stated fails: [CreateVariImage] writes [n], [size] and
    [response_format] without looking at their values, so a request that
    leaves them out gets a part for each. *)
Lemma optional_fields_counterexample :
  ~ (forall request p,
        In p (formOf (CreateVariImage sampleClient request)) ->
        (ImageVariRequest.N request = 0%Z -> partName p <> Some "n") /\
        (ImageVariRequest.Size request = "" -> partName p <> Some "size")).
Proof.
  intros H.
  destruct (H (sampleVari (StringsReader gifBytes)) (fieldPart "size" ""))
    as [_ Hsize].
  - vm_compute. tauto.
  - apply Hsize; reflexivity.
Qed.

Lemma variPlan_readers request f r fn :
  ending (ImageVariRequest.Image request) = EOF ->
  In (CallCreateFormFileReader f r fn) (variPlan request) ->
  ending r = EOF.
Proof.
  intros Hi Hin. unfold variPlan in Hin. cbn [In] in Hin.
  repeat match goal with
         | H : _ \/ _ |- _ => destruct H
         | H : False |- _ => destruct H
         end; try discriminate.
  match goal with
  | H : CallCreateFormFileReader _ _ _ = CallCreateFormFileReader _ _ _ |- _ =>
      inversion H; subst
  end. exact Hi.
Qed.

(** C3 (amended): in the form that [CreateEditImage] builds, the fields
    [model], [response_format], [quality] and [user] have no part when
    their value is the empty string; [n] and [size] are written by
    [CreateEditImage] and by [CreateVariImage] whatever their value, [n]
    as the decimal text of the number, which is [0] for zero, and [size]
    possibly with an empty value. *)
Theorem optional_fields_emission
        (Request : Type) boundary mkURL mkRequest send :
  let c := defaultClient (Request := Request) boundary mkURL mkRequest send in
  (forall request p,
      In p (formOf (CreateEditImage c request)) ->
      (ImageEditRequest.Model request = "" -> partName p <> Some "model") /\
      (ImageEditRequest.ResponseFormat request = "" ->
       partName p <> Some "response_format") /\
      (ImageEditRequest.Quality request = "" -> partName p <> Some "quality") /\
      (ImageEditRequest.User request = "" -> partName p <> Some "user")) /\
  (forall request,
      ending (ImageEditRequest.Image request) = EOF ->
      (forall m, ImageEditRequest.Mask request = Some m -> ending m = EOF) ->
      In (fieldPart "n" (Itoa (ImageEditRequest.N request)))
         (formOf (CreateEditImage c request)) /\
      In (fieldPart "size" (ImageEditRequest.Size request))
         (formOf (CreateEditImage c request))) /\
  (forall request,
      ending (ImageVariRequest.Image request) = EOF ->
      In (fieldPart "n" (Itoa (ImageVariRequest.N request)))
         (formOf (CreateVariImage c request)) /\
      In (fieldPart "size" (ImageVariRequest.Size request))
         (formOf (CreateVariImage c request))) /\
  Itoa 0 = "0".
Proof.
  intros c.
  pose proof (defaultClient_fresh Request boundary mkURL mkRequest send)
    as Hfresh.
  split; [|split; [|split; [|reflexivity]]].
  - intros request p. rewrite CreateEditImage_plan. intros Hin.
    destruct (formOf_plan Request c (editPlan request) "POST"
                (fullURL c "/images/edits" None) Hfresh) as [Hnames _].
    destruct (Hnames p Hin) as (call & Hcall & Hp). rewrite Hp.
    repeat split; intros Hv Hf;
      destruct (editPlan_guards request call _ Hcall Hf) as (Hm & Hrf & Hq & Hu).
    + now apply (Hm eq_refl).
    + now destruct (Hrf eq_refl).
    + now destruct (Hq eq_refl).
    + now apply (Hu eq_refl).
  - intros request Hi Hmask. rewrite CreateEditImage_plan.
    destruct (formOf_plan Request c (editPlan request) "POST"
                (fullURL c "/images/edits" None) Hfresh) as [_ Hfields].
    specialize (Hfields (fun f r fn => editPlan_readers request f r fn Hi Hmask)).
    destruct (editPlan_always request) as (_ & Hn & Hs).
    split; now apply Hfields.
  - intros request Hi. rewrite CreateVariImage_plan.
    destruct (formOf_plan Request c (variPlan request) "POST"
                (fullURL c "/images/variations"
                   (Some (ImageVariRequest.Model request))) Hfresh)
      as [_ Hfields].
    specialize (Hfields (fun f r fn => variPlan_readers request f r fn Hi)).
    split; apply Hfields; unfold variPlan; cbn [In]; auto.
Qed.

Lemma optional_fields_emission_witness :
  (forall p,
      In p (formOf (CreateEditImage sampleClient
                      (sampleEdit (StringsReader gifBytes) "" "" ""))) ->
      partName p <> Some "model" /\ partName p <> Some "response_format" /\
      partName p <> Some "quality" /\ partName p <> Some "user") /\
  In (fieldPart "n" "0")
     (formOf (CreateVariImage sampleClient (sampleVari (StringsReader gifBytes)))) /\
  In (fieldPart "size" "")
     (formOf (CreateVariImage sampleClient (sampleVari (StringsReader gifBytes)))).
Proof.
  destruct (optional_fields_emission
              (list byte * string) "0123456789abcdef"
              (fun suffix _ => ("https://api.openai.com/v1" ++ suffix)%string)
              (fun _ _ body contentType => Ok (body, contentType))
              (fun _ => (zeroResponse, None)))
    as (Homit & _ & Hvari & _).
  split.
  - intros p Hin.
    destruct (Homit (sampleEdit (StringsReader gifBytes) "" "" "") p Hin)
      as (Hm & Hrf & Hq & Hu).
    repeat split; [apply Hm|apply Hrf|apply Hq|apply Hu]; reflexivity.
  - exact (Hvari (sampleVari (StringsReader gifBytes)) eq_refl).
Defined.

(** ** The body handed to the HTTP layer *)

Lemma encodeParts_snoc b first ps p :
  multipart.encodeParts b first (ps ++ [p])
  = multipart.encodeParts b first ps
      ++ (if first && isNil ps then [] else multipart.CRLF)
      ++ sniff.bytes "--" ++ sniff.bytes b ++ multipart.CRLF
      ++ multipart.headerLines (multipart.header p) ++ multipart.CRLF
      ++ multipart.content p.
Proof.
  revert first; induction ps as [|q ps IH]; intros first.
  - cbn [app multipart.encodeParts isNil]. rewrite andb_true_r, app_nil_r.
    reflexivity.
  - cbn [app multipart.encodeParts isNil]. rewrite IH, andb_false_r.
    cbn [andb]. now rewrite <- ?app_assoc.
Qed.

Lemma CreatePart_Open h w : Open w -> Open (multipart.CreatePart h w).
Proof.
  intros [Hb Hl]. unfold Open, multipart.CreatePart.
  cbn [multipart.buf multipart.boundary multipart.parts multipart.lastpart].
  split.
  - rewrite encodeParts_snoc, Hb, Hl. cbn [multipart.header multipart.content andb].
    rewrite app_nil_r.
    now destruct (isNil (multipart.parts w)).
  - now destruct (multipart.parts w).
Qed.

Lemma partWrite_Open d w :
  Open w -> multipart.parts w <> [] -> Open (multipart.partWrite d w).
Proof.
  intros [Hb Hl] Hne. unfold Open, multipart.partWrite.
  cbn [multipart.buf multipart.boundary multipart.parts multipart.lastpart].
  destruct (exists_last Hne) as (ps & [h c] & E).
  rewrite E in *. rewrite extendLast_app. split.
  - rewrite Hb, !encodeParts_snoc. cbn [multipart.header multipart.content].
    now rewrite <- !app_assoc.
  - rewrite Hl. now destruct ps.
Qed.

Lemma applyCall_Open call (fb : DefaultFormBuilder.t) :
  call <> CallClose ->
  Open (DefaultFormBuilder.writer fb) ->
  Open (DefaultFormBuilder.writer (snd (applyCall call fb))).
Proof.
  intros Hc Ho.
  assert (Hnew : forall h, multipart.parts (multipart.CreatePart h (DefaultFormBuilder.writer fb)) <> [])
    by (intros h; cbn [multipart.CreatePart multipart.parts];
        destruct (multipart.parts (DefaultFormBuilder.writer fb)); discriminate).
  destruct call as [fieldname r filename|fieldname value|]; [| |congruence];
    cbn [applyCall CreateFormFileReader WriteField DefaultFormBuilder_FormBuilder].
  - unfold DefaultFormBuilder.CreateFormFileReader.
    destruct (detectMimeType r) as [[mimeType newReader]|e]; [|exact Ho].
    rewrite CreateFormFileReaderWithMimeType_spec.
    cbn [snd DefaultFormBuilder.writer].
    apply partWrite_Open; [now apply CreatePart_Open|apply Hnew].
  - unfold DefaultFormBuilder.WriteField, multipart.WriteField,
      multipart.CreateFormField.
    cbn [snd DefaultFormBuilder.writer].
    apply partWrite_Open; [now apply CreatePart_Open|apply Hnew].
Qed.

Lemma runCalls_Open (Request : Type) plan (fb : DefaultFormBuilder.t) :
  ~ In CallClose plan ->
  Open (DefaultFormBuilder.writer fb) ->
  Open (DefaultFormBuilder.writer (snd (runCalls (Request := Request) plan fb))).
Proof.
  revert fb; induction plan as [|call rest IH]; intros fb Hno Ho; [exact Ho|].
  cbn [runCalls].
  assert (H1 : Open (DefaultFormBuilder.writer (snd (applyCall call fb)))).
  { apply applyCall_Open; [|exact Ho]. intros ->. apply Hno. now left. }
  destruct (applyCall call fb) as [[e|] fb1]; cbn [snd] in *; [exact H1|].
  specialize (IH fb1 (fun H => Hno (or_intror H)) H1).
  now destruct (runCalls rest fb1) as [[evs r] fb2].
Qed.

Lemma runCalls_snoc {B : Type} {FB : FormBuilder B} (Request : Type)
      plan call (b : B) :
  runCalls (Request := Request) (plan ++ [call]) b
  = let '((evs, r), b') := runCalls (Request := Request) plan b in
    match r with
    | Some e => ((evs, Some e), b')
    | None =>
        let '(err, b'') := applyCall call b' in
        ((evs ++ [BuilderCall call err], err), b'')
    end.
Proof.
  revert b; induction plan as [|c0 rest IH]; intros b.
  - cbn [app runCalls]. destruct (applyCall call b) as [[e|] b']; reflexivity.
  - cbn [app runCalls].
    destruct (applyCall c0 b) as [[e|] b1]; [reflexivity|].
    rewrite IH. destruct (runCalls rest b1) as [[evs [e|]] b2]; [reflexivity|].
    now destruct (applyCall call b2).
Qed.

Lemma runCalls_boundary (Request : Type) plan (fb : DefaultFormBuilder.t) :
  multipart.boundary
    (DefaultFormBuilder.writer (snd (runCalls (Request := Request) plan fb)))
  = multipart.boundary (DefaultFormBuilder.writer fb).
Proof.
  revert fb; induction plan as [|call rest IH]; intros fb; [reflexivity|].
  cbn [runCalls].
  assert (H1 : multipart.boundary
                 (DefaultFormBuilder.writer (snd (applyCall call fb)))
               = multipart.boundary (DefaultFormBuilder.writer fb)).
  { destruct call as [f r fn|f v|];
      cbn [applyCall CreateFormFileReader WriteField Close
                     DefaultFormBuilder_FormBuilder]; try reflexivity.
    unfold DefaultFormBuilder.CreateFormFileReader.
    destruct (detectMimeType r) as [[m nr]|e]; [|reflexivity].
    now rewrite CreateFormFileReaderWithMimeType_spec. }
  destruct (applyCall call fb) as [[e|] fb1]; cbn [snd] in *; [exact H1|].
  specialize (IH fb1). rewrite <- H1.
  now destruct (runCalls rest fb1) as [[evs r] fb2].
Qed.

(** When a plan that ends with [Close] runs without error on a fresh
    default builder, the buffer is the encoding of the parts followed by
    the closing line. *)
Lemma closed_form_bytes (Request : Type) calls boundary evs fb :
  ~ In CallClose calls ->
  runCalls (Request := Request) (calls ++ [CallClose])
           (DefaultFormBuilder.NewFormBuilder boundary) = ((evs, None), fb) ->
  multipart.buf (DefaultFormBuilder.writer fb)
  = multipart.encodeParts boundary true (partsOf fb) ++ terminator boundary.
Proof.
  intros Hno. rewrite runCalls_snoc.
  pose proof (runCalls_Open Request calls (DefaultFormBuilder.NewFormBuilder boundary) Hno)
    as Ho.
  pose proof (runCalls_boundary Request calls (DefaultFormBuilder.NewFormBuilder boundary))
    as Hb.
  destruct (runCalls calls (DefaultFormBuilder.NewFormBuilder boundary))
    as [[evs0 [e|]] fb0]; [discriminate|].
  cbn [snd] in *.
  cbn [applyCall Close DefaultFormBuilder_FormBuilder].
  unfold DefaultFormBuilder.Close. intros H; inversion H; subst.
  unfold partsOf, terminator.
  cbn [DefaultFormBuilder.writer multipart.Close multipart.buf multipart.parts].
  destruct Ho as [Hbuf _]; [split; reflexivity|].
  rewrite Hbuf, Hb. reflexivity.
Qed.

Lemma plan_request_body (Request : Type) boundary mkURL mkRequest send
      calls method url m u bd ct e :
  let c := defaultClient (Request := Request) boundary mkURL mkRequest send in
  let out := finish c (foldPlan (calls ++ [CallClose]) (sendForm c method url)) in
  ~ In CallClose calls ->
  In (NewRequest m u bd ct e) (trace (snd out)) ->
  bd = multipart.encodeParts boundary true (formOf out) ++ terminator boundary.
Proof.
  intros c out Hno. unfold out, formOf. rewrite final_builder, finish_foldPlan.
  destruct (runCalls (calls ++ [CallClose]) (createFormBuilder c))
    as [[evs [e0|]] fb] eqn:E; cbn [snd].
  - cbn [trace]. intros Hin.
    destruct (runCalls_err _ _ _ _ _ E) as (done & call0 & rest & _ & ->).
    apply in_app_or in Hin as [Hin|[Hin|[]]]; [|discriminate Hin].
    apply in_map_iff in Hin as (x & Hx & _). discriminate Hx.
  - pose proof (closed_form_bytes Request calls boundary evs fb Hno E) as Hbytes.
    apply runCalls_ok in E. subst evs. cbv zeta.
    assert (Hev : forall x : Event Request,
               In x (map okEvent (calls ++ [CallClose])) ->
               x <> NewRequest m u bd ct e).
    { intros x Hx. apply in_map_iff in Hx as (y & <- & _). discriminate. }
    destruct (newRequest c method url (body c fb) (FormDataContentType fb))
      as [req|e1]; cbn [snd trace]; intros Hin.
    + apply in_app_or in Hin as [Hin|[Hin|[]]]; [|discriminate Hin].
      apply in_app_or in Hin as [Hin|[Hin|[]]]; [now elim (Hev _ Hin)|].
      inversion Hin; subst. exact Hbytes.
    + apply in_app_or in Hin as [Hin|[Hin|[]]]; [now elim (Hev _ Hin)|].
      inversion Hin; subst. exact Hbytes.
Qed.

Lemma editPlan_ends_with_Close request :
  exists calls, editPlan request = calls ++ [CallClose] /\ ~ In CallClose calls.
Proof.
  exists (removelast (editPlan request)).
  unfold editPlan.
  destruct (ImageEditRequest.Mask request);
    destruct (negb (isEmpty (ImageEditRequest.Model request)));
    destruct (negb (isEmpty (ImageEditRequest.ResponseFormat request))
              && negb (String.eqb (ImageEditRequest.Model request)
                                  CreateImageModelGptImage1));
    destruct (negb (isEmpty (ImageEditRequest.Quality request))
              && negb (String.eqb (ImageEditRequest.Model request)
                                  CreateImageModelGptImage1));
    destruct (negb (isEmpty (ImageEditRequest.User request)));
    cbn [app removelast In]; (split; [reflexivity|]);
    intros H;
    repeat match goal with
           | H : _ \/ _ |- _ => destruct H
           | H : False |- _ => destruct H
           end; discriminate.
Qed.

(** The body that [CreateEditImage] and [CreateVariImage] hand to
    [newRequest] is the multipart encoding of the parts of the form, in
    the order in which they were added, closed by the final boundary
    line. *)
Lemma request_body_is_encoded_form (Request : Type) boundary mkURL mkRequest send :
  let c := defaultClient (Request := Request) boundary mkURL mkRequest send in
  (forall request m u bd ct e,
      In (NewRequest m u bd ct e) (trace (snd (CreateEditImage c request))) ->
      bd = multipart.encodeParts boundary true (formOf (CreateEditImage c request))
             ++ terminator boundary) /\
  (forall request m u bd ct e,
      In (NewRequest m u bd ct e) (trace (snd (CreateVariImage c request))) ->
      bd = multipart.encodeParts boundary true (formOf (CreateVariImage c request))
             ++ terminator boundary).
Proof.
  intros c. split; intros request m u bd ct e.
  - rewrite CreateEditImage_plan.
    destruct (editPlan_ends_with_Close request) as (calls & -> & Hno).
    now apply plan_request_body.
  - rewrite CreateVariImage_plan.
    apply (plan_request_body Request boundary mkURL mkRequest send
             [ CallCreateFormFileReader "image" (ImageVariRequest.Image request) "";
               CallWriteField "n" (Itoa (ImageVariRequest.N request));
               CallWriteField "size" (ImageVariRequest.Size request);
               CallWriteField "response_format"
                              (ImageVariRequest.ResponseFormat request) ]).
    cbn [In]. intros H.
    repeat match goal with
           | H : _ \/ _ |- _ => destruct H
           | H : False |- _ => destruct H
           end; discriminate.
Qed.

(** ** Named readers behind the sniffer *)

(** Through [CreateFormFileReader] the reader that reaches
    [CreateFormFileReaderWithMimeType] is the multi-reader built by
    [detectMimeType], which has no [Name] method: there the name of a
    named reader is not seen, and an empty filename is always replaced by
    the table. *)
Lemma sniffed_reader_has_no_Name r mimeType newReader :
  detectMimeType r = Ok (mimeType, newReader) -> Name newReader = None.
Proof.
  intros H.
  destruct (detectMimeType_inv _ _ _ H) as (prefix & e & r' & _ & _ & _ & ->).
  reflexivity.
Qed.


(** * Further properties of the form builder *)

(** ** [CreateFormFile] *)

Lemma readDisposition_header fieldname filename rest c :
  ~ In LF (chars fieldname) -> ~ In LF (chars filename) ->
  readDisposition
    (writtenHeader
       (multipart.mkPart
          (("Content-Disposition",
            fileDisposition (escapeQuotes fieldname) (escapeQuotes filename))
             :: rest) c))
  = Some (fieldname, filename).
Proof.
  intros H1 H2. unfold readDisposition, writtenHeader.
  cbn [multipart.header multipart.headerLines flat_map fst snd].
  rewrite !string_of_list_byte_app, !string_of_bytes.
  set (v := fileDisposition (escapeQuotes fieldname) (escapeQuotes filename)).
  set (tail := string_of_list_byte
                 (flat_map
                    (fun kv : string * string =>
                       sniff.bytes (fst kv) ++ sniff.bytes ": "
                         ++ sniff.bytes (snd kv) ++ multipart.CRLF) rest)).
  assert (E : (("Content-Disposition" ++ ": " ++ v
                  ++ string_of_list_byte multipart.CRLF) ++ tail)%string
              = ((("Content-Disposition: " ++ v) ++ String CR EmptyString)
                   ++ String LF tail)%string).
  { change (string_of_list_byte multipart.CRLF)
      with (String CR (String LF EmptyString)).
    rewrite !string_app_assoc. reflexivity. }
  rewrite E. clear E.
  rewrite firstLine_app.
  - rewrite trimCR_snoc.
    cbn [append HeaderParse.expect Ascii.eqb Bool.eqb].
    apply parseFileDisposition_escape.
  - rewrite !chars_app. intros Hin.
    apply in_app_or in Hin as [Hin|Hin].
    + apply in_app_or in Hin as [Hin|Hin].
      * cbn in Hin. intuition discriminate.
      * revert Hin. now apply fileDisposition_no_LF.
    + cbn in Hin. intuition discriminate.
Qed.

(** X1: [createFormFile] refuses an empty filename with the error
    [filename cannot be empty] and leaves the form as it was.  With any
    other filename it adds exactly one part, always with the content type
    [application/octet-stream] (this path does not sniff), whose body is
    the stream up to the error that ends it, and it returns that error,
    or none after [EOF].  When the field name and the filename hold no CR
    and no LF, the Content-Disposition line written reads back as the
    field name and the filename as given, directories included.
    [CreateFormFile] is [createFormFile] on the file with the name of the
    file as filename. *)
Theorem createFormFile_part fieldname r filename fb :
  (filename = "" ->
   DefaultFormBuilder.createFormFile fieldname r filename fb
   = (Some (Err "filename cannot be empty"), fb)) /\
  (filename <> "" ->
   fst (DefaultFormBuilder.createFormFile fieldname r filename fb)
   = (if isEOF (ending r) then None else Some (ending r)) /\
   exists p,
     partsOf (snd (DefaultFormBuilder.createFormFile fieldname r filename fb))
     = partsOf fb ++ [p] /\
     partContentType p = Some "application/octet-stream" /\
     multipart.content p = contents r /\
     (noCRLF fieldname -> noCRLF filename ->
      readDisposition (writtenHeader p) = Some (fieldname, filename))) /\
  (forall name data pos,
      DefaultFormBuilder.CreateFormFile fieldname name data pos fb
      = DefaultFormBuilder.createFormFile fieldname (OsFile name data pos) name fb).
Proof.
  split; [|split].
  - intros ->. reflexivity.
  - intros Hne. split.
    + unfold DefaultFormBuilder.createFormFile.
      destruct filename as [|a filename]; [congruence|]. cbn [isEmpty].
      rewrite Copy_spec. reflexivity.
    + eexists. split; [now apply createFormFile_parts|].
      split; [reflexivity|]. split; [reflexivity|].
      intros [_ Hf] [_ Hn]. now apply readDisposition_header.
  - reflexivity.
Qed.

Lemma createFormFile_part_witness :
  DefaultFormBuilder.createFormFile "file" failingReader ""
    (DefaultFormBuilder.NewFormBuilder "xyz")
  = (Some (Err "filename cannot be empty"), DefaultFormBuilder.NewFormBuilder "xyz") /\
  fst (DefaultFormBuilder.createFormFile "file" failingReader "audio/a.gif"
         (DefaultFormBuilder.NewFormBuilder "xyz"))
  = Some (Err "connection reset") /\
  exists p,
    partsOf (snd (DefaultFormBuilder.createFormFile "file" failingReader "audio/a.gif"
                    (DefaultFormBuilder.NewFormBuilder "xyz")))
    = [] ++ [p] /\
    partContentType p = Some "application/octet-stream" /\
    multipart.content p = gifBytes ++ [] /\
    readDisposition (writtenHeader p) = Some ("file", "audio/a.gif").
Proof.
  split; [|split].
  - apply (proj1 (createFormFile_part "file" failingReader ""
                    (DefaultFormBuilder.NewFormBuilder "xyz"))).
    reflexivity.
  - destruct (proj1 (proj2 (createFormFile_part "file" failingReader "audio/a.gif"
                              (DefaultFormBuilder.NewFormBuilder "xyz"))))
      as (He & _); [discriminate|]. exact He.
  - destruct (proj1 (proj2 (createFormFile_part "file" failingReader "audio/a.gif"
                              (DefaultFormBuilder.NewFormBuilder "xyz"))))
      as (_ & p & Hp & Hct & Hc & Hr); [discriminate|].
    exists p. repeat split; try assumption.
    apply Hr; split; cbn; intuition discriminate.
Defined.

(** ** [CreateFormFileReader] *)

Lemma resolveFilename_sniffed prefix r filename mimeType :
  DefaultFormBuilder.resolveFilename
    (MultiReader [StringsReader prefix; r]) filename mimeType
  = sniffedFilename filename mimeType.
Proof. reflexivity. Qed.

Lemma partContentType_partHeader fieldname filename mimeType c :
  partContentType
    (multipart.mkPart (DefaultFormBuilder.partHeader fieldname filename mimeType) c)
  = if isEmpty mimeType then None else Some mimeType.
Proof.
  unfold partContentType, DefaultFormBuilder.partHeader.
  cbn [multipart.header headerValue]. cbn [String.eqb Ascii.eqb Bool.eqb andb].
  now destruct (isEmpty mimeType).
Qed.

Lemma firstMatch_nonempty sigs data n : sniff.firstMatch sigs data n <> "".
Proof.
  induction sigs as [|s sigs IH]; cbn [sniff.firstMatch]; [discriminate|].
  destruct (sniff.sigMatch s data n); [exact IH|discriminate].
Qed.

Lemma DetectContentType_nonempty data : sniff.DetectContentType data <> "".
Proof. apply firstMatch_nonempty. Qed.



(** ** The emitted filename *)

Lemma chars_unchars l : chars (unchars l) = l.
Proof. apply list_ascii_of_string_of_list_ascii. Qed.

Lemma takeWhile_Forall {A} (f : A -> bool) l :
  Forall (fun x => f x = true) (filepath.takeWhile f l).
Proof.
  induction l as [|x l IH]; cbn [filepath.takeWhile]; [constructor|].
  destruct (f x) eqn:E; constructor; assumption.
Qed.

Lemma lastElement_no_separator path :
  ~ In slash (filepath.lastElement path).
Proof.
  unfold filepath.lastElement. intros H. apply in_rev in H.
  pose proof (takeWhile_Forall
                (fun c => negb (filepath.IsPathSeparator c)) (rev path)) as F.
  rewrite Forall_forall in F. specialize (F _ H).
  unfold filepath.IsPathSeparator in F. now rewrite Ascii.eqb_refl in F.
Qed.

Lemma Base_shape path :
  filepath.Base path <> "" /\
  (filepath.Base path = String slash EmptyString \/
   ~ In slash (chars (filepath.Base path))).
Proof.
  unfold filepath.Base.
  destruct path as [|a path].
  - split; [discriminate|]. right. cbn. intros [H|[]]. discriminate H.
  - pose proof (lastElement_no_separator
                  (filepath.stripTrailing (chars (String a path)))) as Hno.
    destruct (filepath.lastElement (filepath.stripTrailing (chars (String a path))))
      as [|x l].
    + split; [discriminate|now left].
    + split; [discriminate|]. right. now rewrite chars_unchars.
Qed.

Lemma defaultFilename_nonempty mimeType :
  DefaultFormBuilder.defaultFilename mimeType <> "".
Proof.
  unfold DefaultFormBuilder.defaultFilename.
  repeat match goal with
         | |- context [if ?b then _ else _] => destruct b
         end; discriminate.
Qed.

Lemma resolveFilename_nonempty r filename mimeType :
  DefaultFormBuilder.resolveFilename r filename mimeType <> "".
Proof.
  unfold DefaultFormBuilder.resolveFilename.
  destruct (Name r) as [n|].
  - destruct filename as [|a f]; cbn [isEmpty].
    + destruct n; cbn [isEmpty]; [apply defaultFilename_nonempty|discriminate].
    + discriminate.
  - destruct filename; cbn [isEmpty]; [apply defaultFilename_nonempty|discriminate].
Qed.

(** X3: the filename that [CreateFormFileReaderWithMimeType] puts in the
    header is never empty: an empty filename is replaced, by the name of
    the reader or by the table, before the base name is taken, so that
    [filepath.Base] never sees the empty path; and the filename is the
    single slash or holds no slash. *)
Theorem emitted_filename_shape fieldname r filename mimeType fb :
  exists p fn,
    lastPart (snd (DefaultFormBuilder.CreateFormFileReaderWithMimeType
                     fieldname r filename mimeType fb)) = Some p /\
    partFilename p = Some fn /\
    fn <> "" /\
    (fn = String slash EmptyString \/ ~ In slash (chars fn)) /\
    fn = filepath.Base (DefaultFormBuilder.resolveFilename r filename mimeType) /\
    DefaultFormBuilder.resolveFilename r filename mimeType <> "".
Proof.
  eexists; eexists. split; [apply emitted_part|].
  split; [apply partFilename_partHeader|].
  destruct (Base_shape (DefaultFormBuilder.resolveFilename r filename mimeType))
    as [Hne Hs].
  repeat split; auto using resolveFilename_nonempty.
Qed.

(** ** [escapeQuotes] *)

Lemma escapeQuotes_length s :
  String.length s <= String.length (escapeQuotes s).
Proof.
  induction s as [|c s IH]; [auto|].
  cbn [escapeQuotes].
  destruct (Ascii.eqb c backslash); [|destruct (Ascii.eqb c dquote)];
    cbn [String.length]; lia.
Qed.

Lemma escapeQuotes_plain s :
  ~ needsEscape s -> escapeQuotes s = s.
Proof.
  unfold needsEscape, chars.
  induction s as [|c s IH]; [reflexivity|].
  cbn [list_ascii_of_string In escapeQuotes]. intros H.
  destruct (Ascii.eqb_spec c backslash) as [->|Hb]; [exfalso; apply H; auto|].
  destruct (Ascii.eqb_spec c dquote) as [->|Hq]; [exfalso; apply H; auto|].
  f_equal. apply IH. intros [H1|H1]; apply H; auto.
Qed.

Lemma escapeQuotes_changes s :
  needsEscape s -> String.length s < String.length (escapeQuotes s).
Proof.
  unfold needsEscape, chars.
  induction s as [|c s IH]; cbn [list_ascii_of_string In escapeQuotes].
  - intros [[]|[]].
  - pose proof (escapeQuotes_length s) as Hl. intros H.
    destruct (Ascii.eqb_spec c backslash) as [->|Hb]; [cbn [String.length]; lia|].
    destruct (Ascii.eqb_spec c dquote) as [->|Hq]; [cbn [String.length]; lia|].
    cbn [String.length]. apply -> Nat.succ_lt_mono. apply IH.
    destruct H as [[H|H]|[H|H]]; auto; congruence.
Qed.

Lemma escapeQuotes_inj a b : escapeQuotes a = escapeQuotes b -> a = b.
Proof.
  intros H.
  pose proof (quotedBody_escape a "") as Ha.
  pose proof (quotedBody_escape b "") as Hb.
  rewrite H in Ha. rewrite Ha in Hb. now inversion Hb.
Qed.

(** X4: [escapeQuotes] never shortens a string; it returns the string
    unchanged exactly when the string holds no backslash and no double
    quote, and makes it longer otherwise; and two different strings never
    have the same escaped text. *)
Theorem escapeQuotes_properties s :
  String.length s <= String.length (escapeQuotes s) /\
  (escapeQuotes s = s <-> ~ needsEscape s) /\
  (needsEscape s -> String.length s < String.length (escapeQuotes s)) /\
  (forall t, escapeQuotes s = escapeQuotes t -> s = t).
Proof.
  split; [apply escapeQuotes_length|].
  split; [|split; [apply escapeQuotes_changes|intros t; apply escapeQuotes_inj]].
  split.
  - intros E N. apply escapeQuotes_changes in N. rewrite E in N. lia.
  - apply escapeQuotes_plain.
Qed.

Lemma escapeQuotes_properties_witness :
  String.length "a\b" < String.length (escapeQuotes "a\b").
Proof.
  apply (proj1 (proj2 (proj2 (escapeQuotes_properties "a\b")))).
  left. cbn. auto.
Defined.

(** ** How a call ends *)

Lemma plan_outcome {B Request : Type} {FB : FormBuilder B}
      (c : Client B Request) plan method url :
  Outcome c plan method url (finish c (foldPlan plan (sendForm c method url))).
Proof.
  unfold Outcome. rewrite final_builder, finish_foldPlan.
  destruct (runCalls plan (createFormBuilder c)) as [[evs [e|]] b] eqn:E;
    cbn [snd fst trace].
  - left. destruct (runCalls_err _ _ _ _ _ E) as (done & call & rest & Hp & Hev).
    exists done, call, rest, e. auto.
  - apply runCalls_ok in E. subst evs. cbv zeta.
    destruct (newRequest c method url (body c b) (FormDataContentType b))
      as [req|e] eqn:N; cbn [snd fst trace].
    + right; right. exists req. rewrite <- app_assoc. auto.
    + right; left. exists e. auto.
Qed.

(** X5: a call of [CreateEditImage] or [CreateVariImage] ends in one of
    three ways.  Either one of the builder calls of the request fails:
    the calls before it were made in the order of the source, it is the
    last event and its error is returned with the zero response.  Or all
    builder calls are made, in order and ending with [Close], and
    [newRequest], called once with the method POST, the URL of the
    endpoint, the body buffer and the content type of the builder, fails:
    its error is returned and nothing is sent.  Or [sendRequest] is called
    once, on the request just built, and the call returns exactly what
    [sendRequest] returned.  The variation endpoint gets the model through
    the URL, the edit endpoint does not. *)
Theorem image_call_outcomes {B Request : Type} {FB : FormBuilder B}
        (c : Client B Request) :
  (forall request,
      Outcome c (editPlan request) "POST" (fullURL c "/images/edits" None)
              (CreateEditImage c request)) /\
  (forall request,
      Outcome c (variPlan request) "POST"
              (fullURL c "/images/variations" (Some (ImageVariRequest.Model request)))
              (CreateVariImage c request)).
Proof.
  split; intros request.
  - rewrite CreateEditImage_plan. apply plan_outcome.
  - rewrite CreateVariImage_plan. apply plan_outcome.
Qed.

(** ** The parts of a form, in order *)

Lemma default_applyCall_ok call (fb : DefaultFormBuilder.t) :
  fst (applyCall call fb) = None ->
  exists new,
    partsOf (snd (applyCall call fb)) = partsOf fb ++ new /\
    map partName new = map Some (planFields [call]).
Proof.
  destruct call as [fieldname r filename|fieldname value|];
    cbn [applyCall CreateFormFileReader WriteField Close
                   DefaultFormBuilder_FormBuilder planFields flat_map callField app map].
  - unfold DefaultFormBuilder.CreateFormFileReader.
    destruct (detectMimeType r) as [[mimeType newReader]|e]; [|discriminate].
    intros _. rewrite CreateFormFileReaderWithMimeType_parts.
    eexists; split; [reflexivity|]. cbn [map]. now rewrite partName_partHeader.
  - intros _.
    destruct (default_applyCall (CallWriteField fieldname value) fb)
      as (new & Hp & _ & Hw).
    destruct (Hw _ _ eq_refl) as [-> _].
    exists [fieldPart fieldname value]. split; [exact Hp|].
    cbn [map]. now rewrite partName_fieldPart.
  - intros _. exists []. rewrite app_nil_r. split; reflexivity.
Qed.

Lemma planFields_cons call plan :
  planFields (call :: plan) = planFields [call] ++ planFields plan.
Proof. unfold planFields. cbn [flat_map]. now rewrite app_nil_r. Qed.

Lemma default_runCalls_ok (Request : Type) plan (fb : DefaultFormBuilder.t) :
  snd (fst (runCalls (Request := Request) plan fb)) = None ->
  exists new,
    partsOf (snd (runCalls (Request := Request) plan fb)) = partsOf fb ++ new /\
    map partName new = map Some (planFields plan).
Proof.
  revert fb; induction plan as [|call rest IH]; intros fb.
  - intros _. exists []. cbn [runCalls snd]. now rewrite app_nil_r.
  - cbn [runCalls].
    pose proof (default_applyCall_ok call fb) as H1.
    destruct (applyCall call fb) as [[e|] fb1]; cbn [fst snd] in *; [discriminate|].
    destruct (H1 eq_refl) as (new1 & Hp1 & Hn1).
    specialize (IH fb1).
    destruct (runCalls rest fb1) as [[evs r] fb2]; cbn [fst snd] in *.
    intros Hr. destruct (IH Hr) as (new2 & Hp2 & Hn2).
    exists (new1 ++ new2). split.
    + now rewrite Hp2, Hp1, app_assoc.
    + now rewrite planFields_cons, !map_app, Hn1, Hn2.
Qed.

Lemma formOf_plan_order (Request : Type) (c : Client DefaultFormBuilder.t Request)
      plan method url :
  partsOf (createFormBuilder c) = [] ->
  (forall f r fn, In (CallCreateFormFileReader f r fn) plan -> ending r = EOF) ->
  map partName (formOf (finish c (foldPlan plan (sendForm c method url))))
  = map Some (planFields plan).
Proof.
  intros Hnew Hok. unfold formOf. rewrite final_builder.
  destruct (default_runCalls_ok Request plan (createFormBuilder c))
    as (new & Hp & Hn); [now apply runCalls_default_ok|].
  now rewrite Hp, Hnew.
Qed.

Lemma planFields_editPlan request :
  planFields (editPlan request)
  = ["image"]
      ++ match ImageEditRequest.Mask request with Some _ => ["mask"] | None => [] end
      ++ ["prompt"]
      ++ (if isEmpty (ImageEditRequest.Model request) then [] else ["model"])
      ++ ["n"; "size"]
      ++ (if isEmpty (ImageEditRequest.ResponseFormat request)
             || String.eqb (ImageEditRequest.Model request) "gpt-image-1"
          then [] else ["response_format"])
      ++ (if isEmpty (ImageEditRequest.Quality request)
             || String.eqb (ImageEditRequest.Model request) "gpt-image-1"
          then [] else ["quality"])
      ++ (if isEmpty (ImageEditRequest.User request) then [] else ["user"]).
Proof.
  unfold editPlan, CreateImageModelGptImage1.
  destruct (ImageEditRequest.Mask request);
    destruct (isEmpty (ImageEditRequest.Model request));
    destruct (isEmpty (ImageEditRequest.ResponseFormat request));
    destruct (isEmpty (ImageEditRequest.Quality request));
    destruct (isEmpty (ImageEditRequest.User request));
    destruct (String.eqb (ImageEditRequest.Model request) "gpt-image-1");
    reflexivity.
Qed.

(** X6: when the image and mask streams read to their end, the form
    that [CreateEditImage] builds with the default builder has exactly
    these parts, in this order: [image], then [mask] if a mask is given,
    [prompt], [model] if the model is not empty, [n], [size],
    [response_format] and [quality] if they are not empty and the model
    is not [gpt-image-1], [user] if it is not empty.  The form of
    [CreateVariImage] has exactly [image], [n], [size] and
    [response_format], in this order. *)
Theorem form_parts_in_order (Request : Type) boundary mkURL mkRequest send :
  let c := defaultClient (Request := Request) boundary mkURL mkRequest send in
  (forall request,
      ending (ImageEditRequest.Image request) = EOF ->
      (forall m, ImageEditRequest.Mask request = Some m -> ending m = EOF) ->
      map partName (formOf (CreateEditImage c request))
      = map Some
          (["image"]
             ++ match ImageEditRequest.Mask request with Some _ => ["mask"] | None => [] end
             ++ ["prompt"]
             ++ (if isEmpty (ImageEditRequest.Model request) then [] else ["model"])
             ++ ["n"; "size"]
             ++ (if isEmpty (ImageEditRequest.ResponseFormat request)
                    || String.eqb (ImageEditRequest.Model request) "gpt-image-1"
                 then [] else ["response_format"])
             ++ (if isEmpty (ImageEditRequest.Quality request)
                    || String.eqb (ImageEditRequest.Model request) "gpt-image-1"
                 then [] else ["quality"])
             ++ (if isEmpty (ImageEditRequest.User request) then [] else ["user"]))) /\
  (forall request,
      ending (ImageVariRequest.Image request) = EOF ->
      map partName (formOf (CreateVariImage c request))
      = map Some ["image"; "n"; "size"; "response_format"]).
Proof.
  intros c. split.
  - intros request Hi Hm.
    rewrite CreateEditImage_plan, <- planFields_editPlan.
    apply formOf_plan_order; [reflexivity|].
    intros f r fn. now apply editPlan_readers.
  - intros request Hi.
    rewrite CreateVariImage_plan.
    change ["image"; "n"; "size"; "response_format"]
      with (planFields (variPlan request)).
    apply formOf_plan_order; [reflexivity|].
    intros f r fn. now apply variPlan_readers.
Qed.

Lemma form_parts_in_order_witness :
  map partName
      (formOf (CreateEditImage sampleClient
                 (sampleEdit (StringsReader gifBytes) "dall-e-2" "url" "")))
  = map Some ["image"; "prompt"; "model"; "n"; "size"; "response_format"] /\
  map partName
      (formOf (CreateVariImage sampleClient (sampleVari (StringsReader gifBytes))))
  = map Some ["image"; "n"; "size"; "response_format"].
Proof.
  destruct (form_parts_in_order
              (list byte * string) "0123456789abcdef"
              (fun suffix _ => ("https://api.openai.com/v1" ++ suffix)%string)
              (fun _ _ body contentType => Ok (body, contentType))
              (fun _ => (zeroResponse, None)))
    as [Hedit Hvari].
  split.
  - apply (Hedit (sampleEdit (StringsReader gifBytes) "dall-e-2" "url" ""));
      [reflexivity|discriminate].
  - apply (Hvari (sampleVari (StringsReader gifBytes))). reflexivity.
Defined.

Lemma default_applyCall_names call (fb : DefaultFormBuilder.t) :
  exists new,
    partsOf (snd (applyCall call fb)) = partsOf fb ++ new /\
    Forall (fun p => exists f, partName p = Some f /\ In f (planFields [call])) new.
Proof.
  destruct (default_applyCall call fb) as (new & Hp & Hn & Hw).
  destruct call as [fieldname r filename|fieldname value|].
  - exists new. split; [exact Hp|].
    eapply Forall_impl; [|exact Hn].
    intros p Hname. exists fieldname. split; [exact Hname|now left].
  - exists new. split; [exact Hp|].
    eapply Forall_impl; [|exact Hn].
    intros p Hname. exists fieldname. split; [exact Hname|now left].
  - exists []. split; [|constructor].
    cbn [applyCall Close DefaultFormBuilder_FormBuilder].
    unfold DefaultFormBuilder.Close, partsOf.
    cbn [snd DefaultFormBuilder.writer multipart.Close multipart.parts].
    now rewrite app_nil_r.
Qed.

Lemma default_runCalls_names (Request : Type) plan (fb : DefaultFormBuilder.t) :
  exists new,
    partsOf (snd (runCalls (Request := Request) plan fb)) = partsOf fb ++ new /\
    Forall (fun p => exists f, partName p = Some f /\ In f (planFields plan)) new.
Proof.
  revert fb; induction plan as [|call rest IH]; intros fb.
  - exists []. cbn [runCalls snd]. rewrite app_nil_r. split; [reflexivity|constructor].
  - cbn [runCalls]. rewrite planFields_cons.
    destruct (default_applyCall_names call fb) as (new1 & Hp1 & Hn1).
    assert (Hn1' : Forall (fun p => exists f, partName p = Some f /\
                                  In f (planFields [call] ++ planFields rest)) new1).
    { eapply Forall_impl; [|exact Hn1].
      intros p (f & Hf & Hin). exists f. split; [exact Hf|].
      apply in_or_app. now left. }
    destruct (applyCall call fb) as [[e|] fb1]; cbn [snd] in *.
    + exists new1. now split.
    + destruct (IH fb1) as (new2 & Hp2 & Hn2).
      destruct (runCalls rest fb1) as [[evs r] fb2]; cbn [snd] in *.
      exists (new1 ++ new2). split; [now rewrite Hp2, Hp1, app_assoc|].
      apply Forall_app; split; [exact Hn1'|].
      eapply Forall_impl; [|exact Hn2].
      intros p (f & Hf & Hin). exists f. split; [exact Hf|].
      apply in_or_app. now right.
Qed.

Lemma formOf_plan_names (Request : Type) (c : Client DefaultFormBuilder.t Request)
      plan method url p :
  partsOf (createFormBuilder c) = [] ->
  In p (formOf (finish c (foldPlan plan (sendForm c method url)))) ->
  exists f, partName p = Some f /\ In f (planFields plan).
Proof.
  intros Hnew. unfold formOf. rewrite final_builder.
  destruct (default_runCalls_names Request plan (createFormBuilder c))
    as (new & Hp & Hn).
  rewrite Hp, Hnew. cbn [app]. rewrite Forall_forall in Hn. apply Hn.
Qed.

(** X7: whatever happens during the call, failure included, a part of
    the form of [CreateVariImage] is named [image], [n], [size] or
    [response_format]: the model and the user of the request never become
    form fields there.  A part of the form of [CreateEditImage] has one of
    the nine names of the source. *)
Theorem form_part_names (Request : Type) boundary mkURL mkRequest send :
  let c := defaultClient (Request := Request) boundary mkURL mkRequest send in
  (forall request p,
      In p (formOf (CreateVariImage c request)) ->
      exists f, partName p = Some f /\
                In f ["image"; "n"; "size"; "response_format"]) /\
  (forall request p,
      In p (formOf (CreateEditImage c request)) ->
      exists f, partName p = Some f /\
                In f ["image"; "mask"; "prompt"; "model"; "n"; "size";
                      "response_format"; "quality"; "user"]).
Proof.
  intros c.
  pose proof (defaultClient_fresh Request boundary mkURL mkRequest send) as Hfresh.
  split; intros request p.
  - rewrite CreateVariImage_plan. intros Hin.
    exact (formOf_plan_names Request c (variPlan request) _ _ p Hfresh Hin).
  - rewrite CreateEditImage_plan. intros Hin.
    destruct (formOf_plan_names Request c (editPlan request) _ _ p Hfresh Hin)
      as (f & Hf & Hp).
    exists f. split; [exact Hf|].
    rewrite planFields_editPlan in Hp.
    destruct (ImageEditRequest.Mask request);
      destruct (isEmpty (ImageEditRequest.Model request));
      destruct (isEmpty (ImageEditRequest.ResponseFormat request)
                || String.eqb (ImageEditRequest.Model request) "gpt-image-1");
      destruct (isEmpty (ImageEditRequest.Quality request)
                || String.eqb (ImageEditRequest.Model request) "gpt-image-1");
      destruct (isEmpty (ImageEditRequest.User request));
      cbn [app In] in Hp |- *; tauto.
Qed.

Lemma form_part_names_witness :
  exists f, partName (fieldPart "size" "") = Some f /\
            In f ["image"; "n"; "size"; "response_format"].
Proof.
  apply (proj1 (form_part_names
                  (list byte * string) "0123456789abcdef"
                  (fun suffix _ => ("https://api.openai.com/v1" ++ suffix)%string)
                  (fun _ _ body contentType => Ok (body, contentType))
                  (fun _ => (zeroResponse, None)))
               (sampleVari (StringsReader gifBytes)) (fieldPart "size" "")).
  vm_compute. tauto.
Defined.

(** ** The request handed to the HTTP layer *)

Lemma Outcome_request_event {B Request : Type} {FB : FormBuilder B}
      (c : Client B Request) plan method url out m u bd ct e :
  Outcome c plan method url out ->
  In (NewRequest m u bd ct e) (trace (snd out)) ->
  m = method /\ u = url /\
  bd = body c (builder (snd out)) /\
  ct = FormDataContentType (builder (snd out)).
Proof.
  assert (Hev : forall l : list Call,
             ~ In (NewRequest (Request := Request) m u bd ct e) (map okEvent l)).
  { intros l H. apply in_map_iff in H as (x & Hx & _). discriminate Hx. }
  intros [(done & call & rest & e0 & _ & Ht & _)
         |[(e0 & _ & Ht & _)|(req & _ & Ht & _)]] Hin;
    rewrite Ht in Hin; apply in_app_or in Hin as [Hin|Hin];
    try (now elim (Hev _ Hin)).
  - destruct Hin as [Hin|[]]. discriminate Hin.
  - destruct Hin as [Hin|[]]. inversion Hin; subst. auto.
  - destruct Hin as [Hin|[Hin|[]]]; [|discriminate Hin].
    inversion Hin; subst. auto.
Qed.

Lemma default_content_type (Request : Type) plan boundary :
  DefaultFormBuilder.FormDataContentType
    (snd (runCalls (Request := Request) plan
                   (DefaultFormBuilder.NewFormBuilder boundary)))
  = ("multipart/form-data; boundary="
       ++ (if multipart.ContainsAny boundary multipart.tspecials
           then quote ++ boundary ++ quote else boundary))%string.
Proof.
  unfold DefaultFormBuilder.FormDataContentType, multipart.FormDataContentType.
  now rewrite runCalls_boundary.
Qed.

(** X8: every request that [CreateEditImage] or [CreateVariImage] asks
    [newRequest] for is a POST whose body is the multipart encoding of
    the parts of the form, in the order in which they were added, closed
    by the final boundary line, and whose content type names the very
    boundary that delimits the parts (between quotes when the boundary
    holds a special character). *)
Theorem request_body_and_content_type (Request : Type) boundary mkURL mkRequest send :
  let c := defaultClient (Request := Request) boundary mkURL mkRequest send in
  let contentType :=
    ("multipart/form-data; boundary="
       ++ (if multipart.ContainsAny boundary multipart.tspecials
           then quote ++ boundary ++ quote else boundary))%string in
  (forall request m u bd ct e,
      In (NewRequest m u bd ct e) (trace (snd (CreateEditImage c request))) ->
      m = "POST" /\ u = mkURL "/images/edits" None /\
      ct = contentType /\
      bd = multipart.encodeParts boundary true (formOf (CreateEditImage c request))
             ++ terminator boundary) /\
  (forall request m u bd ct e,
      In (NewRequest m u bd ct e) (trace (snd (CreateVariImage c request))) ->
      m = "POST" /\
      u = mkURL "/images/variations" (Some (ImageVariRequest.Model request)) /\
      ct = contentType /\
      bd = multipart.encodeParts boundary true (formOf (CreateVariImage c request))
             ++ terminator boundary).
Proof.
  intros c contentType.
  destruct (request_body_is_encoded_form Request boundary mkURL mkRequest send)
    as [Hedit Hvari].
  split; intros request m u bd ct e Hin.
  - pose proof (Hedit request m u bd ct e Hin) as Hbd.
    rewrite CreateEditImage_plan in Hin.
    destruct (Outcome_request_event c _ _ _ _ m u bd ct e
                (plan_outcome c (editPlan request) "POST"
                   (fullURL c "/images/edits" None)) Hin)
      as (-> & -> & _ & Hct).
    repeat split; auto.
    rewrite Hct, final_builder. apply default_content_type.
  - pose proof (Hvari request m u bd ct e Hin) as Hbd.
    rewrite CreateVariImage_plan in Hin.
    destruct (Outcome_request_event c _ _ _ _ m u bd ct e
                (plan_outcome c (variPlan request) "POST"
                   (fullURL c "/images/variations"
                      (Some (ImageVariRequest.Model request)))) Hin)
      as (-> & -> & _ & Hct).
    repeat split; auto.
    rewrite Hct, final_builder. apply default_content_type.
Qed.

Lemma request_body_and_content_type_witness :
  multipart.buf
    (DefaultFormBuilder.writer
       (builder (snd (CreateVariImage sampleClient
                        (sampleVari (StringsReader gifBytes))))))
  = multipart.encodeParts "0123456789abcdef" true
      (formOf (CreateVariImage sampleClient (sampleVari (StringsReader gifBytes))))
      ++ terminator "0123456789abcdef".
Proof.
  refine (proj2 (proj2 (proj2
            (proj2 (request_body_and_content_type
                      (list byte * string) "0123456789abcdef"
                      (fun suffix _ => ("https://api.openai.com/v1" ++ suffix)%string)
                      (fun _ _ body contentType => Ok (body, contentType))
                      (fun _ => (zeroResponse, None)))
                   (sampleVari (StringsReader gifBytes))
                   "POST" "https://api.openai.com/v1/images/variations"
                   (multipart.buf
                      (DefaultFormBuilder.writer
                         (builder (snd (CreateVariImage sampleClient
                                          (sampleVari (StringsReader gifBytes)))))))
                   "multipart/form-data; boundary=0123456789abcdef" None _)))).
  vm_compute. tauto.
Defined.

(** ** An image given as a file *)

Lemma probeImage_OsFile name data pos :
  probeImage (OsFile name data pos) = OsFile name data 0.
Proof.
  unfold probeImage. cbn [isOsFile SeekStart].
  destruct (Read (OsFile name data 0) 16) as [res file] eqn:R.
  cbn [Read] in R.
  destruct (16 =? 0)%nat; [inversion R; reflexivity|].
  destruct (isNil (skipn 0 data)); inversion R; reflexivity.
Qed.

Lemma Read_OsFile_512 name data pos :
  exists e r',
    Read (OsFile name data pos) 512 = ((firstn 512 (skipn pos data), e), r') /\
    (e = None \/ e = Some EOF).
Proof.
  cbn [Read]. change (512 =? 0)%nat with false. cbv iota.
  destruct (skipn pos data) as [|b rest] eqn:E; cbn [isNil].
  - exists (Some EOF). eexists. split; [|now right].
    now rewrite firstn_nil.
  - exists None. eexists. split; [reflexivity|now left].
Qed.

Lemma DetectContentType_firstn data :
  sniff.DetectContentType (firstn 512 data) = sniff.DetectContentType data.
Proof.
  unfold sniff.DetectContentType, sniff.sniffLen.
  now rewrite firstn_firstn, Nat.min_id.
Qed.

Lemma runCalls_first (Request : Type) call rest (fb : DefaultFormBuilder.t) :
  exists more,
    partsOf (snd (runCalls (Request := Request) (call :: rest) fb))
    = partsOf (snd (applyCall call fb)) ++ more.
Proof.
  cbn [runCalls].
  destruct (applyCall call fb) as [[e|] fb1]; cbn [snd].
  - exists []. now rewrite app_nil_r.
  - destruct (default_runCalls_names Request rest fb1) as (new & Hp & _).
    destruct (runCalls rest fb1) as [[evs r] fb2]; cbn [snd] in *.
    now exists new.
Qed.

Lemma file_image_first_part (Request : Type) (c : Client DefaultFormBuilder.t Request)
      name data pos rest method url :
  partsOf (createFormBuilder c) = [] ->
  exists p more,
    formOf (finish c (foldPlan
                        (CallCreateFormFileReader "image" (OsFile name data pos) ""
                           :: rest)
                        (sendForm c method url))) = p :: more /\
    partName p = Some "image" /\
    multipart.content p = skipn pos data /\
    partContentType p = Some (sniff.DetectContentType (skipn pos data)) /\
    partFilename p
    = Some (DefaultFormBuilder.defaultFilename
              (sniff.DetectContentType (skipn pos data))).
Proof.
  intros Hnew. unfold formOf. rewrite final_builder.
  destruct (runCalls_first Request
              (CallCreateFormFileReader "image" (OsFile name data pos) "")
              rest (createFormBuilder c)) as (more & Hp).
  rewrite Hp. clear Hp.
  cbn [applyCall CreateFormFileReader DefaultFormBuilder_FormBuilder].
  destruct (Read_OsFile_512 name data pos) as (e & r' & R & He).
  destruct (rebuilt_reader _ _ _ _ R He) as (Hc & _).
  unfold DefaultFormBuilder.CreateFormFileReader.
  rewrite (detectMimeType_ok _ _ _ _ R He).
  rewrite CreateFormFileReaderWithMimeType_parts, Hnew. cbn [app].
  eexists; eexists. split; [reflexivity|].
  rewrite partName_partHeader, partFilename_partHeader, partContentType_partHeader,
    resolveFilename_sniffed, DetectContentType_firstn.
  cbn [multipart.content sniffedFilename isEmpty].
  rewrite Base_defaultFilename, Hc.
  repeat split; auto.
  pose proof (DetectContentType_nonempty (skipn pos data)) as Hne.
  destruct (sniff.DetectContentType (skipn pos data)); [congruence|reflexivity].
Qed.

(** X9: when the image of the request is an [*os.File] on a regular,
    seekable file, [CreateEditImage] rewinds it: the first part of the form is the
    [image] part and holds all the bytes of the file, whatever the offset
    the file was at, while [CreateVariImage] sends the file from its
    current offset on.  In both, the content type is sniffed from the
    bytes sent, and the filename comes from the table for that type: the
    name of the file is not used. *)
Theorem file_image_part (Request : Type) boundary mkURL mkRequest send
        name data pos :
  let c := defaultClient (Request := Request) boundary mkURL mkRequest send in
  (forall request,
      ImageEditRequest.Image request = OsFile name data pos ->
      exists p more,
        formOf (CreateEditImage c request) = p :: more /\
        partName p = Some "image" /\
        multipart.content p = data /\
        partContentType p = Some (sniff.DetectContentType data) /\
        partFilename p
        = Some (DefaultFormBuilder.defaultFilename (sniff.DetectContentType data))) /\
  (forall request,
      ImageVariRequest.Image request = OsFile name data pos ->
      exists p more,
        formOf (CreateVariImage c request) = p :: more /\
        partName p = Some "image" /\
        multipart.content p = skipn pos data /\
        partContentType p = Some (sniff.DetectContentType (skipn pos data)) /\
        partFilename p
        = Some (DefaultFormBuilder.defaultFilename
                  (sniff.DetectContentType (skipn pos data)))).
Proof.
  intros c.
  pose proof (defaultClient_fresh Request boundary mkURL mkRequest send) as Hfresh.
  split; intros request Himg.
  - rewrite CreateEditImage_plan. unfold editPlan. cbn [app].
    rewrite Himg, probeImage_OsFile.
    apply (file_image_first_part Request c name data 0). exact Hfresh.
  - rewrite CreateVariImage_plan. unfold variPlan. rewrite Himg.
    apply (file_image_first_part Request c name data pos). exact Hfresh.
Qed.

Lemma file_image_part_witness :
  (exists p more,
      formOf (CreateEditImage sampleClient
                (sampleEdit (OsFile "dir/cat.gif" gifBytes 4) "dall-e-2" "" ""))
      = p :: more /\
      multipart.content p = gifBytes /\
      partFilename p = Some "image.gif") /\
  (exists p more,
      formOf (CreateVariImage sampleClient
                (sampleVari (OsFile "dir/cat.gif" gifBytes 4)))
      = p :: more /\
      multipart.content p = skipn 4 gifBytes /\
      partFilename p = Some "file.bin").
Proof.
  destruct (file_image_part
              (list byte * string) "0123456789abcdef"
              (fun suffix _ => ("https://api.openai.com/v1" ++ suffix)%string)
              (fun _ _ body contentType => Ok (body, contentType))
              (fun _ => (zeroResponse, None))
              "dir/cat.gif" gifBytes 4)
    as [Hedit Hvari].
  split.
  - destruct (Hedit (sampleEdit (OsFile "dir/cat.gif" gifBytes 4) "dall-e-2" "" "")
                    eq_refl)
      as (p & more & Hf & _ & Hc & _ & Hn).
    exists p, more. repeat split; assumption.
  - destruct (Hvari (sampleVari (OsFile "dir/cat.gif" gifBytes 4)) eq_refl)
      as (p & more & Hf & _ & Hc & _ & Hn).
    exists p, more. repeat split; assumption.
Defined.

(** ** What the sniffer answers *)

Lemma sigMatch_cases s data n :
  sniff.sigMatch s data n = "" \/ sniff.sigMatch s data n = sigType s.
Proof.
  destruct s as [h|mask pat skipWS ct|sig ct| |]; cbn [sniff.sigMatch sigType].
  - destruct (_ <? _)%nat; [now left|]. destruct (sniff.htmlLoop _ _); auto.
  - destruct (negb _); [now left|]. destruct (_ <? _)%nat; [now left|].
    destruct (sniff.maskedLoop _ _ _); auto.
  - destruct (sniff.HasPrefix _ _); auto.
  - unfold sniff.mp4Match.
    destruct (_ <? _)%nat; [now left|]. destruct (_ || _)%bool; [now left|].
    destruct (negb _); [now left|]. destruct (sniff.mp4Loop _ _ _ _); auto.
  - destruct (existsb _ _); auto.
Qed.

Lemma firstMatch_possible sigs data n :
  In (sniff.firstMatch sigs data n)
     ("application/octet-stream" :: map sigType sigs).
Proof.
  induction sigs as [|s sigs IH]; cbn [sniff.firstMatch map]; [now left|].
  destruct (sigMatch_cases s data n) as [E|E].
  - rewrite E. destruct IH as [IH|IH]; [now left|right; now right].
  - destruct (sniff.sigMatch s data n) eqn:M.
    + destruct IH as [IH|IH]; [now left|right; now right].
    + right; left. now rewrite E.
Qed.

Lemma DetectContentType_possible data :
  In (sniff.DetectContentType data) possibleTypes.
Proof. apply firstMatch_possible. Qed.

Lemma sniffed_default_filenames mimeType :
  In mimeType possibleTypes ->
  mimeType <> "image/tiff" /\ mimeType <> "image/jpg" /\
  In (DefaultFormBuilder.defaultFilename mimeType)
     ["image.png"; "image.jpg"; "image.gif"; "image.webp"; "image.bmp"; "file.bin"].
Proof.
  unfold possibleTypes. cbn [map sniff.sniffSignatures sigType In].
  intros H.
  repeat match goal with
         | H : _ \/ _ |- _ => destruct H as [H|H]
         | H : False |- _ => destruct H
         end; subst mimeType;
    (split; [discriminate|split; [discriminate|cbn; tauto]]).
Qed.

(** X10: the type that [detectMimeType] returns is never [image/tiff]
    and never [image/jpg]: the sniffer has no signature for them.  So the
    rows of the filename table for these two types are never used by
    [CreateFormFileReader]: with an empty filename the part is named
    [image.png], [image.jpg], [image.gif], [image.webp], [image.bmp] or
    [file.bin]. *)
Theorem sniffed_filename_never_tiff fieldname r fb mimeType newReader :
  detectMimeType r = Ok (mimeType, newReader) ->
  mimeType <> "image/tiff" /\ mimeType <> "image/jpg" /\
  exists p fn,
    lastPart (snd (DefaultFormBuilder.CreateFormFileReader fieldname r "" fb))
    = Some p /\
    partFilename p = Some fn /\
    In fn ["image.png"; "image.jpg"; "image.gif"; "image.webp"; "image.bmp";
           "file.bin"].
Proof.
  intros H.
  destruct (detectMimeType_inv _ _ _ H) as (prefix & e & r' & R & He & -> & ->).
  destruct (sniffed_default_filenames _ (DetectContentType_possible prefix))
    as (Ht & Hj & Hin).
  split; [exact Ht|]. split; [exact Hj|].
  unfold DefaultFormBuilder.CreateFormFileReader. rewrite H.
  eexists; eexists. split; [apply emitted_part|].
  split; [apply partFilename_partHeader|].
  rewrite resolveFilename_sniffed. cbn [sniffedFilename isEmpty].
  now rewrite Base_defaultFilename.
Qed.

Lemma sniffed_filename_never_tiff_witness :
  exists p fn,
    lastPart (snd (DefaultFormBuilder.CreateFormFileReader
                     "image"
                     (StringsReader ([x49; x49; x2a; x00] ++ sniff.bytes "tiff data"))
                     "" (DefaultFormBuilder.NewFormBuilder "xyz")))
    = Some p /\
    partFilename p = Some fn /\
    In fn ["image.png"; "image.jpg"; "image.gif"; "image.webp"; "image.bmp";
           "file.bin"].
Proof.
  exact (proj2 (proj2 (sniffed_filename_never_tiff
                         "image"
                         (StringsReader ([x49; x49; x2a; x00]
                                           ++ sniff.bytes "tiff data"))
                         (DefaultFormBuilder.NewFormBuilder "xyz")
                         "application/octet-stream" _ eq_refl))).
Defined.

(** ** Images the sniffer knows *)

Lemma firstMatch_skip s sigs data n :
  sniff.sigMatch s data n = "" ->
  sniff.firstMatch (s :: sigs) data n = sniff.firstMatch sigs data n.
Proof. intros H. cbn [sniff.firstMatch]. now rewrite H. Qed.

Lemma firstMatch_hit s sigs data n ct :
  sniff.sigMatch s data n = ct -> ct <> "" ->
  sniff.firstMatch (s :: sigs) data n = ct.
Proof.
  intros H Hne. cbn [sniff.firstMatch]. rewrite H.
  destruct ct; [congruence|reflexivity].
Qed.

Lemma sig_html_no h data n :
  sniff.htmlLoop h (skipn n data) = false ->
  sniff.sigMatch (sniff.htmlSig h) data n = "".
Proof.
  intros H. cbn [sniff.sigMatch]. rewrite H. destruct (_ <? _)%nat; reflexivity.
Qed.

Lemma sig_masked_no mask pat (skipWS : bool) ct data n :
  sniff.maskedLoop pat mask (if skipWS then skipn n data else data) = false ->
  sniff.sigMatch (sniff.maskedSig mask pat skipWS ct) data n = "".
Proof.
  intros H. cbn [sniff.sigMatch]. rewrite H.
  destruct (negb _); [reflexivity|]. destruct (_ <? _)%nat; reflexivity.
Qed.

Lemma sig_exact_no sig ct data n :
  sniff.HasPrefix data sig = false ->
  sniff.sigMatch (sniff.exactSig sig ct) data n = "".
Proof. intros H. cbn [sniff.sigMatch]. now rewrite H. Qed.

Lemma sig_exact_yes sig ct data n :
  sniff.HasPrefix data sig = true ->
  sniff.sigMatch (sniff.exactSig sig ct) data n = ct.
Proof. intros H. cbn [sniff.sigMatch]. now rewrite H. Qed.

Lemma maskedLoop_masked_out d pat mask data :
  sniff.maskedLoop (x00 :: pat) (x00 :: mask) (d :: data)
  = sniff.maskedLoop pat mask data.
Proof.
  cbn [sniff.maskedLoop]. change (sniff.val x00) with 0%N.
  now rewrite N.land_0_r.
Qed.

Ltac sniff_skip :=
  repeat first
    [ rewrite firstMatch_skip by (apply sig_html_no; vm_compute; reflexivity)
    | rewrite firstMatch_skip by (apply sig_masked_no; vm_compute; reflexivity)
    | rewrite firstMatch_skip by (apply sig_exact_no; vm_compute; reflexivity) ].

Lemma HasPrefix_firstn sig rest n :
  (List.length sig <=? n)%nat = true ->
  sniff.HasPrefix (firstn n (sig ++ rest)) sig = true.
Proof.
  revert n; induction sig as [|y sig IH]; intros n Hn.
  - cbn [app]. now destruct (firstn n rest).
  - destruct n as [|n]; [discriminate Hn|].
    cbn [app firstn sniff.HasPrefix].
    rewrite (Byte.byte_dec_lb eq_refl). cbn [andb]. apply IH. exact Hn.
Qed.

Ltac sniff_exact rest :=
  unfold sniff.DetectContentType, sniff.sniffLen, sniff.sniffSignatures;
  cbv zeta; sniff_skip;
  apply firstMatch_hit; [|discriminate];
  apply sig_exact_yes;
  match goal with
  | |- sniff.HasPrefix _ ?sig = true =>
      exact (HasPrefix_firstn sig rest 512 eq_refl)
  end.

Lemma DetectContentType_known prefix mimeType filename :
  knownImage prefix mimeType filename ->
  sniff.DetectContentType prefix = mimeType /\
  DefaultFormBuilder.defaultFilename mimeType = filename.
Proof.
  intros K. split; [|destruct K; reflexivity].
  destruct K as [rest|rest|rest|rest|rest|a b c d rest].
  - sniff_exact rest.
  - sniff_exact rest.
  - sniff_exact rest.
  - sniff_exact rest.
  - sniff_exact rest.
  - unfold sniff.DetectContentType, sniff.sniffLen, sniff.sniffSignatures.
    cbv zeta. sniff_skip.
    apply firstMatch_hit; [|discriminate].
    cbn [sniff.sigMatch].
    change (firstn 512 (sniff.bytes "RIFF" ++ [a; b; c; d]
                          ++ sniff.bytes "WEBPVP" ++ rest))
      with (sniff.bytes "RIFF" ++ [a; b; c; d] ++ sniff.bytes "WEBPVP"
              ++ firstn 498 rest).
    replace (negb (_ =? _)%nat) with false by (vm_compute; reflexivity).
    replace (_ <? _)%nat with false by (vm_compute; reflexivity).
    change (sniff.maskedLoop
              (sniff.bytes "RIFF" ++ sniff.ZZ 4 ++ sniff.bytes "WEBPVP")
              (sniff.FF 4 ++ sniff.ZZ 4 ++ sniff.FF 6)
              (sniff.bytes "RIFF" ++ [a; b; c; d] ++ sniff.bytes "WEBPVP"
                 ++ firstn 498 rest))
      with (sniff.maskedLoop
              ([x00; x00; x00; x00] ++ sniff.bytes "WEBPVP")
              ([x00; x00; x00; x00] ++ sniff.FF 6)
              ([a; b; c; d] ++ sniff.bytes "WEBPVP" ++ firstn 498 rest)).
    cbn [app]. rewrite !maskedLoop_masked_out.
    vm_compute. reflexivity.
Qed.

(** X11: when the first read of a stream starts with the signature of
    a PNG, JPEG, GIF, BMP or WEBP image, [CreateFormFileReader] with an
    empty filename writes the stream as a part whose content type is the
    type of that format and whose filename is the one the table has for
    it ([image.png], [image.jpg], [image.gif], [image.bmp], [image.webp]),
    whatever bytes follow the signature. *)
Theorem known_image_part fieldname r fb prefix e r' mimeType filename :
  Read r 512 = ((prefix, e), r') ->
  e = None \/ e = Some EOF ->
  knownImage prefix mimeType filename ->
  exists p,
    partsOf (snd (DefaultFormBuilder.CreateFormFileReader fieldname r "" fb))
    = partsOf fb ++ [p] /\
    partName p = Some fieldname /\
    partContentType p = Some mimeType /\
    partFilename p = Some filename /\
    multipart.content p = contents r.
Proof.
  intros R He K.
  destruct (DetectContentType_known _ _ _ K) as [Hm Hf].
  unfold DefaultFormBuilder.CreateFormFileReader.
  rewrite (detectMimeType_ok _ _ _ _ R He), Hm.
  destruct (rebuilt_reader _ _ _ _ R He) as (Hc & _).
  eexists. split; [apply CreateFormFileReaderWithMimeType_parts|].
  rewrite partName_partHeader, partFilename_partHeader, partContentType_partHeader,
    resolveFilename_sniffed.
  cbn [multipart.content sniffedFilename isEmpty].
  rewrite Hf. repeat split; auto.
  - destruct K; reflexivity.
  - destruct K; reflexivity.
Qed.

Lemma known_image_part_witness :
  exists p,
    partsOf (snd (DefaultFormBuilder.CreateFormFileReader
                    "image" (StringsReader ([xff; xd8; xff] ++ sniff.bytes "jfif"))
                    "" (DefaultFormBuilder.NewFormBuilder "xyz")))
    = [] ++ [p] /\
    partContentType p = Some "image/jpeg" /\
    partFilename p = Some "image.jpg".
Proof.
  destruct (known_image_part
              "image" (StringsReader ([xff; xd8; xff] ++ sniff.bytes "jfif"))
              (DefaultFormBuilder.NewFormBuilder "xyz")
              ([xff; xd8; xff] ++ sniff.bytes "jfif") None (StringsReader [])
              "image/jpeg" "image.jpg"
              eq_refl (or_introl eq_refl) (knownJPEG (sniff.bytes "jfif")))
    as (p & Hp & _ & Hct & Hf & _).
  exists p. repeat split; assumption.
Defined.

(** ** An explicit content type *)


(** ** The text fields of [CreateEditImage] *)

Lemma editPlan_model request :
  ImageEditRequest.Model request <> "" ->
  In (CallWriteField "model" (ImageEditRequest.Model request)) (editPlan request).
Proof.
  intros Hm. unfold editPlan.
  destruct (ImageEditRequest.Model request) eqn:EM; [congruence|].
  cbn [isEmpty negb].
  do 3 (apply in_or_app; right). apply in_or_app; left. now left.
Qed.

Lemma editPlan_user request :
  ImageEditRequest.User request <> "" ->
  In (CallWriteField "user" (ImageEditRequest.User request)) (editPlan request).
Proof.
  intros Hu. unfold editPlan.
  destruct (ImageEditRequest.User request) eqn:EU; [congruence|].
  cbn [isEmpty negb].
  do 7 (apply in_or_app; right). apply in_or_app; left. now left.
Qed.

(** X13: when the image and mask streams read to their end, the form
    of [CreateEditImage] holds the prompt as the field [prompt], even an
    empty one, and the model and the user as the fields [model] and [user]
    when they are not empty, each with the bytes of the value as they
    are. *)
Theorem edit_text_fields (Request : Type) boundary mkURL mkRequest send request :
  let c := defaultClient (Request := Request) boundary mkURL mkRequest send in
  let form := formOf (CreateEditImage c request) in
  ending (ImageEditRequest.Image request) = EOF ->
  (forall m, ImageEditRequest.Mask request = Some m -> ending m = EOF) ->
  In (fieldPart "prompt" (ImageEditRequest.Prompt request)) form /\
  (ImageEditRequest.Model request <> "" ->
   In (fieldPart "model" (ImageEditRequest.Model request)) form) /\
  (ImageEditRequest.User request <> "" ->
   In (fieldPart "user" (ImageEditRequest.User request)) form).
Proof.
  intros c form Hi Hmask. unfold form. rewrite CreateEditImage_plan.
  destruct (formOf_plan Request c (editPlan request) "POST"
              (fullURL c "/images/edits" None)
              (defaultClient_fresh Request boundary mkURL mkRequest send))
    as [_ Hfields].
  specialize (Hfields (fun f r fn => editPlan_readers request f r fn Hi Hmask)).
  destruct (editPlan_always request) as (Hp & _ & _).
  split; [now apply Hfields|].
  split; intros Hne; apply Hfields.
  - now apply editPlan_model.
  - now apply editPlan_user.
Qed.

Lemma edit_text_fields_witness :
  In (fieldPart "prompt" "a cat")
     (formOf (CreateEditImage sampleClient
                (sampleEdit (StringsReader gifBytes) "dall-e-2" "" ""))) /\
  In (fieldPart "model" "dall-e-2")
     (formOf (CreateEditImage sampleClient
                (sampleEdit (StringsReader gifBytes) "dall-e-2" "" ""))).
Proof.
  destruct (edit_text_fields
              (list byte * string) "0123456789abcdef"
              (fun suffix _ => ("https://api.openai.com/v1" ++ suffix)%string)
              (fun _ _ body contentType => Ok (body, contentType))
              (fun _ => (zeroResponse, None))
              (sampleEdit (StringsReader gifBytes) "dall-e-2" "" "")
              eq_refl)
    as (Hp & Hm & _); [discriminate|].
  split; [exact Hp|]. apply Hm. discriminate.
Defined.

(** ** The body after a failure *)

Lemma failed_plan_open (Request : Type) calls boundary evs e fb :
  ~ In CallClose calls ->
  runCalls (Request := Request) (calls ++ [CallClose])
           (DefaultFormBuilder.NewFormBuilder boundary) = ((evs, Some e), fb) ->
  multipart.buf (DefaultFormBuilder.writer fb)
  = multipart.encodeParts boundary true (partsOf fb).
Proof.
  intros Hno. rewrite runCalls_snoc.
  pose proof (runCalls_Open Request calls (DefaultFormBuilder.NewFormBuilder boundary) Hno)
    as Ho.
  pose proof (runCalls_boundary Request calls (DefaultFormBuilder.NewFormBuilder boundary))
    as Hb.
  destruct (runCalls calls (DefaultFormBuilder.NewFormBuilder boundary))
    as [[evs0 [e0|]] fb0]; cbn [snd] in *.
  - intros H; inversion H; subst.
    destruct Ho as [Hbuf _]; [split; reflexivity|].
    unfold partsOf. now rewrite Hbuf, Hb.
  - cbn [applyCall Close DefaultFormBuilder_FormBuilder].
    unfold DefaultFormBuilder.Close. discriminate.
Qed.

Lemma failed_form_bytes (Request : Type) boundary mkURL mkRequest send
      calls method url pre call e :
  let c := defaultClient (Request := Request) boundary mkURL mkRequest send in
  let out := finish c (foldPlan (calls ++ [CallClose]) (sendForm c method url)) in
  ~ In CallClose calls ->
  trace (snd out) = pre ++ [BuilderCall call (Some e)] ->
  multipart.buf (DefaultFormBuilder.writer (builder (snd out)))
  = multipart.encodeParts boundary true (formOf out).
Proof.
  intros c out Hno. unfold out, formOf. rewrite final_builder, finish_foldPlan.
  destruct (runCalls (calls ++ [CallClose]) (createFormBuilder c))
    as [[evs [e0|]] fb] eqn:E; cbn [snd].
  - intros _. exact (failed_plan_open Request calls boundary evs e0 fb Hno E).
  - apply runCalls_ok in E. subst evs. cbv zeta.
    assert (Hev : forall x : Event Request,
               In x (map okEvent (calls ++ [CallClose])) ->
               x <> BuilderCall call (Some e)).
    { intros x Hx. apply in_map_iff in Hx as (y & <- & _). discriminate. }
    destruct (newRequest c method url (body c fb) (FormDataContentType fb))
      as [req|e1]; cbn [snd trace]; intros Ht; exfalso.
    + apply app_inj_tail in Ht as [_ Ht]. discriminate Ht.
    + apply app_inj_tail in Ht as [_ Ht]. discriminate Ht.
Qed.

(** X14: when a builder call of [CreateEditImage] or [CreateVariImage]
    fails, the body buffer is left with the encoding of the parts written
    so far and without the closing boundary line: [Close] has not been
    called on it. *)
Theorem failed_form_is_unterminated (Request : Type) boundary mkURL mkRequest send :
  let c := defaultClient (Request := Request) boundary mkURL mkRequest send in
  (forall request pre call e,
      trace (snd (CreateEditImage c request)) = pre ++ [BuilderCall call (Some e)] ->
      multipart.buf (DefaultFormBuilder.writer
                       (builder (snd (CreateEditImage c request))))
      = multipart.encodeParts boundary true (formOf (CreateEditImage c request)) /\
      ~ In (okEvent CallClose) (trace (snd (CreateEditImage c request)))) /\
  (forall request pre call e,
      trace (snd (CreateVariImage c request)) = pre ++ [BuilderCall call (Some e)] ->
      multipart.buf (DefaultFormBuilder.writer
                       (builder (snd (CreateVariImage c request))))
      = multipart.encodeParts boundary true (formOf (CreateVariImage c request)) /\
      ~ In (okEvent CallClose) (trace (snd (CreateVariImage c request)))).
Proof.
  intros c.
  assert (Hclose : forall plan method url pre call e,
             (forall done c0 rest, plan = done ++ c0 :: rest -> c0 = CallClose ->
                                   rest = []) ->
             trace (snd (finish c (foldPlan plan (sendForm c method url))))
             = pre ++ [BuilderCall call (Some e)] ->
             ~ In (okEvent CallClose)
                  (trace (snd (finish c (foldPlan plan (sendForm c method url)))))).
  { intros plan method url pre call e Hlast Ht Hin.
    destruct (plan_outcome c plan method url)
      as [(done & call0 & rest & e0 & Hp & Htr & _)
         |[(e0 & _ & Htr & _)|(req & _ & Htr & _)]].
    - rewrite Htr in Hin.
      apply in_app_or in Hin as [Hin|[Hin|[]]]; [|discriminate Hin].
      apply in_map_iff in Hin as (x & Hx & Hxin).
      inversion Hx; subst x.
      apply in_split in Hxin as (d1 & d2 & ->).
      rewrite <- app_assoc in Hp. cbn [app] in Hp.
      specialize (Hlast _ _ _ Hp eq_refl).
      destruct d2; discriminate Hlast.
    - rewrite Htr in Ht. apply app_inj_tail in Ht as [_ Ht]. discriminate Ht.
    - rewrite Htr in Ht.
      change (map okEvent plan
                ++ [NewRequest method url
                      (body c (builder (snd (finish c (foldPlan plan (sendForm c method url))))))
                      (FormDataContentType
                         (builder (snd (finish c (foldPlan plan (sendForm c method url))))))
                      None;
                    SendRequest req (snd (sendRequest c req))])
        with (map okEvent plan
                ++ [NewRequest method url
                      (body c (builder (snd (finish c (foldPlan plan (sendForm c method url))))))
                      (FormDataContentType
                         (builder (snd (finish c (foldPlan plan (sendForm c method url))))))
                      None]
                ++ [SendRequest req (snd (sendRequest c req))]) in Ht.
      rewrite app_assoc in Ht.
      apply app_inj_tail in Ht as [_ Ht]. discriminate Ht. }
  assert (Hsnoc : forall calls : list Call,
             ~ In CallClose calls ->
             forall done c0 rest,
               calls ++ [CallClose] = done ++ c0 :: rest -> c0 = CallClose ->
               rest = []).
  { intros calls Hno done c0 rest E ->.
    destruct rest as [|x rest] using rev_ind; [reflexivity|]. exfalso.
    clear IHrest.
    change (done ++ CallClose :: rest ++ [x])
      with (done ++ (CallClose :: rest) ++ [x]) in E.
    rewrite app_assoc in E. apply app_inj_tail in E as [-> _].
    apply Hno, in_or_app. right. now left. }
  split; intros request pre call e Ht.
  - rewrite CreateEditImage_plan in *.
    destruct (editPlan_ends_with_Close request) as (calls & Ep & Hno).
    rewrite Ep in *. split.
    + eapply failed_form_bytes; eauto.
    + eapply Hclose; eauto.
  - rewrite CreateVariImage_plan in *.
    set (calls := [ CallCreateFormFileReader "image" (ImageVariRequest.Image request) "";
                    CallWriteField "n" (Itoa (ImageVariRequest.N request));
                    CallWriteField "size" (ImageVariRequest.Size request);
                    CallWriteField "response_format"
                                   (ImageVariRequest.ResponseFormat request) ]).
    assert (Hno : ~ In CallClose calls).
    { unfold calls. cbn [In]. intros H.
      repeat match goal with
             | H : _ \/ _ |- _ => destruct H
             | H : False |- _ => destruct H
             end; discriminate. }
    change (variPlan request) with (calls ++ [CallClose]) in *. split.
    + eapply failed_form_bytes; eauto.
    + eapply Hclose; eauto.
Qed.

Lemma failed_form_is_unterminated_witness :
  multipart.buf
    (DefaultFormBuilder.writer
       (builder (snd (CreateEditImage sampleClient
                        (sampleEdit (Stream None [gifBytes] (Err "connection reset") false)
                                    "dall-e-2" "url" "hd")))))
  = multipart.encodeParts "0123456789abcdef" true
      (formOf (CreateEditImage sampleClient
                 (sampleEdit (Stream None [gifBytes] (Err "connection reset") false)
                             "dall-e-2" "url" "hd"))).
Proof.
  refine (proj1 (proj1 (failed_form_is_unterminated
                          (list byte * string) "0123456789abcdef"
                          (fun suffix _ => ("https://api.openai.com/v1" ++ suffix)%string)
                          (fun _ _ body contentType => Ok (body, contentType))
                          (fun _ => (zeroResponse, None)))
                       (sampleEdit (Stream None [gifBytes] (Err "connection reset") false)
                                   "dall-e-2" "url" "hd")
                       [] _ (Err "connection reset") _)).
  vm_compute. reflexivity.
Defined.
